(** * BRVM scraper, bulletin extractor and webhook dispatcher

    A shallow embedding of the service layer of the repository
    ([app/services/scraper.py], [app/services/pdf_extractor.py],
    [app/services/webhook_manager.py]) together with the parts of
    [app/models.py], [app/config.py] and [app/database.py] they rely on.

    Conventions of the embedding:
    - a Python [str] is the list of its code points ([pystr]);
    - a [datetime.date] is its proleptic Gregorian ordinal
      ([date.toordinal()]), a [datetime.time] a record of its four fields;
    - a Python computation that may raise is a value of [result];
      [try ... except] is [try_except];
    - the outside world (HTTP endpoints, the clock, the database server,
      the file system, the HTML and PDF libraries) is a record of oracles
      indexed by the number of interactions made so far;
    - the SQLAlchemy session is a record holding the committed tables, the
      rows as the open transaction sees them, and the objects passed to
      [db.add] that are not flushed yet; objects loaded before a commit
      are reloaded when they are read after it. *)

From Stdlib Require Import ZArith NArith List String Ascii Bool Lia.
From Stdlib Require Import Floats.SpecFloat.
From Equations Require Import Equations.
Import ListNotations.

Set Warnings "-register-all".

Local Open Scope Z_scope.

(* ===================================================================== *)
(** * Part I: definitions                                                 *)
(* ===================================================================== *)

(** ** Exceptions and the result monad *)

(** The exception classes the services raise or catch. [RequestsTimeout]
    is [requests.Timeout]; [RequestsError] any other
    [requests.RequestException]; [SQLAlchemyError] any database driver
    or integrity error; [PendingRollbackError] what a session answers
    when it is used after a failed flush that no [rollback()] followed;
    [OSError] what [open] and [write] raise; [PdfError] whatever
    [pdfplumber] raises. *)
Inductive exn : Type :=
| ValueError
| AttributeError
| IndexError
| OverflowError
| OSError
| RequestsTimeout
| RequestsError
| SQLAlchemyError
| PendingRollbackError
| PdfError.

Inductive result (A : Type) : Type :=
| Ok (a : A)
| Raise (e : exn).

Arguments Ok {A} a.
Arguments Raise {A} e.

Definition bind {A B : Type} (c : result A) (k : A -> result B) : result B :=
  match c with
  | Ok a => k a
  | Raise e => Raise e
  end.

Notation "x <- c ;; k" := (bind c (fun x => k))
  (at level 61, c at next level, right associativity).

(** [try: c except: h]: the handler answers [None] for an exception its
    [except] clauses do not name, which then propagates. *)
Definition try_except {A : Type} (c : result A) (h : exn -> option (result A))
  : result A :=
  match c with
  | Ok a => Ok a
  | Raise e => match h e with
               | Some r => r
               | None => Raise e
               end
  end.

(** [except Exception] catches every class above. *)
Definition except_Exception {A : Type} (r : exn -> result A) : exn -> option (result A) :=
  fun e => Some (r e).

Definition is_ok {A : Type} (c : result A) : bool :=
  match c with Ok _ => true | Raise _ => false end.

(** ** Python strings *)

Definition pystr : Type := list N.

(** A literal: the code points of an ASCII string. *)
Definition py (s : string) : pystr :=
  map N_of_ascii (list_ascii_of_string s).

Arguments py s%_string.

Definition pystr_eqb (a b : pystr) : bool :=
  if list_eq_dec N.eq_dec a b then true else false.

(** ** Dates and times ([datetime]) *)

(** [date.toordinal()]: day 1 is 0001-01-01. *)
Definition date : Type := Z.

Definition MINORDINAL : Z := 1.
(** [date.max.toordinal()], 9999-12-31. *)
Definition MAXORDINAL : Z := 3652059.

Definition valid_date (d : date) : Prop := MINORDINAL <= d <= MAXORDINAL.

Definition valid_dateb (d : date) : bool :=
  (MINORDINAL <=? d) && (d <=? MAXORDINAL).

(** [d - timedelta(days=n)]: [OverflowError] outside [date.min .. date.max]. *)
Definition date_sub_days (d : date) (n : Z) : result date :=
  if valid_dateb (d - n) then Ok (d - n) else Raise OverflowError.

(** [date.weekday()]: Monday is 0, Sunday is 6. *)
Definition weekday (d : date) : Z := (d + 6) mod 7.

(** The calendar arithmetic of [datetime.py], used to write dates as
    year-month-day and to format them. *)
Definition is_leap (y : Z) : bool :=
  (y mod 4 =? 0) && (negb (y mod 100 =? 0) || (y mod 400 =? 0)).

Definition days_before_year (y : Z) : Z :=
  let y1 := y - 1 in y1 * 365 + y1 / 4 - y1 / 100 + y1 / 400.

Definition DAYS_IN_MONTH (m : Z) : Z :=
  nth (Z.to_nat m) [0; 31; 28; 31; 30; 31; 30; 31; 31; 30; 31; 30; 31] 0.

Definition DAYS_BEFORE_MONTH (m : Z) : Z :=
  nth (Z.to_nat m) [0; 0; 31; 59; 90; 120; 151; 181; 212; 243; 273; 304; 334] 0.

Definition days_before_month (y m : Z) : Z :=
  DAYS_BEFORE_MONTH m + (if (2 <? m) && is_leap y then 1 else 0).

Definition ymd2ord (y m d : Z) : date :=
  days_before_year y + days_before_month y m + d.

Definition ord2ymd (n0 : date) : Z * Z * Z :=
  let n := n0 - 1 in
  let n400 := n / 146097 in let n := n mod 146097 in
  let year := n400 * 400 + 1 in
  let n100 := n / 36524 in let n := n mod 36524 in
  let n4 := n / 1461 in let n := n mod 1461 in
  let n1 := n / 365 in let n := n mod 365 in
  let year := year + n100 * 100 + n4 * 4 + n1 in
  if (n1 =? 4) || (n100 =? 4) then (year - 1, 12, 31)
  else
    let leapyear := (n1 =? 3) && (negb (n4 =? 24) || (n100 =? 3)) in
    let month := Z.shiftr (n + 50) 5 in
    let preceding :=
      DAYS_BEFORE_MONTH month + (if (2 <? month) && leapyear then 1 else 0) in
    if n <? preceding then
      let month' := month - 1 in
      let preceding' :=
        preceding - (DAYS_IN_MONTH month' + (if (month' =? 2) && leapyear then 1 else 0)) in
      (year, month', n - preceding' + 1)
    else (year, month, n - preceding + 1).

Record time : Type := mk_time {
  hour : Z;
  minute : Z;
  second : Z;
  microsecond : Z
}.

(** [time.__lt__] on naive times: the fields compared as a tuple. *)
Definition time_lt (a b : time) : bool :=
  (hour a <? hour b)
  || ((hour a =? hour b)
      && ((minute a <? minute b)
          || ((minute a =? minute b)
              && ((second a <? second b)
                  || ((second a =? second b)
                      && (microsecond a <? microsecond b)))))).

Record datetime : Type := mk_datetime {
  dt_date : date;
  dt_time : time
}.

(** ** [PDFExtractor.get_pdf_date] *)

Definition inspect {A : Type} (a : A) : {b : A | a = b} := exist _ a eq_refl.

Definition cutoff_time : time := mk_time 17 30 0 0.

(** Step 2 of [get_pdf_date]:
    [while candidate_date.weekday() >= 5: candidate_date -= timedelta(days=1)].
    Every iteration lowers the ordinal, and the subtraction raises below
    [date.min], so the loop is total. *)
Equations? weekend_rollback (candidate_date : date) : result date
  by wf (Z.to_nat candidate_date) lt :=
  weekend_rollback candidate_date with inspect (5 <=? weekday candidate_date) := {
    | exist _ true _ with inspect (date_sub_days candidate_date 1) := {
        | exist _ (Ok d') Hsub => weekend_rollback d'
        | exist _ (Raise e) _ => Raise e };
    | exist _ false _ => Ok candidate_date }.
Proof.
  unfold date_sub_days, valid_dateb, MINORDINAL in Hsub.
  destruct ((1 <=? candidate_date - 1) && (candidate_date - 1 <=? MAXORDINAL)) eqn:E;
    [ | discriminate ].
  injection Hsub as <-.
  apply andb_prop in E as [E _]. apply Z.leb_le in E. lia.
Qed.

(** [get_pdf_date(reference_date)], for a given reference instant (the
    caller passes [datetime.now()] when the argument is [None]). *)
Definition get_pdf_date (reference_date : datetime) : result date :=
  let current_date := dt_date reference_date in
  let current_time := dt_time reference_date in
  candidate_date <-
    (if time_lt current_time cutoff_time
     then date_sub_days current_date 1
     else Ok current_date) ;;
  weekend_rollback candidate_date.

(** ** Python string operations *)

(** The code points for which [str.isspace] holds. *)
Definition py_isspace (c : N) : bool :=
  (((9 <=? c) && (c <=? 13)) || ((28 <=? c) && (c <=? 32))
   || (c =? 133) || (c =? 160) || (c =? 5760)
   || ((8192 <=? c) && (c <=? 8202))
   || (c =? 8232) || (c =? 8233) || (c =? 8239) || (c =? 8287)
   || (c =? 12288))%N.

Fixpoint lstrip (s : pystr) : pystr :=
  match s with
  | [] => []
  | c :: r => if py_isspace c then lstrip r else s
  end.

Definition rstrip (s : pystr) : pystr := rev (lstrip (rev s)).

(** [s.strip()] *)
Definition strip (s : pystr) : pystr := rstrip (lstrip s).

(** [s.replace(old, new)] for a one-character [old]. *)
Definition replace (old : N) (new : pystr) (s : pystr) : pystr :=
  flat_map (fun c => if (c =? old)%N then new else [c]) s.

(** [x in [a, b, ...]] on strings. *)
Definition str_in (x : pystr) (l : list pystr) : bool :=
  existsb (pystr_eqb x) l.

(** Truth value of a string: [not s] is [is_empty s]. *)
Definition is_empty {A : Type} (l : list A) : bool :=
  match l with [] => true | _ => false end.

(** [str.upper] on the letters a-z; other code points are left as they
    are (the case mappings outside ASCII are not modelled). *)
Definition upper_char (c : N) : N :=
  if ((97 <=? c) && (c <=? 122))%N then (c - 32)%N else c.

Definition str_upper (s : pystr) : pystr := map upper_char s.

Definition lower_char (c : N) : N :=
  if ((65 <=? c) && (c <=? 90))%N then (c + 32)%N else c.

Definition SPACE : N := 32.
Definition COMMA : N := 44.
Definition NBSP : N := 160.          (* '\xa0' *)
Definition NNBSP : N := 8239.        (* ' ' *)
Definition UNDERSCORE : N := 95.

(** ** The built-ins [int(str)] and [float(str)] *)

(** Python floats are IEEE binary64 values. *)
Definition pyfloat : Type := spec_float.

Definition is_digit (c : N) : bool := ((48 <=? c) && (c <=? 57))%N.

Definition digit_val (c : N) : Z := Z.of_N c - 48.

(** The longest prefix of digits, and the rest. *)
Fixpoint span_digits (s : pystr) : pystr * pystr :=
  match s with
  | c :: r => if is_digit c
              then let '(d, t) := span_digits r in (c :: d, t)
              else ([], s)
  | [] => ([], [])
  end.

Definition digits_value (ds : pystr) : Z :=
  fold_left (fun acc c => acc * 10 + digit_val c) ds 0.

(** Underscores of a numeric literal: allowed only between two digits.
    Returns the text without them, or [None]. [prev] is the previous
    character (0 at the start). *)
Fixpoint strip_underscores (prev : N) (s : pystr) : option pystr :=
  match s with
  | [] => if (prev =? UNDERSCORE)%N then None else Some []
  | c :: r =>
      if (c =? UNDERSCORE)%N then
        if is_digit prev then strip_underscores c r else None
      else if (prev =? UNDERSCORE)%N && negb (is_digit c) then None
      else match strip_underscores c r with
           | Some t => Some (c :: t)
           | None => None
           end
  end.

(** An optional sign: [(negative, rest)]. *)
Definition split_sign (s : pystr) : bool * pystr :=
  match s with
  | 43%N :: r => (false, r)
  | 45%N :: r => (true, r)
  | _ => (false, s)
  end.

(** [int(s)] in base 10: surrounding white space, an optional sign, digits
    with single underscores between them; [ValueError] otherwise. Only the
    digits 0-9 are recognised; the interpreter's limit on the number of
    digits is not modelled. *)
Definition py_int (s : pystr) : result Z :=
  let '(neg, body) := split_sign (strip s) in
  match strip_underscores 0%N body with
  | None => Raise ValueError
  | Some ds =>
      if negb (is_empty ds) && forallb is_digit ds
      then Ok (if neg then - digits_value ds else digits_value ds)
      else Raise ValueError
  end.

(** The binary64 value nearest to [m * 10 ^ e10] (ties to even), [m >= 0]. *)
Definition float_of_decimal (neg : bool) (m e10 : Z) : pyfloat :=
  if m =? 0 then S754_zero neg
  else if 0 <=? e10 then
    binary_normalize 53 1024 (cond_Zopp neg (m * 10 ^ e10)) 0 neg
  else
    let '(q, e, l) := SFdiv_core_binary 53 1024 m 0 (10 ^ (- e10)) 0 in
    binary_round_aux 53 1024 neg q e l.

(** The optional exponent part of a float literal: [Some (exponent, rest)];
    a malformed exponent is left unread, as [strtod] does. *)
Definition parse_exponent (s : pystr) : Z * pystr :=
  match s with
  | c :: r =>
      if ((c =? 101) || (c =? 69))%N then
        let '(eneg, r') := split_sign r in
        let '(ds, t) := span_digits r' in
        if is_empty ds then (0, s)
        else ((if eneg then - digits_value ds else digits_value ds), t)
      else (0, s)
  | [] => (0, s)
  end.

(** [float(s)]: surrounding white space, an optional sign, then [inf],
    [infinity] or [nan] in any case, or a decimal number with an optional
    fraction and exponent; [ValueError] otherwise. Only the digits 0-9
    are recognised. *)
Definition py_float (s : pystr) : result pyfloat :=
  match strip_underscores 0%N (strip s) with
  | None => Raise ValueError
  | Some t =>
      let '(neg, body) := split_sign t in
      let low := map lower_char body in
      if str_in low [py "inf"; py "infinity"] then Ok (S754_infinity neg)
      else if pystr_eqb low (py "nan") then Ok S754_nan
      else
        let '(ip, r1) := span_digits body in
        let '(fp, r2) :=
          match r1 with
          | 46%N :: r => span_digits r
          | _ => ([], r1)
          end in
        if is_empty ip && is_empty fp then Raise ValueError
        else
          let '(ex, r3) := parse_exponent r2 in
          if is_empty r3
          then Ok (float_of_decimal neg (digits_value (ip ++ fp))
                                    (ex - Z.of_nat (List.length fp)))
          else Raise ValueError
  end.

(** ** The numeric normalisers of [BRVMScraper.parse_actions] *)

Definition placeholders : list pystr := [py "-"; py "0"; py ""].

Definition catch_Value_Attribute {A : Type} (r : result A) : exn -> option (result A) :=
  fun e => match e with
           | ValueError | AttributeError => Some r
           | _ => None
           end.

(** [value.replace(' ', '').replace(',', '.').replace('\xa0', '')
    .replace('\u202f', '').strip()] *)
Definition clean_decimal (value : pystr) : pystr :=
  strip (replace NNBSP [] (replace NBSP []
           (replace COMMA (py ".") (replace SPACE [] value)))).

(** [value.replace(' ', '').replace('\xa0', '').replace('\u202f', '').strip()] *)
Definition clean_integer (value : pystr) : pystr :=
  strip (replace NNBSP [] (replace NBSP [] (replace SPACE [] value))).

Definition parse_float (value : pystr) : result (option pyfloat) :=
  try_except
    (if is_empty value || str_in (strip value) placeholders then Ok None
     else
       let cleaned := clean_decimal value in
       if is_empty cleaned then Ok None
       else f <- py_float cleaned ;; Ok (Some f))
    (catch_Value_Attribute (Ok None)).

Definition parse_int (value : pystr) : result Z :=
  try_except
    (if is_empty value || str_in (strip value) placeholders then Ok 0
     else
       let cleaned := clean_integer value in
       if is_empty cleaned then Ok 0
       else py_int cleaned)
    (catch_Value_Attribute (Ok 0)).

(** ** The parsed document ([bs4]) *)

(** The value of an attribute: a string, or the list of tokens of a
    multi-valued attribute such as [class]. *)
Inductive attr_value : Type :=
| AttrStr (s : pystr)
| AttrList (l : list pystr).

(** A node of the tree [BeautifulSoup(html, 'html.parser')] builds.
    [Comment] stands for every string kind [get_text] leaves out
    (comments, declarations, script and style text). *)
Inductive node : Type :=
| NavigableString (s : pystr)
| Comment (s : pystr)
| Tag (name : pystr) (attrs : list (pystr * attr_value)) (contents : list node).

(** [tag.descendants]: every node below, in document order. *)
Fixpoint descendants (n : node) : list node :=
  match n with
  | Tag _ _ cs =>
      (fix children (l : list node) : list node :=
         match l with
         | [] => []
         | c :: r => c :: descendants c ++ children r
         end) cs
  | _ => []
  end.

Fixpoint assoc (k : pystr) (l : list (pystr * attr_value)) : option attr_value :=
  match l with
  | [] => None
  | (k', v) :: r => if pystr_eqb k k' then Some v else assoc k r
  end.

(** [' '.join(l)] *)
Fixpoint join_space (l : list pystr) : pystr :=
  match l with
  | [] => []
  | [x] => x
  | x :: r => x ++ SPACE :: join_space r
  end.

(** Whether an attribute value matches a searched string or list of
    strings: a multi-valued attribute matches by any of its tokens or by
    its whole text; an absent attribute does not match. *)
Definition attr_matches (v : option attr_value) (against : list pystr) : bool :=
  match v with
  | None => false
  | Some (AttrStr s) => str_in s against
  | Some (AttrList l) =>
      existsb (fun item => str_in item against) l || str_in (join_space l) against
  end.

(** Whether a node is a tag of the given name meeting every attribute
    criterion. *)
Definition tag_matches (name : pystr) (criteria : list (pystr * list pystr))
  (n : node) : bool :=
  match n with
  | Tag nm attrs _ =>
      pystr_eqb nm name
      && forallb (fun kv => attr_matches (assoc (fst kv) attrs) (snd kv)) criteria
  | _ => false
  end.

(** [tag.find_all(name, **criteria)] *)
Definition find_all (n : node) (name : pystr) (criteria : list (pystr * list pystr))
  : list node :=
  filter (tag_matches name criteria) (descendants n).

(** [tag.find(name, **criteria)] *)
Definition find (n : node) (name : pystr) (criteria : list (pystr * list pystr))
  : option node :=
  hd_error (find_all n name criteria).

(** [tag.get_text(strip=True)]: the stripped, non-empty strings below the
    tag, concatenated. *)
Definition get_text_strip (n : node) : pystr :=
  flat_map (fun d => match d with
                     | NavigableString s => strip s
                     | _ => []
                     end) (descendants n).

(** [l[i]] *)
Definition getitem {A : Type} (l : list A) (i : nat) : result A :=
  match nth_error l i with
  | Some x => Ok x
  | None => Raise IndexError
  end.

(** ** [BRVMScraper.parse_actions] *)

(** The dictionary built for one row. *)
Record action_dict : Type := mk_action {
  symbole : pystr;
  nom : pystr;
  volume : Z;
  cours_veille : option pyfloat;
  cours_ouverture : option pyfloat;
  cours_cloture : option pyfloat;
  variation : option pyfloat
}.

Definition variation_classes : list pystr :=
  [py "text-good"; py "text-bad"; py "text-nul"].

Definition parse_variation (td_element : node) : result (option pyfloat) :=
  try_except
    (let text :=
       match find td_element (py "span") [(py "class", variation_classes)] with
       | Some span => get_text_strip span
       | None => get_text_strip td_element
       end in
     if is_empty text || pystr_eqb text (py "-") then Ok None
     else
       let cleaned := clean_decimal text in
       if is_empty cleaned then Ok None
       else f <- py_float cleaned ;; Ok (Some f))
    (catch_Value_Attribute (Ok None)).

(** The body of the inner [try] for a row of at least seven cells:
    [None] is the [continue] on an empty symbol. *)
Definition parse_row (cols : list node) : result (option action_dict) :=
  c0 <- getitem cols 0 ;;
  let symbole := get_text_strip c0 in
  c1 <- getitem cols 1 ;;
  let nom := get_text_strip c1 in
  if is_empty symbole then Ok None
  else
    c2 <- getitem cols 2 ;;
    volume <- parse_int (get_text_strip c2) ;;
    c3 <- getitem cols 3 ;;
    cours_veille <- parse_float (get_text_strip c3) ;;
    c4 <- getitem cols 4 ;;
    cours_ouverture <- parse_float (get_text_strip c4) ;;
    c5 <- getitem cols 5 ;;
    cours_cloture <- parse_float (get_text_strip c5) ;;
    c6 <- getitem cols 6 ;;
    variation <- parse_variation c6 ;;
    Ok (Some (mk_action symbole nom volume cours_veille cours_ouverture
                        cours_cloture variation)).

(** The loop over the rows; [actions_data] is the list built so far. *)
Fixpoint parse_rows (rows : list node) (actions_data : list action_dict)
  : result (list action_dict) :=
  match rows with
  | [] => Ok actions_data
  | row :: rest =>
      let cols := find_all row (py "td") [] in
      if (List.length cols <? 7)%nat then parse_rows rest actions_data
      else
        r <- try_except (parse_row cols) (except_Exception (fun _ => Ok None)) ;;
        match r with
        | Some action => parse_rows rest (actions_data ++ [action])
        | None => parse_rows rest actions_data
        end
  end.

(** The rows the parser reads from a document, [None] when no table is
    found: the section [block-system-main] or else the whole page, its
    first [table-striped] table or else its first table, the rows of its
    [tbody] or else its rows without header cells. *)
Definition locate_rows (soup : node) : option (list node) :=
  let main_section :=
    match find soup (py "section") [(py "id", [py "block-system-main"])] with
    | Some section => section
    | None => soup
    end in
  let table :=
    match find main_section (py "table") [(py "class", [py "table-striped"])] with
    | Some t => Some t
    | None => find main_section (py "table") []
    end in
  match table with
  | None => None
  | Some table =>
      Some match find table (py "tbody") [] with
           | Some tbody => find_all tbody (py "tr") []
           | None =>
               filter (fun row => match find row (py "th") [] with
                                  | Some _ => false
                                  | None => true
                                  end)
                      (find_all table (py "tr") [])
           end
  end.

(** [parse_actions(html_content)]; [BeautifulSoup] is the HTML parser. *)
Definition parse_actions (BeautifulSoup : pystr -> result node)
  (html_content : pystr) : result (list action_dict) :=
  try_except
    (soup <- BeautifulSoup html_content ;;
     match locate_rows soup with
     | None => Ok []
     | Some rows => if is_empty rows then Ok [] else parse_rows rows []
     end)
    (except_Exception (fun _ => Ok [])).

(** ** The store ([app/models.py]) *)

(** A row of [actions]: the columns the scraper writes ([id] and
    [updated_at] are assigned by the database). *)
Abbreviation Action := action_dict (only parsing).

Record HistoriqueAction : Type := mk_snapshot {
  h_symbole : pystr;
  data_snapshot : action_dict
}.

(** The dictionary [extract_indicators] returns. *)
Record Indicators : Type := mk_indicators {
  taux_rendement_moyen : option pyfloat;
  per_moyen : option pyfloat;
  taux_rentabilite_moyen : option pyfloat;
  prime_risque_marche : option pyfloat
}.

Record IndicateurMarche : Type := mk_indicateur {
  date_rapport : date;
  valeurs : Indicators;
  source_pdf : pystr
}.

Record WebhookSubscription : Type := mk_webhook {
  url : pystr;
  description : option pystr;
  is_active : Z;
  last_triggered : option datetime
}.

Record Tables : Type := mk_tables {
  actions : list Action;
  historique_actions : list HistoriqueAction;
  indicateurs_marche : list IndicateurMarche;
  webhook_subscriptions : list WebhookSubscription
}.

Definition no_rows : Tables := mk_tables [] [] [] [].

(** ** The outside world *)

(** What an HTTP call of [requests] does: a response with its status
    code, [requests.Timeout], or another [requests.RequestException]. *)
Inductive http_outcome (A : Type) : Type :=
| Response (status : Z) (body : A)
| TimedOut
| ConnectionFailed.

Arguments Response {A} status body.
Arguments TimedOut {A}.
Arguments ConnectionFailed {A}.

(** [app/config.py], the settings the services read. *)
Record Settings : Type := mk_settings {
  WEBHOOK_MAX_RETRIES : Z;
  DATA_RETENTION_DAYS : Z;
  DOWNLOADS_DIR : pystr
}.

Definition default_settings : Settings := mk_settings 3 60 (py "downloads").

(** The four indicators, in the order of the [patterns] dictionary. *)
Inductive indicator_key : Type :=
| key_per_moyen
| key_taux_rendement_moyen
| key_taux_rentabilite_moyen
| key_prime_risque_marche.

(** The environment of a run. Every oracle that stands for an interaction
    takes the number of interactions made before it ([tick]). *)
Record World : Type := mk_world {
  settings : Settings;
  (* the database server refuses the statement or commit sent at this tick *)
  db_fails : nat -> bool;
  (* datetime.now() *)
  clock : nat -> datetime;
  (* GET of the quotes page *)
  http_get_page : nat -> http_outcome pystr;
  (* BeautifulSoup(html, 'html.parser') *)
  BeautifulSoup : pystr -> result node;
  (* GET of a bulletin, with stream=True: the answer before its body *)
  http_get_pdf : nat -> pystr -> http_outcome unit;
  (* the body of that answer streamed into the file of the given path:
     open(filepath, 'wb') and f.write on each chunk of iter_content *)
  save_body : nat -> pystr -> result unit;
  (* os.path.exists on a file of the downloads directory *)
  path_exists : nat -> pystr -> bool;
  (* pdfplumber: the text of each page of the file, or an error *)
  pdf_pages : pystr -> result (list (option pystr));
  (* re.search(patterns[key], text, re.IGNORECASE): group(1) of the first match *)
  re_search : indicator_key -> pystr -> option pystr;
  (* POST of a payload to a subscriber *)
  http_post : nat -> pystr -> pystr -> http_outcome unit
}.

(** ** The session ([app/database.py]: [autocommit=False, autoflush=False]) *)

Record State : Type := mk_state {
  (* what the database holds *)
  committed : Tables;
  (* the rows as the open transaction sees them: loaded objects with their
     uncommitted attribute changes, less the rows a bulk DELETE removed *)
  persistent : Tables;
  (* the objects given to db.add, inserted at the next flush; with
     autoflush=False queries do not see them *)
  pending : Tables;
  (* interactions with the world so far *)
  tick : nat;
  (* the POST requests sent so far, latest first: URL and body *)
  posts : list (pystr * pystr)
}.

(** A computation on the state that may raise; what it did before
    raising stays done. *)
Definition M (A : Type) : Type := State -> result A * State.

Definition ret {A : Type} (a : A) : M A := fun s => (Ok a, s).

Definition raise {A : Type} (e : exn) : M A := fun s => (Raise e, s).

Definition lift {A : Type} (r : result A) : M A := fun s => (r, s).

Definition mbind {A B : Type} (m : M A) (k : A -> M B) : M B :=
  fun s => match m s with
           | (Ok a, s') => k a s'
           | (Raise e, s') => (Raise e, s')
           end.

Notation "x <~ c ;; k" := (mbind c (fun x => k))
  (at level 61, c at next level, right associativity).

(** [try: m except: h] *)
Definition mtry {A : Type} (m : M A) (h : exn -> option (M A)) : M A :=
  fun s => match m s with
           | (Ok a, s') => (Ok a, s')
           | (Raise e, s') => match h e with
                              | Some k => k s'
                              | None => (Raise e, s')
                              end
           end.

Definition catch_Exception {A : Type} (k : exn -> M A) : exn -> option (M A) :=
  fun e => Some (k e).

Definition get_state : M State := fun s => (Ok s, s).

Definition next_tick : M nat :=
  fun s => (Ok (tick s),
            mk_state (committed s) (persistent s) (pending s) (S (tick s)) (posts s)).

Definition set_persistent (t : Tables) : M unit :=
  fun s => (Ok tt, mk_state (committed s) t (pending s) (tick s) (posts s)).

Definition set_pending (t : Tables) : M unit :=
  fun s => (Ok tt, mk_state (committed s) (persistent s) t (tick s) (posts s)).

(** [datetime.now()] *)
Definition now (W : World) : M datetime :=
  n <~ next_tick ;; ret (clock W n).

(** One statement sent to the server. *)
Definition round_trip (W : World) : M unit :=
  n <~ next_tick ;;
  if db_fails W n then raise SQLAlchemyError else ret tt.

(** [db.rollback()]: the open transaction is abandoned. *)
Definition rollback : M unit :=
  fun s => (Ok tt, mk_state (committed s) (committed s) no_rows (tick s) (posts s)).

(** The unique keys of the schema: [Action.symbole],
    [IndicateurMarche.date_rapport], [WebhookSubscription.url]. A flush
    is refused when a new row repeats a key. *)
Fixpoint fresh_keys {K : Type} (eqb : K -> K -> bool) (existing new : list K) : bool :=
  match new with
  | [] => true
  | k :: r => negb (existsb (eqb k) existing) && fresh_keys eqb (k :: existing) r
  end.

Definition flush_accepted (p n : Tables) : bool :=
  fresh_keys pystr_eqb (map symbole (actions p)) (map symbole (actions n))
  && fresh_keys Z.eqb (map date_rapport (indicateurs_marche p))
                      (map date_rapport (indicateurs_marche n))
  && fresh_keys pystr_eqb (map url (webhook_subscriptions p))
                          (map url (webhook_subscriptions n)).

Definition merge_tables (p n : Tables) : Tables :=
  mk_tables (actions p ++ actions n)
            (historique_actions p ++ historique_actions n)
            (indicateurs_marche p ++ indicateurs_marche n)
            (webhook_subscriptions p ++ webhook_subscriptions n).

(** [db.commit()]: flush the pending objects and the changes, then
    commit. When the server fails or a unique key is violated the
    transaction is rolled back and the error raised; the session then
    answers [PendingRollbackError] to any use until [db.rollback()] is
    called, which every caller does in its handler except the loop of
    [broadcast_to_webhooks] (see [notify_webhooks]). *)
Definition commit (W : World) : M unit :=
  n <~ next_tick ;;
  s <~ get_state ;;
  if db_fails W n || negb (flush_accepted (persistent s) (pending s))
  then _ <~ rollback ;; raise SQLAlchemyError
  else
    let t := merge_tables (persistent s) (pending s) in
    fun s => (Ok tt, mk_state t t no_rows (tick s) (posts s)).

(** [l[i] = x] on a row reference. *)
Fixpoint update_nth {A : Type} (i : nat) (x : A) (l : list A) : list A :=
  match l, i with
  | [], _ => []
  | _ :: r, O => x :: r
  | y :: r, S j => y :: update_nth j x r
  end.

(** The position of the first element meeting [p]: the reference
    [query.filter(...).first()] returns. *)
Fixpoint find_index {A : Type} (p : A -> bool) (l : list A) : option nat :=
  match l with
  | [] => None
  | x :: r => if p x then Some O
              else match find_index p r with
                   | Some i => Some (S i)
                   | None => None
                   end
  end.

Definition with_actions (t : Tables) (l : list Action) : Tables :=
  mk_tables l (historique_actions t) (indicateurs_marche t) (webhook_subscriptions t).

Definition with_historique (t : Tables) (l : list HistoriqueAction) : Tables :=
  mk_tables (actions t) l (indicateurs_marche t) (webhook_subscriptions t).

Definition with_indicateurs (t : Tables) (l : list IndicateurMarche) : Tables :=
  mk_tables (actions t) (historique_actions t) l (webhook_subscriptions t).

Definition with_webhooks (t : Tables) (l : list WebhookSubscription) : Tables :=
  mk_tables (actions t) (historique_actions t) (indicateurs_marche t) l.

(** [raise_for_status()]: an [HTTPError] for a 4xx or 5xx status. *)
Definition raise_for_status (status : Z) : M unit :=
  if (400 <=? status) && (status <? 600) then raise RequestsError else ret tt.

(** [except requests.RequestException] *)
Definition catch_RequestException {A : Type} (k : M A) : exn -> option (M A) :=
  fun e => match e with
           | RequestsTimeout | RequestsError => Some k
           | _ => None
           end.

(** ** [BRVMScraper]: fetching and saving *)

Record ScrapeStats : Type := mk_scrape_stats {
  inserted : Z;
  updated : Z;
  errors : Z
}.

(** [fetch_page()]: the text of the page, [None] on a request error. *)
Definition fetch_page (W : World) : M (option pystr) :=
  mtry
    (n <~ next_tick ;;
     match http_get_page W n with
     | Response status text => _ <~ raise_for_status status ;; ret (Some text)
     | TimedOut => raise RequestsTimeout
     | ConnectionFailed => raise RequestsError
     end)
    (catch_RequestException (ret None)).

(** [db.query(Action).filter(Action.symbole == symbole).first()] *)
Definition query_action (W : World) (sym : pystr) : M (option nat) :=
  _ <~ round_trip W ;;
  s <~ get_state ;;
  ret (find_index (fun a => pystr_eqb (symbole a) sym) (actions (persistent s))).

(** [db.add(HistoriqueAction(symbole=..., data_snapshot=...))] *)
Definition add_snapshot (action_data : action_dict) : M unit :=
  s <~ get_state ;;
  set_pending (with_historique (pending s)
                 (historique_actions (pending s)
                    ++ [mk_snapshot (symbole action_data) action_data])).

(** The body of the loop of [save_to_database], with its own [try]. *)
Definition save_action (W : World) (stats : ScrapeStats) (action_data : action_dict)
  : M ScrapeStats :=
  mtry
    (existing_action <~ query_action W (symbole action_data) ;;
     stats' <~
       match existing_action with
       | Some ref =>
           s <~ get_state ;;
           _ <~ set_persistent
                  (with_actions (persistent s)
                     (update_nth ref action_data (actions (persistent s)))) ;;
           ret (mk_scrape_stats (inserted stats) (updated stats + 1) (errors stats))
       | None =>
           s <~ get_state ;;
           _ <~ set_pending
                  (with_actions (pending s) (actions (pending s) ++ [action_data])) ;;
           ret (mk_scrape_stats (inserted stats + 1) (updated stats) (errors stats))
       end ;;
     _ <~ add_snapshot action_data ;;
     ret stats')
    (catch_Exception
       (fun _ => ret (mk_scrape_stats (inserted stats) (updated stats) (errors stats + 1)))).

Fixpoint save_actions (W : World) (stats : ScrapeStats) (actions_data : list action_dict)
  : M ScrapeStats :=
  match actions_data with
  | [] => ret stats
  | action_data :: rest =>
      stats' <~ save_action W stats action_data ;;
      save_actions W stats' rest
  end.

(** [BRVMScraper.save_to_database]: on an error of the commit, roll back
    and raise again. *)
Definition scraper_save_to_database (W : World) (actions_data : list action_dict)
  : M ScrapeStats :=
  mtry
    (stats <~ save_actions W (mk_scrape_stats 0 0 0) actions_data ;;
     _ <~ commit W ;;
     ret stats)
    (catch_Exception (fun e => _ <~ rollback ;; raise e)).

(** [BRVMScraper.scrape_and_save] *)
Definition scrape_and_save (W : World) : M ScrapeStats :=
  html_content <~ fetch_page W ;;
  match html_content with
  | None => ret (mk_scrape_stats 0 0 1)
  | Some html =>
      if is_empty html then ret (mk_scrape_stats 0 0 1)
      else
        actions_data <~ lift (parse_actions (BeautifulSoup W) html) ;;
        if is_empty actions_data then ret (mk_scrape_stats 0 0 1)
        else scraper_save_to_database W actions_data
  end.

(** ** [PDFExtractor]: download, extraction, persistence, retention *)

Definition digit_char (n : Z) : N := (48 + Z.to_N (n mod 10))%N.

(** [target_date.strftime('%Y%m%d')] *)
Definition strftime_Ymd (d : date) : pystr :=
  let '(y, m, dd) := ord2ymd d in
  [digit_char (y / 1000); digit_char (y / 100); digit_char (y / 10); digit_char y;
   digit_char (m / 10); digit_char m; digit_char (dd / 10); digit_char dd].

(** [generate_pdf_url(target_date)], with [BRVM_PDF_BASE_URL] as the
    configuration file sets it. *)
Definition generate_pdf_url (target_date : date) : pystr * pystr :=
  let date_str := strftime_Ymd target_date in
  (py "https://www.brvm.org/sites/default/files/boc_" ++ date_str ++ py "_2.pdf",
   py "boc_" ++ date_str ++ py "_2.pdf").

(** [os.path.join(self.downloads_dir, filename)] *)
Definition path_join (dir filename : pystr) : pystr := dir ++ py "/" ++ filename.

Definition file_exists (W : World) (filename : pystr) : M bool :=
  n <~ next_tick ;;
  ret (path_exists W n (path_join (DOWNLOADS_DIR (settings W)) filename)).

(** [download_pdf(url, filename)]: the path written, or [None]. The
    answer and the transfer of its body into the file are one
    interaction; an error of the transfer that is a
    [requests.RequestException] is caught with those of the request,
    whatever else the [with open ...] block raises is not. *)
Definition download_pdf (W : World) (pdf_url filename : pystr) : M (option pystr) :=
  let filepath := path_join (DOWNLOADS_DIR (settings W)) filename in
  mtry
    (n <~ next_tick ;;
     match http_get_pdf W n pdf_url with
     | Response status _ =>
         if status =? 404 then ret None
         else
           _ <~ raise_for_status status ;;
           _ <~ lift (save_body W n filepath) ;;
           ret (Some filepath)
     | TimedOut => raise RequestsTimeout
     | ConnectionFailed => raise RequestsError
     end)
    (catch_RequestException (ret None)).

(** [re.sub(r'\s+', ' ', text)] *)
Fixpoint collapse_whitespace (in_run : bool) (text : pystr) : pystr :=
  match text with
  | [] => []
  | c :: r =>
      if py_isspace c
      then if in_run then collapse_whitespace true r
           else SPACE :: collapse_whitespace true r
      else c :: collapse_whitespace false r
  end.

Definition no_indicators : Indicators := mk_indicators None None None None.

Definition get_indicator (k : indicator_key) (i : Indicators) : option pyfloat :=
  match k with
  | key_per_moyen => per_moyen i
  | key_taux_rendement_moyen => taux_rendement_moyen i
  | key_taux_rentabilite_moyen => taux_rentabilite_moyen i
  | key_prime_risque_marche => prime_risque_marche i
  end.

Definition set_indicator (k : indicator_key) (v : pyfloat) (i : Indicators) : Indicators :=
  match k with
  | key_per_moyen =>
      mk_indicators (taux_rendement_moyen i) (Some v) (taux_rentabilite_moyen i)
                    (prime_risque_marche i)
  | key_taux_rendement_moyen =>
      mk_indicators (Some v) (per_moyen i) (taux_rentabilite_moyen i)
                    (prime_risque_marche i)
  | key_taux_rentabilite_moyen =>
      mk_indicators (taux_rendement_moyen i) (per_moyen i) (Some v)
                    (prime_risque_marche i)
  | key_prime_risque_marche =>
      mk_indicators (taux_rendement_moyen i) (per_moyen i) (taux_rentabilite_moyen i)
                    (Some v)
  end.

Definition pattern_keys : list indicator_key :=
  [key_per_moyen; key_taux_rendement_moyen; key_taux_rentabilite_moyen;
   key_prime_risque_marche].

(** One turn of the loop over [patterns]. *)
Definition match_indicator (W : World) (cleaned_text : pystr)
  (indicators : Indicators) (key : indicator_key) : result Indicators :=
  match get_indicator key indicators with
  | Some _ => Ok indicators
  | None =>
      match re_search W key cleaned_text with
      | Some group1 =>
          try_except
            (v <- py_float (replace COMMA (py ".") group1) ;;
             Ok (set_indicator key v indicators))
            (fun e => match e with
                      | ValueError | IndexError => Some (Ok indicators)
                      | _ => None
                      end)
      | None => Ok indicators
      end
  end.

Fixpoint match_indicators (W : World) (cleaned_text : pystr)
  (indicators : Indicators) (keys : list indicator_key) : result Indicators :=
  match keys with
  | [] => Ok indicators
  | key :: rest =>
      indicators' <- match_indicator W cleaned_text indicators key ;;
      match_indicators W cleaned_text indicators' rest
  end.

(** [extract_indicators(pdf_path)] *)
Definition extract_indicators (W : World) (pdf_path : pystr) : result Indicators :=
  try_except
    (pages <- pdf_pages W pdf_path ;;
     let full_text :=
       fold_left (fun acc text =>
                    match text with
                    | Some t => if is_empty t then acc else acc ++ SPACE :: t
                    | None => acc
                    end) pages [] in
     if is_empty (strip full_text) then Ok no_indicators
     else match_indicators W (collapse_whitespace false full_text)
                           no_indicators pattern_keys)
    (except_Exception (fun _ => Ok no_indicators)).

(** [all(v is None for v in indicators.values())] *)
Definition all_none (i : Indicators) : bool :=
  match taux_rendement_moyen i, per_moyen i, taux_rentabilite_moyen i,
        prime_risque_marche i with
  | None, None, None, None => true
  | _, _, _, _ => false
  end.

(** [PDFExtractor.save_to_database]: the upsert by report date. *)
Definition pdf_save_to_database (W : World) (indicators : Indicators)
  (pdf_url : pystr) (target_date : date) : M bool :=
  mtry
    (_ <~ round_trip W ;;
     s <~ get_state ;;
     _ <~
       match find_index (fun r => date_rapport r =? target_date)
                        (indicateurs_marche (persistent s)) with
       | Some existing =>
           set_persistent
             (with_indicateurs (persistent s)
                (update_nth existing (mk_indicateur target_date indicators pdf_url)
                            (indicateurs_marche (persistent s))))
       | None =>
           set_pending
             (with_indicateurs (pending s)
                (indicateurs_marche (pending s)
                   ++ [mk_indicateur target_date indicators pdf_url]))
       end ;;
     _ <~ commit W ;;
     ret true)
    (catch_Exception (fun _ => _ <~ rollback ;; ret false)).

(** [cleanup_old_data(db)]: the number of rows removed. *)
Definition cleanup_old_data (W : World) : M Z :=
  mtry
    (let retention_days := DATA_RETENTION_DAYS (settings W) in
     today <~ now W ;;
     cutoff_date <~ lift (date_sub_days (dt_date today) retention_days) ;;
     _ <~ round_trip W ;;
     s <~ get_state ;;
     let rows := indicateurs_marche (persistent s) in
     let kept := filter (fun r => negb (date_rapport r <? cutoff_date)) rows in
     _ <~ set_persistent (with_indicateurs (persistent s) kept) ;;
     let deleted := Z.of_nat (List.length rows - List.length kept) in
     _ <~ commit W ;;
     ret deleted)
    (catch_Exception (fun _ => _ <~ rollback ;; ret 0)).

(** [process_daily_pdf(db, target_date)] *)
Definition process_daily_pdf (W : World) (target_date : option date) : M bool :=
  target_date <~
    match target_date with
    | Some d => ret d
    | None => reference_date <~ now W ;; lift (get_pdf_date reference_date)
    end ;;
  let '(pdf_url, filename) := generate_pdf_url target_date in
  let filepath := path_join (DOWNLOADS_DIR (settings W)) filename in
  exists_ <~ file_exists W filename ;;
  downloaded <~
    (if exists_ then ret true
     else downloaded_path <~ download_pdf W pdf_url filename ;;
          ret (match downloaded_path with
               | Some p => negb (is_empty p)
               | None => false
               end)) ;;
  if negb downloaded then ret false
  else
    indicators <~ lift (extract_indicators W filepath) ;;
    if all_none indicators then ret false
    else
      success <~ pdf_save_to_database W indicators pdf_url target_date ;;
      _ <~ cleanup_old_data W ;;
      ret success.

(** ** [WebhookManager] *)

Record BroadcastStats : Type := mk_broadcast_stats {
  success : Z;
  failed : Z
}.

(** [range(a, b)] *)
Definition range (a b : Z) : list Z :=
  map (fun i => a + Z.of_nat i) (seq 0 (Z.to_nat (b - a))).

(** [requests.post(url, json=payload, ...)] followed by
    [response.raise_for_status()]. *)
Definition post (W : World) (target payload : pystr) : M unit :=
  n <~ next_tick ;;
  _ <~ (fun s => (Ok tt, mk_state (committed s) (persistent s) (pending s) (tick s)
                                 ((target, payload) :: posts s))) ;;
  match http_post W n target payload with
  | Response status _ => raise_for_status status
  | TimedOut => raise RequestsTimeout
  | ConnectionFailed => raise RequestsError
  end.

(** The [for attempt in range(1, max_retries + 1)] loop of [send_webhook];
    an attempt answers [Some b] when it returns [b] and [None] to go on.
    The call of [asyncio.sleep] only builds a coroutine that is never
    awaited, so it has no effect. *)
Fixpoint send_attempts (W : World) (max_retries : Z) (target payload : pystr)
  (attempts : list Z) : M bool :=
  match attempts with
  | [] => ret false
  | attempt :: rest =>
      returned <~
        mtry (_ <~ post W target payload ;; ret (Some true))
             (fun e => match e with
                       | RequestsTimeout =>
                           Some (ret (if attempt =? max_retries then Some false else None))
                       | RequestsError =>
                           Some (ret (if attempt =? max_retries then Some false else None))
                       | _ => None
                       end) ;;
      match returned with
      | Some b => ret b
      | None => send_attempts W max_retries target payload rest
      end
  end.

(** [send_webhook(url, payload)] *)
Definition send_webhook (W : World) (target payload : pystr) : M bool :=
  let max_retries := WEBHOOK_MAX_RETRIES (settings W) in
  send_attempts W max_retries target payload (range 1 (max_retries + 1)).

(** The rows of a table with their positions. *)
Definition indexed {A : Type} (l : list A) : list (nat * A) :=
  combine (seq 0 (List.length l)) l.

(** [get_active_webhooks(db)]: the active subscribers, each a reference
    to its row and the values loaded. *)
Definition get_active_webhooks (W : World) : M (list (nat * WebhookSubscription)) :=
  mtry
    (_ <~ round_trip W ;;
     s <~ get_state ;;
     ret (filter (fun iw => is_active (snd iw) =? 1)
                 (indexed (webhook_subscriptions (persistent s)))))
    (catch_Exception (fun _ => ret [])).

(** [webhook.last_triggered = t] *)
Definition set_last_triggered (ref : nat) (t : datetime) : M unit :=
  s <~ get_state ;;
  let rows := webhook_subscriptions (persistent s) in
  match nth_error rows ref with
  | Some w =>
      set_persistent
        (with_webhooks (persistent s)
           (update_nth ref (mk_webhook (url w) (description w) (is_active w) (Some t))
                       rows))
  | None => ret tt
  end.

(** Reading an attribute of a loaded object. A commit expires every
    object of the session ([expire_on_commit], which [SessionLocal]
    leaves at its default), and the next read of an attribute reloads
    the row with a SELECT; nothing else writes the table meanwhile, so
    the values are those the object had. *)
Definition reload (W : World) (expired : bool) : M unit :=
  if expired then round_trip W else ret tt.

(** The loop of [broadcast_to_webhooks]; [expired] tells whether a
    commit has expired the subscribers since they were listed. The
    handler of the [try] around the commit formats [webhook.id] into its
    message: the failed flush has left the session waiting for a
    [rollback()] that the handler does not issue, so that read raises
    and the error leaves the loop. *)
Fixpoint notify_webhooks (W : World) (payload_dict : pystr)
  (webhooks : list (nat * WebhookSubscription)) (expired : bool)
  (stats : BroadcastStats) : M BroadcastStats :=
  match webhooks with
  | [] => ret stats
  | (ref, webhook) :: rest =>
      _ <~ reload W expired ;;
      ok <~ send_webhook W (url webhook) payload_dict ;;
      if ok : bool then
        _ <~ mtry (t <~ now W ;; _ <~ set_last_triggered ref t ;; commit W)
                  (catch_Exception (fun _ => raise PendingRollbackError)) ;;
        notify_webhooks W payload_dict rest true
                        (mk_broadcast_stats (success stats + 1) (failed stats))
      else
        notify_webhooks W payload_dict rest expired
                        (mk_broadcast_stats (success stats) (failed stats + 1))
  end.

(** [broadcast_to_webhooks(payload, db)]; [payload_dict] is
    [payload.model_dump(mode='json')]. *)
Definition broadcast_to_webhooks (W : World) (payload_dict : pystr) : M BroadcastStats :=
  webhooks <~ get_active_webhooks W ;;
  if is_empty webhooks then ret (mk_broadcast_stats 0 0)
  else notify_webhooks W payload_dict webhooks false (mk_broadcast_stats 0 0).

(** ** Notions used to state the properties *)

(** The text of the symbol cell of a row. *)
Definition row_symbol (row : node) : pystr :=
  match find_all row (py "td") [] with
  | c0 :: _ => get_text_strip c0
  | [] => []
  end.

(** What one row adds to the result of [parse_actions]. *)
Definition quotes_of_row (row : node) : list action_dict :=
  let cols := find_all row (py "td") [] in
  if (List.length cols <? 7)%nat then []
  else match parse_row cols with
       | Ok (Some action) => [action]
       | _ => []
       end.

(** Replacing the decimal comma, as a map over the characters. *)
Definition comma_to_point (c : N) : N := if (c =? COMMA)%N then 46%N else c.

(** A page for the examples: a striped table whose body holds the rows. *)
Definition text_cell (s : string) : node :=
  Tag (py "td") [] [NavigableString (py s)].

Definition quote_row (sym name vol prev open close var : string) : node :=
  Tag (py "tr") []
      [text_cell sym; text_cell name; text_cell vol; text_cell prev;
       text_cell open; text_cell close; text_cell var].

Definition page_of_rows (rows : list node) : node :=
  Tag (py "[document]") []
      [Tag (py "table") [(py "class", AttrList [py "table"; py "table-striped"])]
           [Tag (py "tbody") [] rows]].

Definition lowercase_row : node :=
  quote_row "abcd" "Societe" "12 500" "1 000" "1 010" "1 020,50" "1,50".

(** One well-formed row and one row of four cells. *)
Definition scenario_page : node :=
  page_of_rows
    [quote_row "ABCD" "Societe" "12 500" "1 000" "1 010" "1 020,50" "1,50";
     Tag (py "tr") [] [text_cell "EFGH"; text_cell "Autre"; text_cell "1"; text_cell "2"]].

(** An HTTP answer that [raise_for_status] lets through. *)
Definition delivered {A : Type} (o : http_outcome A) : bool :=
  match o with
  | Response status _ => negb ((400 <=? status) && (status <? 600))
  | _ => false
  end.

(** The state after one POST, and after [k] of them. *)
Definition after_post (target payload : pystr) (s : State) : State :=
  mk_state (committed s) (persistent s) (pending s) (S (tick s))
           ((target, payload) :: posts s).

Fixpoint after_posts (k : nat) (target payload : pystr) (s : State) : State :=
  match k with
  | O => s
  | S k' => after_posts k' target payload (after_post target payload s)
  end.

(** No transaction is open: nothing changed, nothing pending. *)
Definition session_clean (s : State) : Prop :=
  persistent s = committed s /\ pending s = no_rows.

(** How [broadcast_to_webhooks] may change a subscriber between the
    ticks [lo] and [hi]: only its [last_triggered], and only when a POST
    to its URL was answered without error in between. *)
Definition row_rel (W : World) (payload : pystr) (lo hi : nat)
  (w w' : WebhookSubscription) : Prop :=
  url w' = url w /\ description w' = description w /\ is_active w' = is_active w
  /\ (last_triggered w' = last_triggered w
      \/ is_active w = 1
         /\ exists n, (lo <= n < hi)%nat
                      /\ delivered (http_post W n (url w) payload) = true).

(** A world for the examples: the settings of [config.py], a database
    that never fails, Monday 2025-10-27 at 18:00 on the clock, and no
    endpoint reachable. *)
Definition monday_evening : datetime :=
  mk_datetime (ymd2ord 2025 10 27) (mk_time 18 0 0 0).

Definition quiet_world : World :=
  mk_world default_settings
           (fun _ => false)
           (fun _ => monday_evening)
           (fun _ => ConnectionFailed)
           (fun _ => Raise ValueError)
           (fun _ _ => ConnectionFailed)
           (fun _ _ => Ok tt)
           (fun _ _ => false)
           (fun _ => Raise PdfError)
           (fun _ _ => None)
           (fun _ _ _ => ConnectionFailed).

Definition with_settings (W : World) (st : Settings) : World :=
  mk_world st (db_fails W) (clock W) (http_get_page W) (BeautifulSoup W)
           (http_get_pdf W) (save_body W) (path_exists W) (pdf_pages W) (re_search W) (http_post W).

Definition with_db_fails (W : World) (f : nat -> bool) : World :=
  mk_world (settings W) f (clock W) (http_get_page W) (BeautifulSoup W)
           (http_get_pdf W) (save_body W) (path_exists W) (pdf_pages W) (re_search W) (http_post W).

Definition with_page (W : World) (page : node) : World :=
  mk_world (settings W) (db_fails W) (clock W)
           (fun _ => Response 200 (py "<html>")) (fun _ => Ok page)
           (http_get_pdf W) (save_body W) (path_exists W) (pdf_pages W) (re_search W) (http_post W).

Definition with_http_post (W : World)
  (f : nat -> pystr -> pystr -> http_outcome unit) : World :=
  mk_world (settings W) (db_fails W) (clock W) (http_get_page W) (BeautifulSoup W)
           (http_get_pdf W) (save_body W) (path_exists W) (pdf_pages W) (re_search W) f.

Definition empty_state : State := mk_state no_rows no_rows no_rows 0 [].

(** A state whose database holds the given tables, with no open
    transaction. *)
Definition stored (t : Tables) : State := mk_state t t no_rows 0 [].

(** The subscribers after [webhook.last_triggered = t] on the row [ref]. *)
Definition touch (ref : nat) (t : datetime) (rows : list WebhookSubscription)
  : list WebhookSubscription :=
  match nth_error rows ref with
  | Some w => update_nth ref (mk_webhook (url w) (description w) (is_active w) (Some t)) rows
  | None => rows
  end.

(** The state after the [try] block that records a delivery, entered at
    [s] with no open transaction, when the commit goes through. *)
Definition after_delivery (W : World) (ref : nat) (s : State) : State :=
  let t := with_webhooks (committed s)
             (touch ref (clock W (tick s)) (webhook_subscriptions (committed s))) in
  mk_state t t no_rows (S (S (tick s))) (posts s).

(** The state after a reload. *)
Definition after_reload (expired : bool) (s : State) : State :=
  if expired
  then mk_state (committed s) (persistent s) (pending s) (S (tick s)) (posts s)
  else s.

(** Three active subscribers, of which the second is unreachable. *)
Definition hook_a : pystr := py "https://a.example/hook".
Definition hook_b : pystr := py "https://b.example/hook".
Definition hook_c : pystr := py "https://c.example/hook".

Definition three_subscribers : State :=
  stored (with_webhooks no_rows
            [mk_webhook hook_a None 1 None;
             mk_webhook hook_b None 1 None;
             mk_webhook hook_c None 1 None]).

Definition b_is_down : World :=
  with_http_post quiet_world
    (fun _ target _ => if pystr_eqb target hook_b then ConnectionFailed
                       else Response 200 tt).

(** The text [fetch_page] returns at tick [n], if any. *)
Definition page_text (W : World) (n : nat) : option pystr :=
  match http_get_page W n with
  | Response status text =>
      if (400 <=? status) && (status <? 600) then None else Some text
  | _ => None
  end.


Definition same_symbol (a r : action_dict) : bool := pystr_eqb (symbole r) (symbole a).

(** Whether a quote with the symbol of [a] is among [rows]. *)
Definition known_symbol (rows : list Action) (a : action_dict) : bool :=
  match find_index (same_symbol a) rows with
  | Some _ => true
  | None => false
  end.



(** The rows of the open transaction after the loop of
    [save_to_database]: the known quotes overwritten. *)
Definition overwrite_known (rows : list Action) (l : list action_dict) : list Action :=
  fold_left (fun rows a => match find_index (same_symbol a) rows with
                           | Some i => update_nth i a rows
                           | None => rows
                           end) l rows.

Definition snapshot_of (a : action_dict) : HistoriqueAction :=
  mk_snapshot (symbole a) a.

(** The scenario page served by a database that refuses the commit
    (the third interaction, after the fetch and one query). *)
Definition commit_refused : World :=
  with_db_fails (with_page quiet_world scenario_page) (fun n => Nat.eqb n 2).

(** The date [process_daily_pdf] works on: the one given, or the one
    [get_pdf_date] resolves from the clock; and the clock reads this
    takes. *)
Definition target_of (W : World) (target_date : option date) (s : State) : result date :=
  match target_date with
  | Some d => Ok d
  | None => get_pdf_date (clock W (tick s))
  end.

Definition target_ticks (target_date : option date) : nat :=
  match target_date with
  | Some _ => 0
  | None => 1
  end.

(** Whether a bulletin is already in the downloads directory at tick [n]. *)
Definition already_local (W : World) (n : nat) (filename : pystr) : bool :=
  path_exists W n (path_join (DOWNLOADS_DIR (settings W)) filename).

(** What the download of tick [n] comes to: the bulletin is written
    ([Ok true]), it is not obtained ([Ok false]: no answer, status 404
    or an error status, or a transfer that breaks off), or writing the
    file raises something that is not a request error. *)
Definition download_outcome (W : World) (n : nat) (pdf_url filename : pystr)
  : result bool :=
  match http_get_pdf W n pdf_url with
  | Response status _ =>
      if (status =? 404) || ((400 <=? status) && (status <? 600)) then Ok false
      else match save_body W n (path_join (DOWNLOADS_DIR (settings W)) filename) with
           | Ok _ => Ok true
           | Raise RequestsTimeout | Raise RequestsError => Ok false
           | Raise e => Raise e
           end
  | _ => Ok false
  end.

(** What the download of tick [n] lets through to its caller. *)
Definition download_error (W : World) (n : nat) (pdf_url filename : pystr) : option exn :=
  match download_outcome W n pdf_url filename with
  | Raise e => Some e
  | Ok _ => None
  end.

(** Whether the download of tick [n] brings the bulletin. *)
Definition download_succeeds (W : World) (n : nat) (pdf_url filename : pystr) : bool :=
  match download_outcome W n pdf_url filename with
  | Ok true => true
  | _ => false
  end.

(** The upsert by report date, as the specification words it. *)
Definition upsert_report (rows : list IndicateurMarche) (r : IndicateurMarche)
  : list IndicateurMarche :=
  match find_index (fun x => date_rapport x =? date_rapport r) rows with
  | Some i => update_nth i r rows
  | None => rows ++ [r]
  end.

(** The number of reports for a date. *)
Definition count_date (d : date) (rows : list IndicateurMarche) : nat :=
  List.length (filter (fun x => date_rapport x =? d) rows).

(** The reports the retention keeps: those not before the cutoff. *)
Definition retained (cutoff : date) (rows : list IndicateurMarche) : list IndicateurMarche :=
  filter (fun r => negb (date_rapport r <? cutoff)) rows.

(** A world where the bulletin is already in the downloads directory and
    its text gives the average price-earnings ratio only. *)
Definition bulletin_world : World :=
  mk_world default_settings
           (fun _ => false)
           (fun _ => monday_evening)
           (fun _ => ConnectionFailed)
           (fun _ => Raise ValueError)
           (fun _ _ => ConnectionFailed)
           (fun _ _ => Ok tt)
           (fun _ _ => true)
           (fun _ => Ok [Some (py "PER moyen du marche : 12,34")])
           (fun key _ => match key with
                         | key_per_moyen => Some (py "12,34")
                         | _ => None
                         end)
           (fun _ _ _ => ConnectionFailed).

Definition per_only (v : pyfloat) : Indicators := mk_indicators None (Some v) None None.

(** A store holding a report of January and one of last Thursday. *)
Definition two_reports : State :=
  stored (with_indicateurs no_rows
            [mk_indicateur (ymd2ord 2025 1 2) no_indicators (py "old.pdf");
             mk_indicateur (ymd2ord 2025 10 23) no_indicators (py "recent.pdf")]).

(** A world whose subscriber times out on the first request and answers
    the following ones. *)
Definition flaky_world : World :=
  with_http_post quiet_world
    (fun n _ _ => if Nat.eqb n 0 then TimedOut else Response 200 tt).

(** The text of a bulletin: the non-empty texts of its pages, each
    preceded by a space. *)
Definition bulletin_text (pages : list (option pystr)) : pystr :=
  fold_left (fun acc text =>
               match text with
               | Some t => if is_empty t then acc else acc ++ SPACE :: t
               | None => acc
               end) pages [].

(** What the pattern of one indicator gives on a text: the number of the
    first match, when there is a match and the number is read. *)
Definition indicator_from (W : World) (cleaned_text : pystr) (key : indicator_key)
  : option pyfloat :=
  match re_search W key cleaned_text with
  | Some group1 =>
      match py_float (replace COMMA (py ".") group1) with
      | Ok v => Some v
      | Raise _ => None
      end
  | None => None
  end.

(** [l1] is the beginning of [l2]. *)
Definition prefix_of {A : Type} (l1 l2 : list A) : Prop := exists more, l2 = l1 ++ more.


Definition sample_quote : action_dict :=
  mk_action (py "ABCD") (py "Societe") 12500 None None None None.

(** The text [parse_variation] reads in a cell: that of the first span
    carrying one of the variation classes, or else that of the cell. *)
Definition variation_text (td_element : node) : pystr :=
  match find td_element (py "span") [(py "class", variation_classes)] with
  | Some span => get_text_strip span
  | None => get_text_strip td_element
  end.

(** A page with a decoy table before the main section. *)
Definition decoy_page : node :=
  Tag (py "[document]") []
      [Tag (py "table") [(py "class", AttrList [py "table-striped"])]
           [Tag (py "tbody") []
                [quote_row "TOP1" "Decoy" "1" "1" "1" "1" "1"]];
       Tag (py "section") [(py "id", AttrStr (py "block-system-main"))]
           [Tag (py "table") []
                [Tag (py "tr") [] [Tag (py "th") [] [NavigableString (py "Symbole")]];
                 quote_row "ABCD" "Societe" "12 500" "1 000" "1 010" "1 020,50" "1,50"]]].

(** ** [TaskScheduler]: the scheduled tasks ([app/services/scheduler.py]) *)

(** [try: m finally: f] *)
Definition mfinally {A : Type} (m : M A) (f : M unit) : M A :=
  fun s => match m s with
           | (r, s') => match f s' with
                        | (Ok _, s'') => (r, s'')
                        | (Raise e, s'') => (Raise e, s'')
                        end
           end.

(** [SessionLocal()]: a new session holds no object and no change. *)
Definition SessionLocal : M unit :=
  fun s => (Ok tt, mk_state (committed s) (committed s) no_rows (tick s) (posts s)).

(** [db.close()]: what was not committed is abandoned. *)
Definition close : M unit :=
  fun s => (Ok tt, mk_state (committed s) (committed s) no_rows (tick s) (posts s)).

(** [with get_db_context() as db: body] ([app/database.py]) *)
Definition get_db_context {A : Type} (W : World) (body : M A) : M A :=
  _ <~ SessionLocal ;;
  mfinally
    (mtry (a <~ body ;; _ <~ commit W ;; ret a)
          (catch_Exception (fun e => _ <~ rollback ;; raise e)))
    close.

(** The bodies the two kinds of notification post, as
    [payload.model_dump(mode='json')] renders them: for the quotes from
    the count and the two readings of the clock, for the indicators from
    the fields of the report and the reading of the clock. *)
Record Payloads : Type := mk_payloads {
  actions_payload : Z -> datetime -> datetime -> pystr;
  indicators_payload : date -> Indicators -> datetime -> pystr
}.

(** [notify_actions_update(actions_count, db)]: the dictionary, with its
    own timestamp, is built before [create_actions_payload] reads the
    clock again. *)
Definition notify_actions_update (W : World) (P : Payloads) (actions_count : Z)
  : M BroadcastStats :=
  data_timestamp <~ now W ;;
  timestamp <~ now W ;;
  broadcast_to_webhooks W (actions_payload P actions_count data_timestamp timestamp).

(** [notify_indicators_update(indicators, db)] on the fields of a report. *)
Definition notify_indicators_update (W : World) (P : Payloads) (latest : IndicateurMarche)
  : M BroadcastStats :=
  timestamp <~ now W ;;
  broadcast_to_webhooks W
    (indicators_payload P (date_rapport latest) (valeurs latest) timestamp).

(** [scrape_brvm_task()] *)
Definition scrape_brvm_task (W : World) (P : Payloads) : M unit :=
  mtry
    (get_db_context W
       (stats <~ scrape_and_save W ;;
        if (inserted stats >? 0) || (updated stats >? 0)
        then
          let total_count := inserted stats + updated stats in
          _ <~ notify_actions_update W P total_count ;;
          ret tt
        else ret tt))
    (catch_Exception (fun _ => ret tt)).

(** [query.order_by(IndicateurMarche.date_rapport.desc()).first()] *)
Fixpoint latest_report (rows : list IndicateurMarche) : option IndicateurMarche :=
  match rows with
  | [] => None
  | r :: rest =>
      match latest_report rest with
      | Some r' => if date_rapport r <? date_rapport r' then Some r' else Some r
      | None => Some r
      end
  end.

(** [extract_pdf_task()] *)
Definition extract_pdf_task (W : World) (P : Payloads) : M unit :=
  mtry
    (get_db_context W
       (success <~ process_daily_pdf W None ;;
        if success : bool then
          _ <~ round_trip W ;;
          s <~ get_state ;;
          match latest_report (indicateurs_marche (persistent s)) with
          | Some latest => _ <~ notify_indicators_update W P latest ;; ret tt
          | None => ret tt
          end
        else ret tt))
    (catch_Exception (fun _ => ret tt)).

(** A computation that sends no request. *)
Definition keeps_posts {A : Type} (m : M A) : Prop :=
  forall s : State, posts (snd (m s)) = posts s.

(** The state a new session starts from. *)
Definition fresh (s : State) : State :=
  mk_state (committed s) (committed s) no_rows (tick s) (posts s).

(** Payloads for the examples. *)
Definition sample_payloads : Payloads :=
  mk_payloads (fun _ _ _ => py "actions") (fun _ _ _ => py "indicateurs").

(** A world in which the bulletin is served and the disk refuses the
    file. *)
Definition disk_full : World :=
  mk_world default_settings
           (fun _ => false)
           (fun _ => monday_evening)
           (fun _ => ConnectionFailed)
           (fun _ => Raise ValueError)
           (fun _ _ => Response 200 tt)
           (fun _ _ => Raise OSError)
           (fun _ _ => false)
           (fun _ => Raise PdfError)
           (fun _ _ => None)
           (fun _ _ _ => ConnectionFailed).



(** A page with a row for "ABCD", a row for "EFGH" and a row of four
    cells, and a store that holds older values for "ABCD" and a quote for
    "WXYZ". *)
Definition second_page : node :=
  page_of_rows
    [quote_row "ABCD" "Societe" "12 500" "1 000" "1 010" "1 020,50" "1,50";
     quote_row "EFGH" "Autre" "300" "-" "-" "-" "-";
     Tag (py "tr") [] [text_cell "IJKL"; text_cell "Courte"; text_cell "1"; text_cell "2"]].

Definition stocked : State :=
  stored (mk_tables
            [mk_action (py "ABCD") (py "Ancienne") 1 None None None None;
             mk_action (py "WXYZ") (py "Tierce") 7 None None None None]
            [mk_snapshot (py "ABCD")
               (mk_action (py "ABCD") (py "Ancienne") 1 None None None None)]
            [] []).

(** The characters a decimal number is written with, and those of an
    integer. *)
Definition numeric_char (c : N) : bool :=
  (is_digit c || (c =? 43) || (c =? 45) || (c =? 46) || (c =? 101) || (c =? 69)
   || (c =? UNDERSCORE))%N.

Definition integer_char (c : N) : bool :=
  (is_digit c || (c =? 43) || (c =? 45) || (c =? UNDERSCORE))%N.

(** The words [float] reads besides numbers: [inf], [infinity] and [nan]
    in any case, after an optional sign. *)
Definition special_word (t : pystr) : option pyfloat :=
  let '(neg, body) := split_sign t in
  let low := map lower_char body in
  if str_in low [py "inf"; py "infinity"] then Some (S754_infinity neg)
  else if pystr_eqb low (py "nan") then Some S754_nan
  else None.

(** A text that begins with no white space. *)
Definition starts_clean (s : pystr) : Prop :=
  match s with
  | [] => True
  | c :: _ => py_isspace c = false
  end.

Definition lower_letter (c : N) : bool := ((97 <=? c) && (c <=? 122))%N.


(** The world of [bulletin_world] with an empty downloads directory and
    a server that has the bulletin. *)
Definition served_bulletin : World :=
  mk_world default_settings
           (fun _ => false)
           (fun _ => monday_evening)
           (fun _ => ConnectionFailed)
           (fun _ => Raise ValueError)
           (fun _ _ => Response 200 tt)
           (fun _ _ => Ok tt)
           (fun _ _ => false)
           (fun _ => Ok [Some (py "PER moyen du marche : 12,34")])
           (fun key _ => match key with
                         | key_per_moyen => Some (py "12,34")
                         | _ => None
                         end)
           (fun _ _ _ => ConnectionFailed).

(* ===================================================================== *)
(** * Part II: properties                                                 *)
(* ===================================================================== *)

(** ** The report date *)

(** The loop of [get_pdf_date], one turn unfolded. *)
Lemma weekend_rollback_eq (d : date) :
  weekend_rollback d =
  if 5 <=? weekday d
  then d' <- date_sub_days d 1 ;; weekend_rollback d'
  else Ok d.
Proof.
  funelim (weekend_rollback d);
    match goal with H : (5 <=? weekday _) = _ |- _ => rewrite H end;
    try match goal with H : date_sub_days _ _ = _ |- _ => rewrite H end;
    reflexivity.
Qed.

Lemma weekday_range (d : date) : 0 <= weekday d <= 6.
Proof.
  unfold weekday. pose proof (Z.mod_pos_bound (d + 6) 7). lia.
Qed.

Lemma weekday_pred (d : date) :
  weekday (d - 1) = if weekday d =? 0 then 6 else weekday d - 1.
Proof.
  unfold weekday.
  destruct ((d + 6) mod 7 =? 0) eqn:E;
    [ apply Z.eqb_eq in E | apply Z.eqb_neq in E ];
    Z.to_euclidean_division_equations; lia.
Qed.

(** A valid date that falls on day [k] of the week is at least [k + 1]:
    0001-01-01 is a Monday. *)
Lemma weekday_le_ordinal (d : date) : MINORDINAL <= d -> weekday d + 1 <= d.
Proof.
  unfold weekday, MINORDINAL. intros H.
  Z.to_euclidean_division_equations. lia.
Qed.

Lemma date_sub_days_valid (d n : Z) :
  valid_date (d - n) -> date_sub_days d n = Ok (d - n).
Proof.
  unfold valid_date, date_sub_days, valid_dateb. intros [H1 H2].
  apply Z.leb_le in H1. apply Z.leb_le in H2. rewrite H1, H2. reflexivity.
Qed.

Lemma weekend_rollback_weekday (d : date) :
  weekday d <= 4 -> weekend_rollback d = Ok d.
Proof.
  intros H. rewrite weekend_rollback_eq.
  destruct (5 <=? weekday d) eqn:E; [ apply Z.leb_le in E; lia | reflexivity ].
Qed.

Lemma weekend_rollback_saturday (d : date) :
  valid_date d -> weekday d = 5 -> weekend_rollback d = Ok (d - 1).
Proof.
  intros Hv Hw. rewrite weekend_rollback_eq, Hw. cbn [Z.leb Z.compare Pos.compare Pos.compare_cont].
  pose proof (weekday_le_ordinal d (proj1 Hv)) as Hd.
  rewrite date_sub_days_valid by (unfold valid_date, MINORDINAL in *; lia).
  cbn [bind]. apply weekend_rollback_weekday.
  rewrite weekday_pred, Hw. cbn. lia.
Qed.

Lemma weekend_rollback_sunday (d : date) :
  valid_date d -> weekday d = 6 -> weekend_rollback d = Ok (d - 2).
Proof.
  intros Hv Hw. rewrite weekend_rollback_eq, Hw. cbn [Z.leb Z.compare Pos.compare Pos.compare_cont].
  pose proof (weekday_le_ordinal d (proj1 Hv)) as Hd.
  rewrite date_sub_days_valid by (unfold valid_date, MINORDINAL in *; lia).
  cbn [bind].
  replace (d - 2) with (d - 1 - 1) by lia.
  apply weekend_rollback_saturday.
  - unfold valid_date, MINORDINAL in *. lia.
  - rewrite weekday_pred, Hw. reflexivity.
Qed.

(** Comparing a time of day with the cutoff is comparing the seconds
    elapsed since midnight with 17:30:00. *)
Lemma time_lt_cutoff (t : time) :
  0 <= minute t < 60 -> 0 <= second t < 60 -> 0 <= microsecond t ->
  time_lt t cutoff_time = true <->
  hour t * 3600 + minute t * 60 + second t < 17 * 3600 + 30 * 60.
Proof.
  intros Hm Hs Hu. unfold time_lt, cutoff_time. cbn [hour minute second microsecond].
  rewrite !orb_true_iff, !andb_true_iff, !orb_true_iff, !andb_true_iff,
    !orb_true_iff, !andb_true_iff, !Z.ltb_lt, !Z.eqb_eq.
  lia.
Qed.

(** C1. For every reference instant whose candidate date exists (all but
    0001-01-01 before the cutoff, where the subtraction leaves the range
    of [date]), [get_pdf_date] returns a date; the candidate is the day
    before the reference date when the time of day is before 17:30:00 and
    the reference date otherwise; a candidate on a Saturday is moved back
    one day and one on a Sunday two days; the date returned is a Monday
    to Friday; at or after 17:30 on a weekday it is the reference date. *)
Theorem get_pdf_date_resolves (reference_date : datetime) :
  valid_date (dt_date reference_date) ->
  MINORDINAL < dt_date reference_date
  \/ time_lt (dt_time reference_date) cutoff_time = false ->
  let candidate :=
    if time_lt (dt_time reference_date) cutoff_time
    then dt_date reference_date - 1
    else dt_date reference_date in
  exists d : date,
    get_pdf_date reference_date = Ok d
    /\ d = (if weekday candidate =? 5 then candidate - 1
            else if weekday candidate =? 6 then candidate - 2
            else candidate)
    /\ 0 <= weekday d <= 4
    /\ (time_lt (dt_time reference_date) cutoff_time = false ->
        weekday (dt_date reference_date) <= 4 ->
        d = dt_date reference_date).
Proof.
  intros Hv Hmin candidate.
  assert (Hc : valid_date candidate
               /\ get_pdf_date reference_date = weekend_rollback candidate).
  { unfold get_pdf_date, candidate.
    destruct (time_lt (dt_time reference_date) cutoff_time).
    - destruct Hmin as [Hmin | Hmin]; [ | discriminate ].
      assert (Hv' : valid_date (dt_date reference_date - 1))
        by (unfold valid_date, MINORDINAL in *; lia).
      rewrite (date_sub_days_valid _ _ Hv'). split; [ exact Hv' | reflexivity ].
    - split; [ exact Hv | reflexivity ]. }
  destruct Hc as [Hvc Heq]. rewrite Heq.
  pose proof (weekday_range candidate) as Hr.
  destruct (weekday candidate =? 5) eqn:E5.
  - apply Z.eqb_eq in E5. exists (candidate - 1).
    rewrite (weekend_rollback_saturday _ Hvc E5).
    repeat split; try (rewrite weekday_pred, E5; cbn; lia).
    intros Ht Hw. unfold candidate in E5. rewrite Ht in E5. lia.
  - apply Z.eqb_neq in E5. destruct (weekday candidate =? 6) eqn:E6.
    + apply Z.eqb_eq in E6. exists (candidate - 2).
      rewrite (weekend_rollback_sunday _ Hvc E6).
      replace (candidate - 2) with (candidate - 1 - 1) by lia.
      repeat split; try (rewrite !weekday_pred, E6; cbn; lia).
      intros Ht Hw. unfold candidate in E6. rewrite Ht in E6. lia.
    + apply Z.eqb_neq in E6. exists candidate.
      rewrite weekend_rollback_weekday by lia.
      repeat split; try lia.
      intros Ht _. unfold candidate. rewrite Ht. reflexivity.
Qed.

(** Monday 2025-10-27 at noon resolves to Friday 2025-10-24. *)
Lemma get_pdf_date_resolves_witness :
  exists d : date,
    get_pdf_date (mk_datetime (ymd2ord 2025 10 27) (mk_time 12 0 0 0)) = Ok d
    /\ d = ymd2ord 2025 10 24
    /\ 0 <= weekday d <= 4.
Proof.
  destruct (get_pdf_date_resolves
              (mk_datetime (ymd2ord 2025 10 27) (mk_time 12 0 0 0)))
    as [d (H1 & H2 & H3 & _)].
  - unfold valid_date. vm_compute. split; discriminate.
  - left. reflexivity.
  - exists d. split; [ exact H1 | ]. split; [ | exact H3 ].
    rewrite H2. reflexivity.
Defined.

(** ** The numeric normalisers *)

Lemma py_float_raises (s : pystr) (e : exn) :
  py_float s = Raise e -> e = ValueError.
Proof.
  unfold py_float.
  destruct (strip_underscores 0%N (strip s)) as [t | ]; [ | congruence ].
  destruct (split_sign t) as [neg body].
  destruct (str_in _ _); [ discriminate | ].
  destruct (pystr_eqb _ _); [ discriminate | ].
  destruct (span_digits body) as [ip r1].
  destruct (match r1 with 46%N :: r => span_digits r | _ => ([], r1) end) as [fp r2].
  destruct (is_empty ip && is_empty fp); [ congruence | ].
  destruct (parse_exponent r2) as [ex r3].
  destruct (is_empty r3); congruence.
Qed.

Lemma py_int_raises (s : pystr) (e : exn) :
  py_int s = Raise e -> e = ValueError.
Proof.
  unfold py_int. destruct (split_sign (strip s)) as [neg body].
  destruct (strip_underscores 0%N body) as [ds | ]; [ | congruence ].
  destruct (negb (is_empty ds) && forallb is_digit ds); congruence.
Qed.

Lemma is_empty_nil {A : Type} (l : list A) : is_empty l = true -> l = [].
Proof. destruct l; [ reflexivity | discriminate ]. Qed.

Lemma empty_is_placeholder (value : pystr) :
  is_empty value = true -> str_in (strip value) placeholders = true.
Proof. intros H. apply is_empty_nil in H. subst. reflexivity. Qed.

(** [parse_float] as a total function: absence for a placeholder and for
    a text [float] rejects, the value [float] reads otherwise. *)
Lemma parse_float_eq (value : pystr) :
  parse_float value =
  Ok (if str_in (strip value) placeholders then None
      else match py_float (clean_decimal value) with
           | Ok f => Some f
           | Raise _ => None
           end).
Proof.
  unfold parse_float.
  destruct (is_empty value) eqn:Ev.
  - rewrite (empty_is_placeholder _ Ev). reflexivity.
  - cbn [orb]. destruct (str_in (strip value) placeholders); [ reflexivity | ].
    destruct (is_empty (clean_decimal value)) eqn:Ec.
    + apply is_empty_nil in Ec. rewrite Ec. reflexivity.
    + destruct (py_float (clean_decimal value)) as [f | e] eqn:Ef; [ reflexivity | ].
      apply py_float_raises in Ef. subst e. reflexivity.
Qed.

Lemma parse_int_eq (value : pystr) :
  parse_int value =
  Ok (if str_in (strip value) placeholders then 0
      else match py_int (clean_integer value) with
           | Ok n => n
           | Raise _ => 0
           end).
Proof.
  unfold parse_int.
  destruct (is_empty value) eqn:Ev.
  - rewrite (empty_is_placeholder _ Ev). reflexivity.
  - cbn [orb]. destruct (str_in (strip value) placeholders); [ reflexivity | ].
    destruct (is_empty (clean_integer value)) eqn:Ec.
    + apply is_empty_nil in Ec. rewrite Ec. reflexivity.
    + destruct (py_int (clean_integer value)) as [n | e] eqn:En; [ reflexivity | ].
      apply py_int_raises in En. subst e. reflexivity.
Qed.

Lemma replace_comma_map (s : pystr) :
  replace COMMA (py ".") s = map comma_to_point s.
Proof.
  unfold replace. induction s as [ | c r IH]; [ reflexivity | ].
  cbn [flat_map map]. rewrite IH. unfold comma_to_point.
  destruct (c =? COMMA)%N; reflexivity.
Qed.

Lemma isspace_comma_to_point (c : N) :
  py_isspace (comma_to_point c) = py_isspace c.
Proof.
  unfold comma_to_point. destruct (c =? COMMA)%N eqn:E; [ | reflexivity ].
  apply N.eqb_eq in E. subst c. reflexivity.
Qed.

Lemma lstrip_map_comma (s : pystr) :
  lstrip (map comma_to_point s) = map comma_to_point (lstrip s).
Proof.
  induction s as [ | c r IH]; [ reflexivity | ].
  cbn [map lstrip]. rewrite isspace_comma_to_point.
  destruct (py_isspace c); [ exact IH | reflexivity ].
Qed.

Lemma strip_map_comma (s : pystr) :
  strip (map comma_to_point s) = map comma_to_point (strip s).
Proof.
  unfold strip, rstrip.
  rewrite lstrip_map_comma, <- map_rev, lstrip_map_comma, map_rev. reflexivity.
Qed.

Lemma comma_to_point_idem (c : N) :
  comma_to_point (comma_to_point c) = comma_to_point c.
Proof.
  unfold comma_to_point. destruct (c =? COMMA)%N eqn:E; [ reflexivity | ].
  rewrite E. reflexivity.
Qed.

Lemma replace_space_map_comma (s : pystr) :
  replace SPACE [] (map comma_to_point s) = map comma_to_point (replace SPACE [] s).
Proof.
  unfold replace. induction s as [ | c r IH]; [ reflexivity | ].
  cbn [map flat_map]. rewrite IH. unfold comma_to_point at 1 3.
  destruct (c =? COMMA)%N eqn:E.
  - apply N.eqb_eq in E. subst c. reflexivity.
  - destruct (c =? SPACE)%N; reflexivity.
Qed.

Lemma clean_decimal_comma (value : pystr) :
  clean_decimal (replace COMMA (py ".") value) = clean_decimal value.
Proof.
  unfold clean_decimal.
  rewrite !replace_comma_map, replace_space_map_comma, map_map.
  rewrite (map_ext _ _ comma_to_point_idem). reflexivity.
Qed.

Lemma pystr_eqb_eq (a b : pystr) : pystr_eqb a b = true <-> a = b.
Proof.
  unfold pystr_eqb. destruct (list_eq_dec N.eq_dec a b); split; congruence.
Qed.

Lemma str_in_placeholders (x : pystr) :
  str_in x placeholders = true <-> x = py "-" \/ x = py "0" \/ x = [].
Proof.
  unfold str_in, placeholders. cbn [existsb].
  rewrite !orb_true_iff, !pystr_eqb_eq. cbn. intuition discriminate.
Qed.

Lemma placeholder_map_comma (s : pystr) :
  str_in (map comma_to_point s) placeholders = str_in s placeholders.
Proof.
  apply eq_true_iff_eq. rewrite !str_in_placeholders.
  destruct s as [ | c [ | c' r]]; cbn [map py list_ascii_of_string]; cbn.
  - tauto.
  - unfold comma_to_point. destruct (c =? COMMA)%N eqn:E.
    + apply N.eqb_eq in E. subst c. unfold COMMA.
      intuition discriminate.
    + tauto.
  - intuition discriminate.
Qed.

(** *** What [float] and [int] accept *)

Lemma lstrip_suffix (s : pystr) : exists ws, s = ws ++ lstrip s.
Proof.
  induction s as [ | c r IH]; [ exists []; reflexivity | ].
  cbn [lstrip]. destruct (py_isspace c).
  - destruct IH as (ws & H). exists (c :: ws). cbn [app]. rewrite <- H. reflexivity.
  - exists []. reflexivity.
Qed.

Lemma lstrip_starts_clean (s : pystr) : starts_clean (lstrip s).
Proof.
  induction s as [ | c r IH]; [ exact I | ].
  cbn [lstrip]. destruct (py_isspace c) eqn:E; [ exact IH | exact E ].
Qed.

Lemma lstrip_fix (s : pystr) : starts_clean s -> lstrip s = s.
Proof.
  destruct s as [ | c r]; [ reflexivity | ].
  cbn [starts_clean lstrip]. intros ->. reflexivity.
Qed.

(** [strip] is idempotent: the cleaned texts have no white space at
    their ends. *)
Lemma strip_idem (x : pystr) : strip (strip x) = strip x.
Proof.
  unfold strip, rstrip.
  set (y := lstrip x). set (z := lstrip (rev y)).
  assert (H1 : lstrip (rev z) = rev z).
  { apply lstrip_fix. destruct (lstrip_suffix (rev y)) as (ws & Hws). fold z in Hws.
    assert (Hy : y = rev z ++ rev ws).
    { rewrite <- rev_app_distr, <- Hws, rev_involutive. reflexivity. }
    pose proof (lstrip_starts_clean x) as Hc. fold y in Hc. rewrite Hy in Hc.
    destruct (rev z); [ exact I | exact Hc ]. }
  rewrite H1, rev_involutive. f_equal. apply lstrip_fix, lstrip_starts_clean.
Qed.

Lemma strip_no_space (t : pystr) :
  (forall c, In c t -> py_isspace c = false) -> strip t = t.
Proof.
  intros H. unfold strip, rstrip.
  assert (Hs : forall s : pystr, (forall c, In c s -> py_isspace c = false) ->
                                 starts_clean s).
  { intros [ | c r] Hc; [ exact I | ]. apply Hc. left. reflexivity. }
  rewrite (lstrip_fix t (Hs t H)).
  rewrite lstrip_fix; [ apply rev_involutive | ].
  apply Hs. intros c Hc. apply H. apply in_rev. exact Hc.
Qed.

Lemma split_sign_cases (s : pystr) :
  split_sign s
  = match s with
    | c :: r => if (c =? 43)%N then (false, r)
                else if (c =? 45)%N then (true, r)
                else (false, s)
    | [] => (false, s)
    end.
Proof.
  destruct s as [ | c r]; [ reflexivity | ].
  destruct (N.eqb_spec c 43) as [-> | H1]; [ reflexivity | ].
  destruct (N.eqb_spec c 45) as [-> | H2]; [ reflexivity | ].
  unfold split_sign.
  destruct c as [ | p]; [ reflexivity | ].
  repeat (destruct p as [p | p | ]; try reflexivity); congruence.
Qed.

Lemma fraction_cases (r1 : pystr) :
  match r1 with
  | 46%N :: r => span_digits r
  | _ => ([], r1)
  end
  = match r1 with
    | c :: r => if (c =? 46)%N then span_digits r else ([], r1)
    | [] => ([], r1)
    end.
Proof.
  destruct r1 as [ | c r]; [ reflexivity | ].
  destruct (N.eqb_spec c 46) as [-> | H1]; [ reflexivity | ].
  destruct c as [ | p]; [ reflexivity | ].
  repeat (destruct p as [p | p | ]; try reflexivity); congruence.
Qed.

Lemma span_digits_spec (s : pystr) :
  forall d t, span_digits s = (d, t) -> s = d ++ t /\ forallb is_digit d = true.
Proof.
  induction s as [ | c r IH]; intros d t H; cbn [span_digits] in H.
  - injection H as <- <-. auto.
  - destruct (is_digit c) eqn:E.
    + destruct (span_digits r) as [d' t'] eqn:Es. injection H as <- <-.
      destruct (IH _ _ eq_refl) as [H1 H2].
      split; [ cbn [app]; f_equal; exact H1 | cbn [forallb]; rewrite E, H2; reflexivity ].
    + injection H as <- <-. auto.
Qed.

Lemma strip_underscores_chars (s : pystr) :
  forall prev u, strip_underscores prev s = Some u ->
                 forall c, In c s -> c = UNDERSCORE \/ In c u.
Proof.
  induction s as [ | a r IH]; intros prev u H c Hin; [ contradiction | ].
  cbn [strip_underscores] in H. destruct (a =? UNDERSCORE)%N eqn:E.
  - destruct (is_digit prev); [ | discriminate ].
    destruct Hin as [<- | Hin]; [ left; apply N.eqb_eq; exact E | ].
    eapply IH; eassumption.
  - destruct ((prev =? UNDERSCORE)%N && negb (is_digit a)); [ discriminate | ].
    destruct (strip_underscores a r) as [t | ] eqn:Er; [ | discriminate ].
    injection H as <-. destruct Hin as [<- | Hin]; [ right; left; reflexivity | ].
    destruct (IH a t Er c Hin) as [Hc | Hc]; [ left | right; right ]; exact Hc.
Qed.

(** An underscore stands between two digits. *)
Lemma strip_underscores_digit (s : pystr) :
  forall prev u, strip_underscores prev s = Some u -> In UNDERSCORE s ->
                 exists d, In d u /\ is_digit d = true.
Proof.
  induction s as [ | a r IH]; intros prev u H Hin; [ contradiction | ].
  cbn [strip_underscores] in H. destruct (a =? UNDERSCORE)%N eqn:E.
  - destruct (is_digit prev); [ | discriminate ].
    apply N.eqb_eq in E. subst a.
    destruct r as [ | c r']; cbn [strip_underscores] in H.
    + rewrite N.eqb_refl in H. discriminate.
    + destruct (c =? UNDERSCORE)%N eqn:E2; [ discriminate | ].
      rewrite N.eqb_refl in H. destruct (is_digit c) eqn:Ed; [ | discriminate ].
      cbn [negb andb] in H.
      destruct (strip_underscores c r') as [t | ]; [ | discriminate ].
      injection H as <-. exists c. split; [ left; reflexivity | exact Ed ].
  - destruct ((prev =? UNDERSCORE)%N && negb (is_digit a)); [ discriminate | ].
    destruct (strip_underscores a r) as [t | ] eqn:Er; [ | discriminate ].
    injection H as <-. destruct Hin as [Heq | Hin].
    + subst a. rewrite N.eqb_refl in E. discriminate.
    + destruct (IH a t Er Hin) as (d & Hd & Hdd).
      exists d. split; [ right; exact Hd | exact Hdd ].
Qed.

Lemma strip_underscores_id (s : pystr) :
  forall prev, prev <> UNDERSCORE -> ~ In UNDERSCORE s ->
               strip_underscores prev s = Some s.
Proof.
  induction s as [ | a r IH]; intros prev Hp Hn; cbn [strip_underscores].
  - apply N.eqb_neq in Hp. rewrite Hp. reflexivity.
  - destruct (a =? UNDERSCORE)%N eqn:E.
    + apply N.eqb_eq in E. exfalso. apply Hn. left. exact E.
    + apply N.eqb_neq in Hp. rewrite Hp. cbn [andb].
      rewrite IH; [ reflexivity | apply N.eqb_neq; exact E | ].
      intros H. apply Hn. right. exact H.
Qed.

Lemma lower_letter_plain (c : N) :
  lower_letter (lower_char c) = true ->
  py_isspace c = false /\ c <> UNDERSCORE /\ is_digit c = false.
Proof.
  unfold lower_letter, lower_char, UNDERSCORE, is_digit.
  intros H.
  assert (Hc : (65 <= c <= 90 \/ 97 <= c <= 122)%N).
  { destruct ((65 <=? c) && (c <=? 90))%N eqn:E.
    - apply andb_prop in E. destruct E as [E1 E2].
      apply N.leb_le in E1. apply N.leb_le in E2. left. lia.
    - apply andb_prop in H. destruct H as [H1 H2].
      apply N.leb_le in H1. apply N.leb_le in H2. right. lia. }
  split; [ | split ].
  - apply not_true_iff_false. intros Hs. unfold py_isspace in Hs.
    rewrite !orb_true_iff, !andb_true_iff, !N.leb_le, !N.eqb_eq in Hs. lia.
  - lia.
  - apply not_true_iff_false. intros Hs.
    rewrite andb_true_iff, !N.leb_le in Hs. lia.
Qed.

(** A special word is written with a sign and letters only. *)
Lemma special_word_chars (t : pystr) (f : pyfloat) :
  special_word t = Some f ->
  forall c, In c t -> py_isspace c = false /\ c <> UNDERSCORE /\ is_digit c = false.
Proof.
  unfold special_word. intros H.
  destruct (split_sign t) as [neg body] eqn:Es.
  assert (Hbody : forall c, In c body ->
            py_isspace c = false /\ c <> UNDERSCORE /\ is_digit c = false).
  { intros c Hc. apply lower_letter_plain.
    assert (Hw : forallb lower_letter (map lower_char body) = true).
    { destruct (str_in (map lower_char body) [py "inf"; py "infinity"]) eqn:E1.
      - unfold str_in in E1. cbn [existsb] in E1.
        rewrite !orb_true_iff, !pystr_eqb_eq in E1.
        destruct E1 as [-> | [-> | E1]]; [ reflexivity | reflexivity | discriminate ].
      - destruct (pystr_eqb (map lower_char body) (py "nan")) eqn:E2; [ | discriminate ].
        apply pystr_eqb_eq in E2. rewrite E2. reflexivity. }
    rewrite forallb_forall in Hw. apply Hw. apply in_map. exact Hc. }
  rewrite split_sign_cases in Es. destruct t as [ | c0 r]; [ intros c [] | ].
  destruct (N.eqb_spec c0 43) as [-> | H1].
  { injection Es as <- <-. intros c [<- | Hc]; [ | apply Hbody; exact Hc ].
    split; [ reflexivity | split; [ discriminate | reflexivity ] ]. }
  destruct (N.eqb_spec c0 45) as [-> | H2].
  { injection Es as <- <-. intros c [<- | Hc]; [ | apply Hbody; exact Hc ].
    split; [ reflexivity | split; [ discriminate | reflexivity ] ]. }
  injection Es as <- <-. exact Hbody.
Qed.

(** [float] reads the special words. *)
Lemma py_float_special (t : pystr) (f : pyfloat) :
  special_word t = Some f -> py_float t = Ok f.
Proof.
  intros H. pose proof (special_word_chars t f H) as Hc.
  assert (Hstrip : strip t = t).
  { apply strip_no_space. intros c Hin. apply (Hc c Hin). }
  assert (Hus : strip_underscores 0%N t = Some t).
  { apply strip_underscores_id; [ discriminate | ].
    intros Hin. destruct (Hc _ Hin) as (_ & Hne & _). apply Hne. reflexivity. }
  unfold py_float. rewrite Hstrip, Hus.
  unfold special_word in H. destruct (split_sign t) as [neg body].
  cbv zeta in H.
  destruct (str_in (map lower_char body) [py "inf"; py "infinity"]).
  - injection H as <-. reflexivity.
  - destruct (pystr_eqb (map lower_char body) (py "nan")); [ | discriminate ].
    injection H as <-. reflexivity.
Qed.

Lemma numeric_of_digit (c : N) : is_digit c = true -> numeric_char c = true.
Proof. intros H. unfold numeric_char. rewrite H. reflexivity. Qed.

Lemma numeric_digits (d : pystr) :
  forallb is_digit d = true -> forallb numeric_char d = true.
Proof.
  rewrite !forallb_forall. intros H c Hc. apply numeric_of_digit, H, Hc.
Qed.

Lemma parse_exponent_done (s : pystr) (ex : Z) :
  parse_exponent s = (ex, []) -> forallb numeric_char s = true.
Proof.
  destruct s as [ | c r]; [ reflexivity | ].
  cbn [parse_exponent]. destruct ((c =? 101) || (c =? 69))%N eqn:Ec; [ | discriminate ].
  assert (Hc : numeric_char c = true).
  { unfold numeric_char. apply orb_prop in Ec.
    destruct Ec as [Ec | Ec]; rewrite Ec; rewrite ?orb_true_r; reflexivity. }
  rewrite split_sign_cases.
  assert (Hdigits : forall r' eneg,
            (let '(ds, t) := span_digits r' in
             if is_empty ds then (0, c :: r)
             else ((if eneg : bool then - digits_value ds else digits_value ds), t))
            = (ex, []) ->
            forallb numeric_char r' = true).
  { intros r' eneg H. destruct (span_digits r') as [ds t] eqn:Es.
    destruct (is_empty ds); [ discriminate | ]. injection H as _ ->.
    destruct (span_digits_spec _ _ _ Es) as [-> Hd]. rewrite app_nil_r.
    apply numeric_digits. exact Hd. }
  destruct r as [ | c2 r2].
  - cbn. discriminate.
  - destruct (N.eqb_spec c2 43) as [-> | H1].
    { intros H. cbn [forallb]. rewrite Hc, (Hdigits r2 false H). reflexivity. }
    destruct (N.eqb_spec c2 45) as [-> | H2].
    { intros H. cbn [forallb]. rewrite Hc, (Hdigits r2 true H). reflexivity. }
    intros H. cbn [forallb andb]. rewrite Hc. exact (Hdigits (c2 :: r2) false H).
Qed.

(** What [float] reads is a special word or is written with the
    characters of numbers only. *)
Lemma py_float_chars (t : pystr) (f : pyfloat) :
  py_float t = Ok f ->
  special_word (strip t) = Some f \/ forallb numeric_char (strip t) = true.
Proof.
  unfold py_float. intros H.
  destruct (strip_underscores 0%N (strip t)) as [u | ] eqn:Eu; [ | discriminate ].
  assert (Hword : special_word u = Some f -> special_word (strip t) = Some f).
  { intros Hsp. replace (strip t) with u; [ exact Hsp | ].
    destruct (in_dec N.eq_dec UNDERSCORE (strip t)) as [Hin | Hout].
    - destruct (strip_underscores_digit _ _ _ Eu Hin) as (d & Hd & Hdd).
      destruct (special_word_chars u f Hsp d Hd) as (_ & _ & Hnd). congruence.
    - rewrite (strip_underscores_id (strip t) 0%N) in Eu by (discriminate || exact Hout).
      congruence. }
  assert (Hnum : forallb numeric_char u = true -> forallb numeric_char (strip t) = true).
  { rewrite !forallb_forall. intros Hu c Hc.
    destruct (strip_underscores_chars _ _ _ Eu c Hc) as [-> | Hin];
      [ reflexivity | apply Hu; exact Hin ]. }
  destruct (split_sign u) as [neg body] eqn:Es.
  destruct (str_in (map lower_char body) [py "inf"; py "infinity"]) eqn:E1.
  { injection H as <-. left. apply Hword. unfold special_word. rewrite Es, E1. reflexivity. }
  destruct (pystr_eqb (map lower_char body) (py "nan")) eqn:E2.
  { injection H as <-. left. apply Hword. unfold special_word.
    rewrite Es, E1, E2. reflexivity. }
  right. apply Hnum.
  destruct (span_digits body) as [ip r1] eqn:Eip.
  rewrite fraction_cases in H.
  destruct (span_digits_spec _ _ _ Eip) as [Hbody Hip].
  assert (Hb : forallb numeric_char body = true).
  { rewrite Hbody, forallb_app, (numeric_digits ip Hip). cbn [andb].
    destruct r1 as [ | c1 r1'].
    - reflexivity.
    - destruct (c1 =? 46)%N eqn:E46.
      + destruct (span_digits r1') as [fp r2] eqn:Efp.
        destruct (span_digits_spec _ _ _ Efp) as [Hr1 Hfp].
        destruct (is_empty ip && is_empty fp); [ discriminate | ].
        destruct (parse_exponent r2) as [ex r3] eqn:Eex.
        destruct r3; [ | discriminate ].
        cbn [forallb]. unfold numeric_char at 1. rewrite E46, !orb_true_r. cbn [andb].
        rewrite Hr1, forallb_app, (numeric_digits fp Hfp). cbn [andb].
        exact (parse_exponent_done _ _ Eex).
      + destruct (is_empty ip && is_empty []); [ discriminate | ].
        destruct (parse_exponent (c1 :: r1')) as [ex r3] eqn:Eex.
        destruct r3; [ | discriminate ].
        exact (parse_exponent_done _ _ Eex). }
  rewrite split_sign_cases in Es. destruct u as [ | c0 r]; [ reflexivity | ].
  destruct (c0 =? 43)%N eqn:E43.
  { injection Es as _ <-. cbn [forallb]. unfold numeric_char at 1.
    rewrite E43, !orb_true_r. exact Hb. }
  destruct (c0 =? 45)%N eqn:E45.
  { injection Es as _ <-. cbn [forallb]. unfold numeric_char at 1.
    rewrite E45, !orb_true_r. exact Hb. }
  injection Es as _ <-. exact Hb.
Qed.

(** What [int] reads is written with digits, a sign and underscores. *)
Lemma py_int_chars (t : pystr) (n : Z) :
  py_int t = Ok n -> forallb integer_char (strip t) = true.
Proof.
  unfold py_int. intros H.
  destruct (split_sign (strip t)) as [neg body] eqn:Es.
  destruct (strip_underscores 0%N body) as [ds | ] eqn:Eu; [ | discriminate ].
  destruct (negb (is_empty ds) && forallb is_digit ds) eqn:Ed; [ | discriminate ].
  apply andb_prop in Ed. destruct Ed as [_ Ed].
  assert (Hb : forallb integer_char body = true).
  { rewrite forallb_forall in *. intros c Hc.
    destruct (strip_underscores_chars _ _ _ Eu c Hc) as [-> | Hin]; [ reflexivity | ].
    unfold integer_char. rewrite (Ed c Hin). reflexivity. }
  rewrite split_sign_cases in Es. destruct (strip t) as [ | c0 r]; [ reflexivity | ].
  destruct (c0 =? 43)%N eqn:E43.
  { injection Es as _ <-. cbn [forallb]. unfold integer_char at 1.
    rewrite E43, !orb_true_r. exact Hb. }
  destruct (c0 =? 45)%N eqn:E45.
  { injection Es as _ <-. cbn [forallb]. unfold integer_char at 1.
    rewrite E45, !orb_true_r. exact Hb. }
  injection Es as _ <-. exact Hb.
Qed.

(** C6 as stated does not hold: a cell that holds no number but one of
    the words [float] knows is not read as absence. "NaN" gives the
    float not-a-number and "Infinity" and "-inf" the infinities, which
    are then stored as the price. *)
Lemma non_numeric_text_not_absent :
  parse_float (py "NaN") = Ok (Some S754_nan)
  /\ parse_float (py "Infinity") = Ok (Some (S754_infinity false))
  /\ parse_float (py "-inf") = Ok (Some (S754_infinity true))
  /\ forallb is_digit (py "NaN") = false
  /\ ~ (forall value : pystr,
          (exists c, In c (clean_decimal value) /\ numeric_char c = false) ->
          parse_float value = Ok None).
Proof.
  assert (H : parse_float (py "NaN") = Ok (Some S754_nan)) by (vm_compute; reflexivity).
  split; [ exact H | ].
  split; [ vm_compute; reflexivity | ].
  split; [ vm_compute; reflexivity | ].
  split; [ reflexivity | ].
  intros Hall. rewrite (Hall (py "NaN")) in H; [ discriminate | ].
  exists 78%N. split; [ vm_compute; left; reflexivity | reflexivity ].
Qed.

(** C6, as the code has it. The normalisers never raise; the empty
    string, a bare dash and the token 0 (with or without surrounding
    blanks) give absence for a decimal field and 0 for the volume; a
    text that [float] or [int] rejects after cleaning gives absence or
    0, and one they accept gives the value read; a decimal comma counts
    as a decimal point, so that "1 234,56" is read as the binary64
    number nearest to 1234.56. A cleaned text that holds an ASCII
    character other than a digit, a sign, the point, the exponent letter
    and the underscore gives absence, and for the volume, where the
    point and the exponent letter do not count either, 0; the exception
    is a decimal cell holding [inf], [infinity] or [nan], in any case
    and after an optional sign, which is read as that float. *)
Theorem numeric_normalizer (value : pystr) :
  (exists r, parse_float value = Ok r)
  /\ (exists n, parse_int value = Ok n)
  /\ (str_in (strip value) placeholders = true ->
      parse_float value = Ok None /\ parse_int value = Ok 0)
  /\ parse_float (py "") = Ok None /\ parse_int (py "") = Ok 0
  /\ parse_float (py "-") = Ok None /\ parse_int (py "-") = Ok 0
  /\ parse_float (py "0") = Ok None /\ parse_int (py "0") = Ok 0
  /\ (forall e, py_float (clean_decimal value) = Raise e -> parse_float value = Ok None)
  /\ (forall e, py_int (clean_integer value) = Raise e -> parse_int value = Ok 0)
  /\ (forall f, str_in (strip value) placeholders = false ->
      py_float (clean_decimal value) = Ok f -> parse_float value = Ok (Some f))
  /\ (forall n, str_in (strip value) placeholders = false ->
      py_int (clean_integer value) = Ok n -> parse_int value = Ok n)
  /\ parse_float (replace COMMA (py ".") value) = parse_float value
  /\ parse_float (py "1 234,56") = Ok (Some (S754_finite false 5429652300748554 (-42)))
  /\ 2 * Z.abs (100 * 5429652300748554 - 123456 * 2 ^ 42) <= 100
  /\ parse_int (py "12 500") = Ok 12500
  /\ (forall c, In c (clean_decimal value) -> (c < 128)%N -> numeric_char c = false ->
      special_word (clean_decimal value) = None ->
      parse_float value = Ok None)
  /\ (forall c, In c (clean_integer value) -> (c < 128)%N -> integer_char c = false ->
      parse_int value = Ok 0)
  /\ (forall f, str_in (strip value) placeholders = false ->
      special_word (clean_decimal value) = Some f ->
      parse_float value = Ok (Some f))
  /\ parse_float (py "12,5 FCFA") = Ok None
  /\ parse_float (py "1.2.3") = Ok None
  /\ parse_int (py "12a") = Ok 0
  /\ parse_int (py "1,5") = Ok 0
  /\ parse_int (py "NaN") = Ok 0.
Proof.
  split; [ eexists; apply parse_float_eq | ].
  split; [ eexists; apply parse_int_eq | ].
  split.
  { intros H. rewrite parse_float_eq, parse_int_eq, H. split; reflexivity. }
  do 6 (split; [ vm_compute; reflexivity | ]).
  split.
  { intros e H. rewrite parse_float_eq, H.
    destruct (str_in (strip value) placeholders); reflexivity. }
  split.
  { intros e H. rewrite parse_int_eq, H.
    destruct (str_in (strip value) placeholders); reflexivity. }
  split.
  { intros f Hp H. rewrite parse_float_eq, Hp, H. reflexivity. }
  split.
  { intros n Hp H. rewrite parse_int_eq, Hp, H. reflexivity. }
  split.
  { rewrite !parse_float_eq, clean_decimal_comma, replace_comma_map,
      strip_map_comma, placeholder_map_comma. reflexivity. }
  split; [ vm_compute; reflexivity | ].
  split; [ vm_compute; discriminate | ].
  split; [ vm_compute; reflexivity | ].
  assert (Hd : strip (clean_decimal value) = clean_decimal value)
    by (unfold clean_decimal; apply strip_idem).
  assert (Hi : strip (clean_integer value) = clean_integer value)
    by (unfold clean_integer; apply strip_idem).
  split.
  { intros c Hc _ Hn Hw. rewrite parse_float_eq.
    destruct (str_in (strip value) placeholders); [ reflexivity | ].
    destruct (py_float (clean_decimal value)) as [f | e] eqn:Ef; [ | reflexivity ].
    apply py_float_chars in Ef. rewrite Hd in Ef. destruct Ef as [Ef | Ef].
    - congruence.
    - rewrite forallb_forall in Ef. rewrite (Ef c Hc) in Hn. discriminate. }
  split.
  { intros c Hc _ Hn. rewrite parse_int_eq.
    destruct (str_in (strip value) placeholders); [ reflexivity | ].
    destruct (py_int (clean_integer value)) as [n | e] eqn:En; [ | reflexivity ].
    apply py_int_chars in En. rewrite Hi in En.
    rewrite forallb_forall in En. rewrite (En c Hc) in Hn. discriminate. }
  split.
  { intros f Hp Hw. rewrite parse_float_eq, Hp, (py_float_special _ _ Hw). reflexivity. }
  do 4 (split; [ vm_compute; reflexivity | ]).
  vm_compute. reflexivity.
Qed.

(** ** The parser of the quotes page *)

Lemma parse_variation_total (td_element : node) :
  exists r, parse_variation td_element = Ok r.
Proof.
  unfold parse_variation.
  destruct (is_empty _ || pystr_eqb _ _); [ eexists; reflexivity | ].
  cbv zeta.
  match goal with |- context [clean_decimal ?t] => set (cleaned := clean_decimal t) end.
  destruct (is_empty cleaned); [ eexists; reflexivity | ].
  destruct (py_float cleaned) as [f | e] eqn:Ef; [ eexists; reflexivity | ].
  apply py_float_raises in Ef. subst e. eexists. reflexivity.
Qed.

(** A row of at least seven cells: skipped when its symbol is empty,
    otherwise read into a record whose symbol and name are the texts of
    the first two cells. *)
Lemma parse_row_seven (c0 c1 c2 c3 c4 c5 c6 : node) (more : list node) :
  parse_row (c0 :: c1 :: c2 :: c3 :: c4 :: c5 :: c6 :: more) =
  Ok (if is_empty (get_text_strip c0) then None
      else Some (mk_action
                   (get_text_strip c0) (get_text_strip c1)
                   (match parse_int (get_text_strip c2) with Ok n => n | Raise _ => 0 end)
                   (match parse_float (get_text_strip c3) with Ok f => f | Raise _ => None end)
                   (match parse_float (get_text_strip c4) with Ok f => f | Raise _ => None end)
                   (match parse_float (get_text_strip c5) with Ok f => f | Raise _ => None end)
                   (match parse_variation c6 with Ok f => f | Raise _ => None end))).
Proof.
  unfold parse_row. cbn [getitem nth_error bind].
  destruct (is_empty (get_text_strip c0)); [ reflexivity | ].
  rewrite parse_int_eq, !parse_float_eq. cbn [bind].
  destruct (parse_variation_total c6) as [v Hv]. rewrite Hv. reflexivity.
Qed.

Lemma seven_cells {A : Type} (l : list A) :
  (List.length l <? 7)%nat = false ->
  exists c0 c1 c2 c3 c4 c5 c6 more, l = c0 :: c1 :: c2 :: c3 :: c4 :: c5 :: c6 :: more.
Proof.
  intros H. apply Nat.ltb_ge in H.
  do 7 (destruct l as [ | ? l]; [ cbn in H; lia | ]).
  repeat eexists.
Qed.

Lemma parse_rows_eq (rows : list node) (actions_data : list action_dict) :
  parse_rows rows actions_data = Ok (actions_data ++ flat_map quotes_of_row rows).
Proof.
  revert actions_data. induction rows as [ | row rest IH]; intros acc.
  - cbn. rewrite app_nil_r. reflexivity.
  - cbn [parse_rows flat_map]. unfold quotes_of_row at 1.
    destruct (List.length (find_all row (py "td") []) <? 7)%nat eqn:E.
    + rewrite IH. reflexivity.
    + destruct (seven_cells _ E) as (c0 & c1 & c2 & c3 & c4 & c5 & c6 & more & Hc).
      rewrite Hc, parse_row_seven. cbn [try_except bind].
      destruct (is_empty (get_text_strip c0)).
      * rewrite IH. reflexivity.
      * rewrite IH, <- app_assoc. reflexivity.
Qed.

(** [parse_actions] as a total function of the parsed document. *)
Lemma parse_actions_eq (BS : pystr -> result node) (html_content : pystr) :
  parse_actions BS html_content =
  Ok match BS html_content with
     | Raise _ => []
     | Ok soup => match locate_rows soup with
                  | None => []
                  | Some rows => flat_map quotes_of_row rows
                  end
     end.
Proof.
  unfold parse_actions.
  destruct (BS html_content) as [soup | e]; [ | reflexivity ].
  cbn [bind]. destruct (locate_rows soup) as [rows | ]; [ | reflexivity ].
  destruct rows as [ | row rest]; [ reflexivity | ].
  cbn [is_empty]. rewrite parse_rows_eq. reflexivity.
Qed.

Lemma parse_actions_returns (BS : pystr -> result node) (html_content : pystr) :
  exists actions_data, parse_actions BS html_content = Ok actions_data.
Proof. eexists. apply parse_actions_eq. Qed.

Lemma quotes_of_short_row (row : node) :
  (List.length (find_all row (py "td") []) < 7)%nat -> quotes_of_row row = [].
Proof.
  intros H. unfold quotes_of_row. apply Nat.ltb_lt in H. rewrite H. reflexivity.
Qed.

Lemma quotes_of_row_cases (row : node) :
  quotes_of_row row = []
  \/ exists a, quotes_of_row row = [a]
               /\ symbole a = row_symbol row
               /\ symbole a <> []
               /\ (7 <= List.length (find_all row (py "td") []))%nat.
Proof.
  unfold quotes_of_row, row_symbol.
  destruct (List.length (find_all row (py "td") []) <? 7)%nat eqn:E; [ left; reflexivity | ].
  pose proof E as E'. apply Nat.ltb_ge in E'.
  destruct (seven_cells _ E) as (c0 & c1 & c2 & c3 & c4 & c5 & c6 & more & Hc).
  rewrite Hc in *. rewrite parse_row_seven.
  destruct (get_text_strip c0) as [ | ch t] eqn:Es; [ left; reflexivity | ].
  right. eexists. cbn [is_empty symbole]. repeat split; [ discriminate | exact E' ].
Qed.

(** C7. [parse_actions] returns a list for every page, whatever the HTML
    parser does: the empty list when the parser fails or no table is
    found, and otherwise what each located row contributes, in order; a
    row of fewer than seven cells and a row whose symbol is empty
    contribute nothing, every other row contributes one record, and no
    row changes what the rows before and after it contribute. *)
Theorem parse_actions_never_raises (BS : pystr -> result node) (html_content : pystr) :
  exists actions_data : list action_dict,
    parse_actions BS html_content = Ok actions_data
    /\ (forall e, BS html_content = Raise e -> actions_data = [])
    /\ (forall soup, BS html_content = Ok soup ->
        locate_rows soup = None -> actions_data = [])
    /\ (forall soup, BS html_content = Ok soup ->
        locate_rows soup = Some [] -> actions_data = [])
    /\ (forall soup rows, BS html_content = Ok soup ->
        locate_rows soup = Some rows ->
        actions_data = flat_map quotes_of_row rows)
    /\ (forall row, (List.length (find_all row (py "td") []) < 7)%nat ->
        quotes_of_row row = [])
    /\ (forall row, row_symbol row = [] -> quotes_of_row row = [])
    /\ (forall row, (7 <= List.length (find_all row (py "td") []))%nat ->
        row_symbol row <> [] ->
        exists a, quotes_of_row row = [a] /\ symbole a = row_symbol row).
Proof.
  eexists. split; [ apply parse_actions_eq | ].
  repeat match goal with |- _ /\ _ => split end.
  - intros e H. rewrite H. reflexivity.
  - intros soup H1 H2. rewrite H1, H2. reflexivity.
  - intros soup H1 H2. rewrite H1, H2. reflexivity.
  - intros soup rows H1 H2. rewrite H1, H2. reflexivity.
  - apply quotes_of_short_row.
  - intros row H. destruct (quotes_of_row_cases row) as [Hq | (a & Hq & Hs & Hn & _)].
    + exact Hq.
    + congruence.
  - intros row Hlen Hsym. unfold quotes_of_row, row_symbol in *.
    apply Nat.ltb_ge in Hlen. rewrite Hlen.
    destruct (seven_cells _ Hlen) as (c0 & c1 & c2 & c3 & c4 & c5 & c6 & more & Hc).
    rewrite Hc in *. rewrite parse_row_seven.
    destruct (get_text_strip c0) as [ | ch t] eqn:Es; [ congruence | ].
    eexists. split; reflexivity.
Qed.

(** C9, as the code has it. The symbol of every record [parse_actions]
    returns is the text of the symbol cell of one of the located rows,
    stripped of surrounding white space and otherwise unchanged: no case
    conversion is applied. *)
Theorem parse_actions_symbol_verbatim (BS : pystr -> result node) (html_content : pystr) :
  exists actions_data : list action_dict,
    parse_actions BS html_content = Ok actions_data
    /\ forall a, In a actions_data ->
         exists soup rows row,
           BS html_content = Ok soup
           /\ locate_rows soup = Some rows
           /\ In row rows
           /\ symbole a = row_symbol row.
Proof.
  eexists. split; [ apply parse_actions_eq | ].
  intros a Ha.
  destruct (BS html_content) as [soup | e]; [ | contradiction ].
  destruct (locate_rows soup) as [rows | ] eqn:Hr; [ | contradiction ].
  apply in_flat_map in Ha. destruct Ha as (row & Hrow & Hin).
  exists soup, rows, row. repeat split; try assumption.
  destruct (quotes_of_row_cases row) as [Hq | (a' & Hq & Hs & _)];
    rewrite Hq in Hin; [ contradiction | ].
  destruct Hin as [<- | []]. exact Hs.
Qed.

(** C9 as stated does not hold: the symbol cell "abcd" gives a record
    whose symbol is "abcd", not its upper-casing "ABCD". *)
Lemma symbol_not_upper_cased :
  exists a : action_dict,
    parse_actions (fun _ => Ok (page_of_rows [lowercase_row])) (py "<html>") = Ok [a]
    /\ row_symbol lowercase_row = py "abcd"
    /\ symbole a = py "abcd"
    /\ str_upper (row_symbol lowercase_row) = py "ABCD"
    /\ symbole a <> str_upper (row_symbol lowercase_row).
Proof.
  eexists. split; [ vm_compute; reflexivity | ].
  repeat split; try (vm_compute; reflexivity).
  vm_compute. discriminate.
Qed.

(** ** The webhook dispatcher *)

Ltac run :=
  unfold mbind, mtry, ret, raise, lift, get_state, next_tick, set_persistent,
    set_pending, round_trip, commit, rollback, now, catch_Exception,
    catch_RequestException, raise_for_status; cbn.

(** C10. With a maximum retry count of 0, [send_webhook] answers [False]
    for every URL and payload and leaves the state as it was: no request
    is sent. *)
Theorem send_webhook_no_retries (W : World) (target payload : pystr) (s : State) :
  WEBHOOK_MAX_RETRIES (settings W) = 0 ->
  send_webhook W target payload s = (Ok false, s)
  /\ posts (snd (send_webhook W target payload s)) = posts s
  /\ tick (snd (send_webhook W target payload s)) = tick s.
Proof.
  intros H. unfold send_webhook. rewrite H. cbn. auto.
Qed.

Lemma send_webhook_no_retries_witness :
  send_webhook (with_settings quiet_world (mk_settings 0 60 (py "downloads")))
               (py "https://example.org/hook") (py "{}") empty_state
  = (Ok false, empty_state).
Proof.
  apply (send_webhook_no_retries
           (with_settings quiet_world (mk_settings 0 60 (py "downloads")))).
  reflexivity.
Defined.

Lemma mbind_eq {A B : Type} (m : M A) (k : A -> M B) (s : State) :
  mbind m k s = match m s with
                | (Ok a, s') => k a s'
                | (Raise e, s') => (Raise e, s')
                end.
Proof. reflexivity. Qed.

Lemma after_posts_fields (k : nat) (target payload : pystr) (s : State) :
  committed (after_posts k target payload s) = committed s
  /\ persistent (after_posts k target payload s) = persistent s
  /\ pending (after_posts k target payload s) = pending s
  /\ tick (after_posts k target payload s) = (tick s + k)%nat
  /\ posts (after_posts k target payload s) = repeat (target, payload) k ++ posts s.
Proof.
  revert s. induction k as [ | k IH]; intros s.
  - cbn. rewrite Nat.add_0_r. auto.
  - cbn [after_posts]. destruct (IH (after_post target payload s)) as (H1 & H2 & H3 & H4 & H5).
    rewrite H1, H2, H3, H4, H5. cbn [after_post committed persistent pending tick posts].
    repeat split; try lia.
    change ((target, payload) :: posts s) with ([(target, payload)] ++ posts s).
    rewrite app_assoc. f_equal.
    change [(target, payload)] with (repeat (target, payload) 1).
    rewrite <- repeat_app. rewrite Nat.add_1_r. reflexivity.
Qed.

(** One turn of the retry loop: what it answers and the state it leaves. *)
Lemma attempt_eq (W : World) (max_retries attempt : Z) (target payload : pystr) (s : State) :
  mtry (_ <~ post W target payload ;; ret (Some true))
       (fun e => match e with
                 | RequestsTimeout =>
                     Some (ret (if attempt =? max_retries then Some false else None))
                 | RequestsError =>
                     Some (ret (if attempt =? max_retries then Some false else None))
                 | _ => None
                 end) s
  = (Ok (if delivered (http_post W (tick s) target payload) then Some true
         else if attempt =? max_retries then Some false else None),
     after_post target payload s).
Proof.
  unfold post, delivered, after_post. run.
  destruct (http_post W (tick s) target payload) as [status [] | | ]; cbn; try reflexivity.
  destruct ((400 <=? status) && (status <? 600)); reflexivity.
Qed.

(** The retry loop always answers; it sends at most one request per
    attempt, answers [True] only after a request that went through, and
    answers [True] when every request goes through. *)
Lemma send_attempts_spec (W : World) (max_retries : Z) (target payload : pystr)
  (attempts : list Z) :
  forall s : State,
  exists (b : bool) (k : nat),
    send_attempts W max_retries target payload attempts s
    = (Ok b, after_posts k target payload s)
    /\ (k <= List.length attempts)%nat
    /\ (attempts <> [] -> (1 <= k)%nat)
    /\ (b = true ->
        exists n, (tick s <= n < tick s + k)%nat
                  /\ delivered (http_post W n target payload) = true)
    /\ ((forall n, delivered (http_post W n target payload) = true) ->
        attempts <> [] -> b = true).
Proof.
  induction attempts as [ | attempt rest IH]; intros s.
  - exists false, 0%nat. cbn. repeat split; try congruence; lia.
  - cbn [send_attempts]. rewrite mbind_eq, attempt_eq.
    destruct (delivered (http_post W (tick s) target payload)) eqn:Hd.
    + exists true, 1%nat. cbn. repeat split; try lia.
      intros _. exists (tick s). split; [ lia | exact Hd ].
    + destruct (attempt =? max_retries).
      * exists false, 1%nat. cbn. repeat split; try lia; try discriminate.
        intros Hall. rewrite Hall in Hd. discriminate.
      * destruct (IH (after_post target payload s)) as (b & k & Hrun & Hk & Hne & Hev & Hall).
        exists b, (S k). cbn [after_posts]. rewrite Hrun.
        repeat split; cbn [List.length]; try lia.
        -- intros Hb. destruct (Hev Hb) as (n & Hn & Hdn).
           exists n. cbn [after_post tick] in Hn. split; [ lia | exact Hdn ].
        -- intros Hg. rewrite Hg in Hd. discriminate.
Qed.

Lemma range_nil (a b : Z) : b <= a -> range a b = [].
Proof.
  intros H. unfold range. replace (Z.to_nat (b - a)) with 0%nat by lia. reflexivity.
Qed.

Lemma range_not_nil (a b : Z) : a < b -> range a b <> [].
Proof.
  intros H. unfold range.
  destruct (Z.to_nat (b - a)) as [ | n] eqn:E; [ lia | ]. cbn. discriminate.
Qed.

(** [send_webhook] always answers with a Boolean and changes nothing but
    the clock and the log of requests. *)
Lemma send_webhook_spec (W : World) (target payload : pystr) (s : State) :
  exists (b : bool) (k : nat),
    send_webhook W target payload s = (Ok b, after_posts k target payload s)
    /\ (1 <= WEBHOOK_MAX_RETRIES (settings W) -> (1 <= k)%nat)
    /\ (b = true ->
        exists n, (tick s <= n < tick s + k)%nat
                  /\ delivered (http_post W n target payload) = true)
    /\ ((forall n, delivered (http_post W n target payload) = true) ->
        1 <= WEBHOOK_MAX_RETRIES (settings W) -> b = true).
Proof.
  unfold send_webhook.
  destruct (send_attempts_spec W (WEBHOOK_MAX_RETRIES (settings W)) target payload
              (range 1 (WEBHOOK_MAX_RETRIES (settings W) + 1)) s)
    as (b & k & Hrun & _ & Hne & Hev & Hall).
  exists b, k. split; [ exact Hrun | ].
  split; [ intros H; apply Hne, range_not_nil; lia | ].
  split; [ exact Hev | ].
  intros Hg H. apply Hall; [ exact Hg | apply range_not_nil; lia ].
Qed.

Lemma merge_no_rows (t : Tables) : merge_tables t no_rows = t.
Proof.
  destruct t. unfold merge_tables. cbn. rewrite !app_nil_r. reflexivity.
Qed.

Lemma record_delivery_eq (W : World) (ref : nat) (s : State) :
  session_clean s ->
  db_fails W (S (tick s)) = false ->
  mtry (t <~ now W ;; _ <~ set_last_triggered ref t ;; commit W)
       (catch_Exception (fun _ => raise PendingRollbackError)) s
  = (Ok tt, after_delivery W ref s).
Proof.
  intros [Hp Hq] Hdb. destruct s as [c p q t l]. cbn in Hp, Hq, Hdb. subst p q.
  unfold after_delivery, touch, set_last_triggered. run.
  destruct (nth_error (webhook_subscriptions c) ref) as [w | ]; run.
  - rewrite Hdb. cbn. rewrite merge_no_rows. reflexivity.
  - rewrite Hdb. cbn. rewrite merge_no_rows. destruct c. reflexivity.
Qed.


Lemma reload_eq (W : World) (expired : bool) (s : State) :
  db_fails W (tick s) = false ->
  reload W expired s = (Ok tt, after_reload expired s).
Proof.
  intros Hdb. unfold reload, after_reload. destruct expired; [ | reflexivity ].
  unfold round_trip. run. rewrite Hdb. reflexivity.
Qed.

Lemma after_reload_fields (expired : bool) (s : State) :
  committed (after_reload expired s) = committed s
  /\ persistent (after_reload expired s) = persistent s
  /\ pending (after_reload expired s) = pending s
  /\ posts (after_reload expired s) = posts s
  /\ (tick s <= tick (after_reload expired s) <= S (tick s))%nat.
Proof. unfold after_reload. destruct expired; cbn; repeat split; lia. Qed.

Lemma Forall2_update_nth {A B : Type} (R : A -> B -> Prop) (l1 : list A) (l2 : list B)
  (i : nat) (a : A) (x : B) :
  Forall2 R l1 l2 -> nth_error l1 i = Some a -> R a x ->
  Forall2 R l1 (update_nth i x l2).
Proof.
  intros H. revert i. induction H as [ | a' b' l1 l2 Hab H IH]; intros i Hn Hr.
  - destruct i; discriminate.
  - destruct i as [ | i]; cbn in *.
    + injection Hn as ->. constructor; assumption.
    + constructor; [ assumption | apply IH; assumption ].
Qed.

Lemma Forall2_nth_error {A B : Type} (R : A -> B -> Prop) (l1 : list A) (l2 : list B)
  (i : nat) (a : A) :
  Forall2 R l1 l2 -> nth_error l1 i = Some a ->
  exists b, nth_error l2 i = Some b /\ R a b.
Proof.
  intros H. revert i. induction H as [ | a' b' l1 l2 Hab H IH]; intros i Hn.
  - destruct i; discriminate.
  - destruct i as [ | i]; cbn in *.
    + injection Hn as ->. eauto.
    + apply IH. exact Hn.
Qed.

Lemma Forall2_same {A : Type} (R : A -> A -> Prop) (l : list A) :
  (forall a, R a a) -> Forall2 R l l.
Proof. intros H. induction l; constructor; auto. Qed.

Lemma row_rel_refl (W : World) (payload : pystr) (lo hi : nat) (w : WebhookSubscription) :
  row_rel W payload lo hi w w.
Proof. unfold row_rel. auto. Qed.

Lemma row_rel_later (W : World) (payload : pystr) (lo hi hi' : nat)
  (w w' : WebhookSubscription) :
  (hi <= hi')%nat -> row_rel W payload lo hi w w' -> row_rel W payload lo hi' w w'.
Proof.
  intros Hle (H1 & H2 & H3 & H4). repeat split; try assumption.
  destruct H4 as [H4 | (Ha & n & Hn & Hd)]; [ left; exact H4 | right ].
  split; [ exact Ha | ]. exists n. split; [ lia | exact Hd ].
Qed.

(** Recording a delivery keeps the session clean and changes at most the
    [last_triggered] of the row referred to. *)
Lemma after_delivery_spec (W : World) (payload : pystr) (s0 s : State) (ref : nat)
  (w0 : WebhookSubscription) :
  Forall2 (row_rel W payload (tick s0) (tick s))
          (webhook_subscriptions (committed s0)) (webhook_subscriptions (committed s)) ->
  nth_error (webhook_subscriptions (committed s0)) ref = Some w0 ->
  is_active w0 = 1 ->
  (exists n, (tick s0 <= n < tick s)%nat
             /\ delivered (http_post W n (url w0) payload) = true) ->
  session_clean (after_delivery W ref s)
  /\ tick (after_delivery W ref s) = S (S (tick s))
  /\ posts (after_delivery W ref s) = posts s
  /\ Forall2 (row_rel W payload (tick s0) (S (S (tick s))))
             (webhook_subscriptions (committed s0))
             (webhook_subscriptions (committed (after_delivery W ref s))).
Proof.
  intros Hrows Hnth Hact Hev.
  assert (Hlater : Forall2 (row_rel W payload (tick s0) (S (S (tick s))))
                           (webhook_subscriptions (committed s0))
                           (webhook_subscriptions (committed s))).
  { eapply Forall2_impl; [ | exact Hrows ].
    intros a b. apply row_rel_later. lia. }
  unfold after_delivery. cbn.
  repeat split. unfold touch.
  destruct (Forall2_nth_error _ _ _ _ _ Hlater Hnth) as (w & Hw & (H1 & H2 & H3 & _)).
  rewrite Hw. eapply Forall2_update_nth; [ exact Hlater | exact Hnth | ].
  unfold row_rel. cbn. repeat split; try assumption.
  right. split; [ exact Hact | ].
  destruct Hev as (n & Hn & Hd). exists n. split; [ lia | exact Hd ].
Qed.

Lemma session_clean_after_posts (k : nat) (target payload : pystr) (s : State) :
  session_clean s -> session_clean (after_posts k target payload s).
Proof.
  intros [H1 H2]. destruct (after_posts_fields k target payload s) as (F1 & F2 & F3 & _).
  unfold session_clean. rewrite F1, F2, F3. auto.
Qed.

(** The loop of [broadcast_to_webhooks], from a state [s] reached from
    [s0] by earlier turns of the loop, on a database that answers. *)
Lemma notify_webhooks_spec (W : World) (payload : pystr) (s0 : State)
  (l : list (nat * WebhookSubscription)) :
  forall (s : State) (expired : bool) (stats : BroadcastStats),
    session_clean s ->
    (tick s0 <= tick s)%nat ->
    (forall n, (tick s0 <= n)%nat -> db_fails W n = false) ->
    Forall2 (row_rel W payload (tick s0) (tick s))
            (webhook_subscriptions (committed s0))
            (webhook_subscriptions (committed s)) ->
    (forall ref w, In (ref, w) l ->
       exists w0, nth_error (webhook_subscriptions (committed s0)) ref = Some w0
                  /\ url w0 = url w /\ is_active w0 = 1) ->
    exists (stats' : BroadcastStats) (s' : State),
      notify_webhooks W payload l expired stats s = (Ok stats', s')
      /\ session_clean s'
      /\ (tick s <= tick s')%nat
      /\ Forall2 (row_rel W payload (tick s0) (tick s'))
                 (webhook_subscriptions (committed s0))
                 (webhook_subscriptions (committed s'))
      /\ success stats' + failed stats'
         = success stats + failed stats + Z.of_nat (List.length l)
      /\ success stats <= success stats'
      /\ failed stats <= failed stats'
      /\ (exists new, posts s' = new ++ posts s
            /\ (1 <= WEBHOOK_MAX_RETRIES (settings W) ->
                forall ref w, In (ref, w) l -> In (url w, payload) new))
      /\ (forall good : pystr -> bool,
            (forall ref w n, In (ref, w) l ->
               delivered (http_post W n (url w) payload) = good (url w)) ->
            1 <= WEBHOOK_MAX_RETRIES (settings W) ->
            success stats'
            = success stats
              + Z.of_nat (List.length (filter (fun rw => good (url (snd rw))) l))).
Proof.
  induction l as [ | [ref w] rest IH]; intros s expired stats Hclean Htick Hdb Hrows Hrefs.
  - exists stats, s.
    split; [ reflexivity | ]. split; [ exact Hclean | ]. split; [ lia | ].
    split; [ exact Hrows | ]. split; [ cbn; lia | ]. split; [ lia | ]. split; [ lia | ].
    split.
    + exists []. split; [ reflexivity | intros _ ? ? [] ].
    + intros good _ _. cbn. lia.
  - cbn [notify_webhooks]. rewrite mbind_eq, (reload_eq W expired s (Hdb _ Htick)).
    destruct (after_reload_fields expired s) as (R1 & R2 & R3 & R4 & R5).
    assert (Hclean0 : session_clean (after_reload expired s)).
    { destruct Hclean as [Hp Hq]. unfold session_clean. rewrite R1, R2, R3. auto. }
    set (sr := after_reload expired s) in *.
    rewrite mbind_eq.
    destruct (send_webhook_spec W (url w) payload sr) as (b & k & Hrun & Hk & Hev & Hall).
    rewrite Hrun.
    destruct (after_posts_fields k (url w) payload sr) as (F1 & F2 & F3 & F4 & F5).
    pose proof (session_clean_after_posts k (url w) payload sr Hclean0) as Hclean1.
    set (s1 := after_posts k (url w) payload sr) in *.
    assert (Hrows1 : Forall2 (row_rel W payload (tick s0) (tick s1))
                             (webhook_subscriptions (committed s0))
                             (webhook_subscriptions (committed s1))).
    { rewrite F1, R1. eapply Forall2_impl; [ | exact Hrows ].
      intros a c. apply row_rel_later. lia. }
    assert (Hrest : forall ref' w', In (ref', w') rest ->
              exists w0, nth_error (webhook_subscriptions (committed s0)) ref' = Some w0
                         /\ url w0 = url w' /\ is_active w0 = 1).
    { intros ref' w' Hin. apply Hrefs. right. exact Hin. }
    destruct (Hrefs ref w (or_introl eq_refl)) as (w0 & Hnth & Hurl & Hact).
    destruct b.
    + assert (Hdb1 : db_fails W (S (tick s1)) = false) by (apply Hdb; lia).
      rewrite mbind_eq, (record_delivery_eq W ref s1 Hclean1 Hdb1).
      destruct (after_delivery_spec W payload s0 s1 ref w0 Hrows1 Hnth Hact)
        as (Hclean2 & Ht2 & Hp2 & Hrows2).
      { destruct (Hev eq_refl) as (n & Hn & Hd). exists n. rewrite Hurl.
        split; [ lia | exact Hd ]. }
      set (s2 := after_delivery W ref s1) in *.
      rewrite <- Ht2 in Hrows2.
      destruct (IH s2 true (mk_broadcast_stats (success stats + 1) (failed stats))
                   Hclean2 ltac:(lia) Hdb Hrows2 Hrest)
        as (stats' & s' & Hrun' & Hc' & Ht' & Hr' & Hsum & Hs & Hf & Hposts & Hgood).
      exists stats', s'. cbn [success failed] in *.
      split; [ exact Hrun' | ]. split; [ exact Hc' | ]. split; [ lia | ].
      split; [ exact Hr' | ]. split; [ cbn [List.length]; lia | ].
      split; [ lia | ]. split; [ lia | ]. split.
      * destruct Hposts as (new & Hnew & Hin).
        exists (new ++ repeat (url w, payload) k). split.
        -- rewrite Hnew, Hp2, F5, R4, app_assoc. reflexivity.
        -- intros Hmax ref' w' [Heq | Hin'].
           ++ injection Heq as <- <-. apply in_or_app. right.
              specialize (Hk Hmax). destruct k; [ lia | left; reflexivity ].
           ++ apply in_or_app. left. eapply Hin; eassumption.
      * intros good Hg Hmax. cbn [filter snd].
        rewrite (Hgood good (fun ref' w' n Hin' => Hg ref' w' n (or_intror Hin')) Hmax).
        destruct (good (url w)) eqn:Egood; [ cbn [List.length]; lia | ].
        destruct (Hev eq_refl) as (n & _ & Hd).
        rewrite (Hg ref w n (or_introl eq_refl)), Egood in Hd. discriminate.
    + destruct (IH s1 expired (mk_broadcast_stats (success stats) (failed stats + 1))
                   Hclean1 ltac:(lia) Hdb Hrows1 Hrest)
        as (stats' & s' & Hrun' & Hc' & Ht' & Hr' & Hsum & Hs & Hf & Hposts & Hgood).
      exists stats', s'. cbn [success failed] in *.
      split; [ exact Hrun' | ]. split; [ exact Hc' | ]. split; [ lia | ].
      split; [ exact Hr' | ]. split; [ cbn [List.length]; lia | ].
      split; [ lia | ]. split; [ lia | ]. split.
      * destruct Hposts as (new & Hnew & Hin).
        exists (new ++ repeat (url w, payload) k). split.
        -- rewrite Hnew, F5, R4, app_assoc. reflexivity.
        -- intros Hmax ref' w' [Heq | Hin'].
           ++ injection Heq as <- <-. apply in_or_app. right.
              specialize (Hk Hmax). destruct k; [ lia | left; reflexivity ].
           ++ apply in_or_app. left. eapply Hin; eassumption.
      * intros good Hg Hmax. cbn [filter snd].
        rewrite (Hgood good (fun ref' w' n Hin' => Hg ref' w' n (or_intror Hin')) Hmax).
        destruct (good (url w)) eqn:Egood; [ | reflexivity ].
        assert (Hb : false = true); [ | discriminate Hb ].
        apply Hall; [ | exact Hmax ].
        intros n. rewrite (Hg ref w n (or_introl eq_refl)). exact Egood.
Qed.

Lemma indexed_from_In {A : Type} (l : list A) (a i : nat) (w : A) :
  In (i, w) (combine (seq a (List.length l)) l) ->
  (a <= i)%nat /\ nth_error l (i - a) = Some w.
Proof.
  revert a. induction l as [ | x r IH]; intros a Hin; [ contradiction | ].
  cbn in Hin. destruct Hin as [Heq | Hin].
  - injection Heq as <- <-. rewrite Nat.sub_diag. split; [ lia | reflexivity ].
  - destruct (IH (S a) Hin) as [Hle Hn]. split; [ lia | ].
    replace (i - a)%nat with (S (i - S a)) by lia. exact Hn.
Qed.

Lemma indexed_In {A : Type} (l : list A) (i : nat) (w : A) :
  In (i, w) (indexed l) -> nth_error l i = Some w.
Proof.
  intros H. destruct (indexed_from_In l 0 i w H) as [_ Hn].
  rewrite Nat.sub_0_r in Hn. exact Hn.
Qed.

Lemma filter_indexed_from {A : Type} (p : A -> bool) (l : list A) (a : nat) :
  map snd (filter (fun iw => p (snd iw)) (combine (seq a (List.length l)) l))
  = filter p l.
Proof.
  revert a. induction l as [ | x r IH]; intros a; [ reflexivity | ].
  cbn. destruct (p x); cbn; rewrite IH; reflexivity.
Qed.

Lemma filter_indexed {A : Type} (p : A -> bool) (l : list A) :
  map snd (filter (fun iw => p (snd iw)) (indexed l)) = filter p l.
Proof. apply filter_indexed_from. Qed.

Lemma get_active_webhooks_eq (W : World) (s : State) :
  db_fails W (tick s) = false ->
  get_active_webhooks W s
  = (Ok (filter (fun iw => is_active (snd iw) =? 1)
                (indexed (webhook_subscriptions (persistent s)))),
     mk_state (committed s) (persistent s) (pending s) (S (tick s)) (posts s)).
Proof.
  intros H. unfold get_active_webhooks. run. rewrite H. reflexivity.
Qed.




(** ** The scraper's persistence *)

Lemma fetch_page_eq (W : World) (s : State) :
  fetch_page W s
  = (Ok (page_text W (tick s)),
     mk_state (committed s) (persistent s) (pending s) (S (tick s)) (posts s)).
Proof.
  unfold fetch_page, page_text. run.
  destruct (http_get_page W (tick s)) as [status text | | ]; cbn; try reflexivity.
  destruct ((400 <=? status) && (status <? 600)); reflexivity.
Qed.

Lemma save_action_eq (W : World) (stats : ScrapeStats) (a : action_dict) (s : State) :
  db_fails W (tick s) = false ->
  save_action W stats a s =
  match find_index (same_symbol a) (actions (persistent s)) with
  | Some i =>
      (Ok (mk_scrape_stats (inserted stats) (updated stats + 1) (errors stats)),
       mk_state (committed s)
                (with_actions (persistent s) (update_nth i a (actions (persistent s))))
                (with_historique (pending s)
                   (historique_actions (pending s) ++ [snapshot_of a]))
                (S (tick s)) (posts s))
  | None =>
      (Ok (mk_scrape_stats (inserted stats + 1) (updated stats) (errors stats)),
       mk_state (committed s) (persistent s)
                (with_historique
                   (with_actions (pending s) (actions (pending s) ++ [a]))
                   (historique_actions (pending s) ++ [snapshot_of a]))
                (S (tick s)) (posts s))
  end.
Proof.
  intros H. unfold save_action, query_action, add_snapshot. run. rewrite H. cbn.
  change (fun a0 : action_dict => pystr_eqb (symbole a0) (symbole a)) with (same_symbol a).
  destruct (find_index (same_symbol a) (actions (persistent s))); reflexivity.
Qed.

Lemma find_index_symbols (a : action_dict) (rows rows' : list Action) :
  map symbole rows = map symbole rows' ->
  find_index (same_symbol a) rows = find_index (same_symbol a) rows'.
Proof.
  revert rows'. induction rows as [ | r rest IH]; intros [ | r' rest'] H; try discriminate.
  - reflexivity.
  - cbn in H. injection H as Hr Hrest. cbn. unfold same_symbol at 1 3. rewrite Hr.
    rewrite (IH rest' Hrest). reflexivity.
Qed.


Lemma update_nth_symbols (a : action_dict) (rows : list Action) (i : nat) :
  find_index (same_symbol a) rows = Some i ->
  map symbole (update_nth i a rows) = map symbole rows.
Proof.
  revert i. induction rows as [ | r rest IH]; intros i H; [ discriminate | ].
  cbn in H. destruct (same_symbol a r) eqn:E.
  - injection H as <-. cbn. unfold same_symbol in E. apply pystr_eqb_eq in E.
    rewrite E. reflexivity.
  - destruct (find_index (same_symbol a) rest) as [j | ]; [ | discriminate ].
    injection H as <-. cbn. rewrite (IH j eq_refl). reflexivity.
Qed.

Lemma known_symbol_symbols (a : action_dict) (rows rows' : list Action) :
  map symbole rows = map symbole rows' -> known_symbol rows a = known_symbol rows' a.
Proof.
  intros H. unfold known_symbol. rewrite (find_index_symbols a rows rows' H). reflexivity.
Qed.

Lemma overwrite_known_cons (rows : list Action) (a : action_dict) (l : list action_dict) :
  overwrite_known rows (a :: l)
  = overwrite_known (match find_index (same_symbol a) rows with
                     | Some i => update_nth i a rows
                     | None => rows
                     end) l.
Proof. reflexivity. Qed.

(** The loop of [save_to_database] on a database that answers: the
    counts, and the rows changed and added in the open transaction. *)
Lemma save_actions_spec (W : World) :
  (forall n, db_fails W n = false) ->
  forall (l : list action_dict) (s : State) (stats : ScrapeStats),
    save_actions W stats l s =
    (Ok (mk_scrape_stats
           (inserted stats
            + Z.of_nat (List.length
                          (filter (fun a => negb (known_symbol (actions (persistent s)) a)) l)))
           (updated stats
            + Z.of_nat (List.length (filter (known_symbol (actions (persistent s))) l)))
           (errors stats)),
     mk_state (committed s)
              (with_actions (persistent s) (overwrite_known (actions (persistent s)) l))
              (with_historique
                 (with_actions (pending s)
                    (actions (pending s)
                     ++ filter (fun a => negb (known_symbol (actions (persistent s)) a)) l))
                 (historique_actions (pending s) ++ map snapshot_of l))
              (tick s + List.length l) (posts s)).
Proof.
  intros Hdb. induction l as [ | a rest IH]; intros s stats.
  - cbn. rewrite !Z.add_0_r, !app_nil_r, Nat.add_0_r.
    destruct s as [c [pa ph pi pw] [qa qh qi qw] t po], stats. reflexivity.
  - cbn [save_actions]. rewrite mbind_eq, (save_action_eq W stats a s (Hdb _)).
    rewrite overwrite_known_cons. cbn [filter map].
    destruct (find_index (same_symbol a) (actions (persistent s))) as [i | ] eqn:Ef.
    + assert (Hk : known_symbol (actions (persistent s)) a = true)
        by (unfold known_symbol; rewrite Ef; reflexivity).
      rewrite Hk. cbn [negb]. rewrite IH.
      cbn [committed persistent pending tick posts actions historique_actions
           with_actions with_historique inserted updated errors].
      pose proof (update_nth_symbols a _ i Ef) as Hsym.
      rewrite (filter_ext _ _ (fun x => f_equal negb (known_symbol_symbols x _ _ Hsym))).
      rewrite (filter_ext _ _ (fun x => known_symbol_symbols x _ _ Hsym)).
      apply f_equal2.
      * f_equal. f_equal; cbn [List.length]; lia.
      * destruct (persistent s), (pending s). cbn. rewrite <- ?app_assoc. cbn [app].
        f_equal. lia.
    + assert (Hk : known_symbol (actions (persistent s)) a = false)
        by (unfold known_symbol; rewrite Ef; reflexivity).
      rewrite Hk. cbn [negb]. rewrite IH.
      cbn [committed persistent pending tick posts actions historique_actions
           with_actions with_historique inserted updated errors].
      apply f_equal2.
      * f_equal. f_equal; cbn [List.length]; lia.
      * destruct (persistent s), (pending s). cbn. rewrite <- ?app_assoc. cbn [app].
        f_equal. lia.
Qed.
























(** ** Failures of the persistence layer *)

Lemma save_action_total (W : World) (stats : ScrapeStats) (a : action_dict) (s : State) :
  exists stats' s',
    save_action W stats a s = (Ok stats', s') /\ committed s' = committed s.
Proof.
  unfold save_action, query_action, add_snapshot. run.
  destruct (db_fails W (tick s)); cbn; [ eexists; eexists; split; reflexivity | ].
  destruct (find_index _ _); cbn; eexists; eexists; split; reflexivity.
Qed.

Lemma save_actions_total (W : World) (l : list action_dict) :
  forall (stats : ScrapeStats) (s : State),
  exists stats' s',
    save_actions W stats l s = (Ok stats', s') /\ committed s' = committed s.
Proof.
  induction l as [ | a rest IH]; intros stats s.
  - exists stats, s. split; reflexivity.
  - cbn [save_actions]. rewrite mbind_eq.
    destruct (save_action_total W stats a s) as (stats1 & s1 & H1 & C1). rewrite H1.
    destruct (IH stats1 s1) as (stats2 & s2 & H2 & C2).
    exists stats2, s2. split; [ exact H2 | congruence ].
Qed.

(** [db.commit()] either goes through or raises after rolling back. *)
Lemma commit_cases (W : World) (s : State) :
  (exists s', commit W s = (Ok tt, s')
              /\ persistent s' = committed s' /\ pending s' = no_rows)
  \/ commit W s
     = (Raise SQLAlchemyError,
        mk_state (committed s) (committed s) no_rows (S (tick s)) (posts s)).
Proof.
  unfold commit. run.
  destruct (db_fails W (tick s) || negb (flush_accepted (persistent s) (pending s))); cbn.
  - right. reflexivity.
  - left. eexists. split; [ reflexivity | ]. split; reflexivity.
Qed.

(** [BRVMScraper.save_to_database] returns counts or, when the commit
    fails, raises the database error with the transaction rolled back. *)
Lemma scraper_save_to_database_outcome (W : World) (l : list action_dict) (s : State) :
  (exists stats s', scraper_save_to_database W l s = (Ok stats, s')
                    /\ persistent s' = committed s' /\ pending s' = no_rows)
  \/ (exists s', scraper_save_to_database W l s = (Raise SQLAlchemyError, s')
                 /\ committed s' = committed s
                 /\ persistent s' = committed s
                 /\ pending s' = no_rows).
Proof.
  unfold scraper_save_to_database, mtry. rewrite mbind_eq.
  destruct (save_actions_total W l (mk_scrape_stats 0 0 0) s) as (stats & s1 & H1 & C1).
  rewrite H1, mbind_eq.
  destruct (commit_cases W s1) as [(s2 & H2 & Hp & Hq) | H2]; rewrite H2.
  - left. exists stats, s2. split; [ reflexivity | auto ].
  - right. eexists. split; [ reflexivity | ]. cbn. auto.
Qed.

Lemma pdf_save_to_database_outcome (W : World) (indicators : Indicators)
  (pdf_url : pystr) (target_date : date) (s : State) :
  exists (b : bool) (s' : State),
    pdf_save_to_database W indicators pdf_url target_date s = (Ok b, s')
    /\ persistent s' = committed s'
    /\ pending s' = no_rows
    /\ (b = false -> committed s' = committed s).
Proof.
  unfold pdf_save_to_database, mtry. rewrite mbind_eq.
  unfold round_trip at 1. run.
  destruct (db_fails W (tick s)); cbn.
  - eexists. eexists. split; [ reflexivity | ]. cbn. auto.
  - destruct (find_index _ _); cbn;
      match goal with
      | |- context [db_fails W ?n || negb ?f] => destruct (db_fails W n || negb f)
      end; cbn; eexists; eexists; (split; [ reflexivity | ]); cbn;
      repeat split; intros; try discriminate; reflexivity.
Qed.

Lemma cleanup_old_data_total (W : World) (s : State) :
  exists (n : Z) (s' : State),
    cleanup_old_data W s = (Ok n, s')
    /\ persistent s' = committed s' /\ pending s' = no_rows.
Proof.
  unfold cleanup_old_data, mtry. rewrite mbind_eq. run.
  destruct (date_sub_days _ _) as [cutoff | e]; cbn.
  - destruct (db_fails W (S (tick s))); cbn.
    + eexists. eexists. split; [ reflexivity | ]. cbn. auto.
    + match goal with
      | |- context [db_fails W ?n || negb ?f] => destruct (db_fails W n || negb f)
      end; cbn; eexists; eexists; (split; [ reflexivity | ]); cbn; auto.
  - eexists. eexists. split; [ reflexivity | ]. cbn. auto.
Qed.

Lemma try_except_Exception_ok {A : Type} (c : result A) (d : A) :
  exists r, try_except c (except_Exception (fun _ => Ok d)) = Ok r.
Proof. destruct c; eexists; reflexivity. Qed.

Lemma extract_indicators_total (W : World) (pdf_path : pystr) :
  exists i, extract_indicators W pdf_path = Ok i.
Proof. unfold extract_indicators. apply try_except_Exception_ok. Qed.

Lemma path_join_not_empty (dir filename : pystr) :
  is_empty (path_join dir filename) = false.
Proof. unfold path_join. destruct dir; reflexivity. Qed.

(** [download_pdf] comes to what [download_outcome] says. *)
Lemma download_pdf_eq (W : World) (pdf_url filename : pystr) (s : State) :
  download_pdf W pdf_url filename s
  = (match download_outcome W (tick s) pdf_url filename with
     | Ok true => Ok (Some (path_join (DOWNLOADS_DIR (settings W)) filename))
     | Ok false => Ok None
     | Raise e => Raise e
     end,
     mk_state (committed s) (persistent s) (pending s) (S (tick s)) (posts s)).
Proof.
  unfold download_pdf, download_outcome. run.
  destruct (http_get_pdf W (tick s) pdf_url) as [status [] | | ]; cbn;
    try reflexivity.
  destruct (status =? 404); cbn; [ reflexivity | ].
  destruct ((400 <=? status) && (status <? 600)); cbn; [ reflexivity | ].
  unfold lift.
  destruct (save_body W (tick s) (path_join (DOWNLOADS_DIR (settings W)) filename))
    as [[] | e]; cbn; [ reflexivity | ].
  destruct e; reflexivity.
Qed.

Lemma get_active_webhooks_total (W : World) (s : State) :
  exists l s', get_active_webhooks W s = (Ok l, s').
Proof.
  unfold get_active_webhooks. run.
  destruct (db_fails W (tick s)); cbn; eexists; eexists; reflexivity.
Qed.

(** ** The extractor's persistence and retention *)

Lemma unknown_date_not_in (d : date) (rows : list IndicateurMarche) :
  find_index (fun x => date_rapport x =? d) rows = None ->
  existsb (Z.eqb d) (map date_rapport rows) = false.
Proof.
  intros H. induction rows as [ | r rest IH]; [ reflexivity | ].
  cbn in *. destruct (date_rapport r =? d) eqn:E; [ discriminate | ].
  rewrite Z.eqb_sym, E. cbn.
  apply IH. destruct (find_index _ rest); [ discriminate | reflexivity ].
Qed.

Lemma with_indicateurs_merge (C : Tables) (rows : list IndicateurMarche) :
  merge_tables C (with_indicateurs no_rows rows)
  = with_indicateurs C (indicateurs_marche C ++ rows).
Proof.
  destruct C. unfold merge_tables, with_indicateurs. cbn. rewrite !app_nil_r. reflexivity.
Qed.

(** [PDFExtractor.save_to_database] on a database that answers, entered
    with no transaction open: the upsert is committed. *)
Lemma pdf_save_to_database_ok (W : World) (i : Indicators) (u : pystr) (d : date)
  (s : State) :
  db_fails W (tick s) = false ->
  db_fails W (S (tick s)) = false ->
  session_clean s ->
  pdf_save_to_database W i u d s
  = (Ok true,
     mk_state
       (with_indicateurs (committed s)
          (upsert_report (indicateurs_marche (committed s)) (mk_indicateur d i u)))
       (with_indicateurs (committed s)
          (upsert_report (indicateurs_marche (committed s)) (mk_indicateur d i u)))
       no_rows (S (S (tick s))) (posts s)).
Proof.
  intros H0 H1 [Hp Hq]. destruct s as [C P Q t po]. cbn in *. subst P Q.
  unfold pdf_save_to_database, upsert_report. run. rewrite H0. cbn.
  destruct (find_index (fun r => date_rapport r =? d) (indicateurs_marche C)) eqn:E; cbn.
  - rewrite H1. cbn. rewrite merge_no_rows. reflexivity.
  - rewrite H1. unfold flush_accepted. cbn.
    rewrite (unknown_date_not_in d _ E). cbn.
    rewrite (with_indicateurs_merge C [mk_indicateur d i u]). reflexivity.
Qed.

(** [cleanup_old_data] on a database that answers, entered with no
    transaction open: the reports before the cutoff are deleted. *)
Lemma cleanup_old_data_ok (W : World) (s : State) (cutoff : date) :
  session_clean s ->
  date_sub_days (dt_date (clock W (tick s))) (DATA_RETENTION_DAYS (settings W)) = Ok cutoff ->
  db_fails W (S (tick s)) = false ->
  db_fails W (S (S (tick s))) = false ->
  cleanup_old_data W s
  = (Ok (Z.of_nat (List.length (indicateurs_marche (committed s))
                   - List.length (retained cutoff (indicateurs_marche (committed s))))),
     mk_state
       (with_indicateurs (committed s) (retained cutoff (indicateurs_marche (committed s))))
       (with_indicateurs (committed s) (retained cutoff (indicateurs_marche (committed s))))
       no_rows (S (S (S (tick s)))) (posts s)).
Proof.
  intros [Hp Hq] Hcut H1 H2. destruct s as [C P Q t po]. cbn in *. subst P Q.
  unfold cleanup_old_data, retained. run. rewrite Hcut. cbn. rewrite H1. cbn.
  rewrite H2. cbn. rewrite merge_no_rows. reflexivity.
Qed.

Lemma process_daily_pdf_target (W : World) (target_date : option date) (s : State)
  (d : date) :
  target_of W target_date s = Ok d ->
  process_daily_pdf W target_date s
  = process_daily_pdf W (Some d)
      (mk_state (committed s) (persistent s) (pending s)
                (tick s + target_ticks target_date) (posts s)).
Proof.
  destruct target_date as [d' | ]; cbn [target_of target_ticks]; intros H.
  - injection H as ->. rewrite Nat.add_0_r. destruct s. reflexivity.
  - unfold process_daily_pdf at 1. rewrite mbind_eq. run. rewrite H.
    rewrite Nat.add_1_r. reflexivity.
Qed.

(** What the download of tick [n] raises, when it raises. *)
Lemma download_succeeds_outcome (W : World) (n : nat) (pdf_url filename : pystr) :
  download_outcome W n pdf_url filename
  = match download_error W n pdf_url filename with
    | Some e => Raise e
    | None => Ok (download_succeeds W n pdf_url filename)
    end.
Proof.
  unfold download_error, download_succeeds.
  destruct (download_outcome W n pdf_url filename) as [[ | ] | e]; reflexivity.
Qed.

(** [process_daily_pdf] for a given date, step by step. *)
Lemma process_daily_pdf_eq (W : World) (d : date) (s : State) :
  process_daily_pdf W (Some d) s
  = let pdf_url := fst (generate_pdf_url d) in
    let filename := snd (generate_pdf_url d) in
    let filepath := path_join (DOWNLOADS_DIR (settings W)) filename in
    let n1 := if already_local W (tick s) filename then S (tick s) else S (S (tick s)) in
    let s1 := mk_state (committed s) (persistent s) (pending s) n1 (posts s) in
    if already_local W (tick s) filename
       || download_succeeds W (S (tick s)) pdf_url filename
    then match extract_indicators W filepath with
         | Ok i =>
             if all_none i then (Ok false, s1)
             else (success <~ pdf_save_to_database W i pdf_url d ;;
                   _ <~ cleanup_old_data W ;;
                   ret success) s1
         | Raise e => (Raise e, s1)
         end
    else match download_error W (S (tick s)) pdf_url filename with
         | Some e => (Raise e, s1)
         | None => (Ok false, s1)
         end.
Proof.
  unfold already_local.
  cbv beta iota delta [process_daily_pdf mbind ret].
  destruct (generate_pdf_url d) as [pdf_url filename]. cbn [fst snd].
  unfold file_exists.
  pose proof (download_pdf_eq W pdf_url filename) as Hdl.
  pose proof (download_succeeds_outcome W (S (tick s)) pdf_url filename) as Hout.
  set (download := download_pdf W pdf_url filename) in *.
  set (filepath := path_join (DOWNLOADS_DIR (settings W)) filename) in *.
  set (extracted := extract_indicators W filepath).
  assert (Hne : is_empty filepath = false) by apply path_join_not_empty.
  clearbody extracted filepath download.
  run.
  destruct (path_exists W (tick s) filepath); cbn.
  - destruct extracted as [i | e]; [ | reflexivity ].
    destruct (all_none i); reflexivity.
  - rewrite Hdl. cbn [tick committed persistent pending posts]. rewrite Hout.
    destruct (download_error W (S (tick s)) pdf_url filename) as [e | ].
    + unfold download_error, download_succeeds in *.
      destruct (download_outcome W (S (tick s)) pdf_url filename) as [[ | ] | e'];
        try discriminate.
      reflexivity.
    + destruct (download_succeeds W (S (tick s)) pdf_url filename); cbn.
      * rewrite Hne. cbn.
        destruct extracted as [i | e]; [ | reflexivity ].
        destruct (all_none i); reflexivity.
      * reflexivity.
Qed.

Lemma update_found_filter {A : Type} (p : A -> bool) (l : list A) (k : nat) (x : A) :
  find_index p l = Some k -> p x = true ->
  List.length (filter p (update_nth k x l)) = List.length (filter p l)
  /\ filter (fun y => negb (p y)) (update_nth k x l) = filter (fun y => negb (p y)) l
  /\ In x (update_nth k x l)
  /\ List.length (update_nth k x l) = List.length l.
Proof.
  revert k. induction l as [ | y r IH]; intros k Hf Hx; [ discriminate | ].
  cbn in Hf. destruct (p y) eqn:Ey.
  - injection Hf as <-. cbn. rewrite Hx, Ey. cbn. auto.
  - destruct (find_index p r) as [j | ] eqn:Ej; [ | discriminate ].
    injection Hf as <-. destruct (IH j eq_refl Hx) as (H1 & H2 & H3 & H4).
    cbn. rewrite Ey. cbn. rewrite H2, H4. auto.
Qed.

Lemma not_found_filter {A : Type} (p : A -> bool) (l : list A) :
  find_index p l = None -> filter p l = [].
Proof.
  induction l as [ | y r IH]; intros H; [ reflexivity | ].
  cbn in *. destruct (p y); [ discriminate | ].
  apply IH. destruct (find_index p r); [ discriminate | reflexivity ].
Qed.

Lemma found_filter {A : Type} (p : A -> bool) (l : list A) (k : nat) :
  find_index p l = Some k -> (1 <= List.length (filter p l))%nat.
Proof.
  revert k. induction l as [ | y r IH]; intros k H; [ discriminate | ].
  cbn in *. destruct (p y); [ cbn; lia | ].
  destruct (find_index p r) as [j | ]; [ | discriminate ]. apply (IH j eq_refl).
Qed.

(** What one upsert does to the reports of its date and to the others. *)
Lemma upsert_report_spec (rows : list IndicateurMarche) (r : IndicateurMarche) :
  count_date (date_rapport r) (upsert_report rows r)
  = Nat.max 1 (count_date (date_rapport r) rows)
  /\ filter (fun x => negb (date_rapport x =? date_rapport r)) (upsert_report rows r)
     = filter (fun x => negb (date_rapport x =? date_rapport r)) rows
  /\ In r (upsert_report rows r)
  /\ ((1 <= count_date (date_rapport r) rows)%nat ->
      List.length (upsert_report rows r) = List.length rows).
Proof.
  unfold upsert_report, count_date.
  assert (Hr : (date_rapport r =? date_rapport r) = true) by apply Z.eqb_refl.
  destruct (find_index (fun x => date_rapport x =? date_rapport r) rows) as [k | ] eqn:E.
  - destruct (update_found_filter _ rows k r E Hr) as (H1 & H2 & H3 & H4).
    pose proof (found_filter _ _ _ E) as Hge.
    rewrite H1. repeat split; try assumption; [ lia | intros _; exact H4 ].
  - pose proof (not_found_filter _ _ E) as Hnil.
    rewrite !filter_app, Hnil. cbn. rewrite Hr. cbn. rewrite app_nil_r.
    repeat split.
    + apply in_or_app. right. left. reflexivity.
    + intros H. cbn in H. lia.
Qed.

Lemma retained_In (cutoff : date) (rows : list IndicateurMarche) (r : IndicateurMarche) :
  In r (retained cutoff rows) <-> In r rows /\ cutoff <= date_rapport r.
Proof.
  unfold retained. rewrite filter_In, negb_true_iff, Z.ltb_ge. reflexivity.
Qed.

(** C4 as stated does not hold: when the bulletin is not in the
    downloads directory, the server answers and writing the file fails,
    no local copy is obtained, yet [process_daily_pdf] does not return
    [False]: the error leaves [download_pdf], whose handler names
    [requests.RequestException] only. *)
Lemma process_daily_pdf_raises :
  let d := ymd2ord 2025 10 24 in
  already_local disk_full 0 (snd (generate_pdf_url d)) = false
  /\ download_succeeds disk_full 1 (fst (generate_pdf_url d)) (snd (generate_pdf_url d))
     = false
  /\ process_daily_pdf disk_full (Some d) empty_state
     = (Raise OSError, mk_state no_rows no_rows no_rows 2 [])
  /\ ~ (forall (W : World) (d : date) (s : State),
          already_local W (tick s) (snd (generate_pdf_url d))
          || download_succeeds W (S (tick s)) (fst (generate_pdf_url d))
                               (snd (generate_pdf_url d)) = false ->
          exists s', process_daily_pdf W (Some d) s = (Ok false, s')).
Proof.
  assert (H : process_daily_pdf disk_full (Some (ymd2ord 2025 10 24)) empty_state
              = (Raise OSError, mk_state no_rows no_rows no_rows 2 []))
    by (vm_compute; reflexivity).
  cbv zeta. split; [ vm_compute; reflexivity | ].
  split; [ vm_compute; reflexivity | ].
  split; [ exact H | ].
  intros Hall.
  destruct (Hall disk_full (ymd2ord 2025 10 24) empty_state) as (s' & Hrun).
  - vm_compute. reflexivity.
  - rewrite H in Hrun. discriminate.
Qed.

(** C4, as the code has it. Once the date is known, [process_daily_pdf]
    returns [False] and leaves the store and the open transaction as
    they were when no local copy of the bulletin is obtained because the
    request or the transfer fails or the server answers 404 or an error
    status, and when the extraction finds none of the four indicators;
    an error raised while the file is written propagates, the store and
    the open transaction also left as they were. Otherwise it runs the
    upsert, then the retention, and returns what the upsert returned.
    On a database that answers, entered with no transaction open, the
    reports it leaves are those of the upsert whose date is not before
    today minus the retention window, and it returns [True]. *)
Theorem process_daily_pdf_spec (W : World) (target_date : option date) (s : State)
  (d : date) :
  target_of W target_date s = Ok d ->
  let pdf_url := fst (generate_pdf_url d) in
  let filename := snd (generate_pdf_url d) in
  let filepath := path_join (DOWNLOADS_DIR (settings W)) filename in
  let n0 := (tick s + target_ticks target_date)%nat in
  let copy :=
    already_local W n0 filename || download_succeeds W (S n0) pdf_url filename in
  let n1 := if already_local W n0 filename then S n0 else S (S n0) in
  let s1 := mk_state (committed s) (persistent s) (pending s) n1 (posts s) in
  (copy = false -> download_error W (S n0) pdf_url filename = None ->
   process_daily_pdf W target_date s = (Ok false, s1))
  /\ (forall e, copy = false -> download_error W (S n0) pdf_url filename = Some e ->
      process_daily_pdf W target_date s = (Raise e, s1))
  /\ (forall i, copy = true -> extract_indicators W filepath = Ok i ->
        all_none i = true ->
        process_daily_pdf W target_date s = (Ok false, s1))
  /\ (forall i, copy = true -> extract_indicators W filepath = Ok i ->
        all_none i = false ->
        exists (b : bool) (s2 : State) (n : Z) (s3 : State),
          pdf_save_to_database W i pdf_url d s1 = (Ok b, s2)
          /\ cleanup_old_data W s2 = (Ok n, s3)
          /\ process_daily_pdf W target_date s = (Ok b, s3))
  /\ (forall i cutoff, copy = true -> extract_indicators W filepath = Ok i ->
        all_none i = false ->
        session_clean s ->
        (forall k, db_fails W k = false) ->
        date_sub_days (dt_date (clock W (S (S n1)))) (DATA_RETENTION_DAYS (settings W))
        = Ok cutoff ->
        exists s3 : State,
          process_daily_pdf W target_date s = (Ok true, s3)
          /\ session_clean s3
          /\ indicateurs_marche (committed s3)
             = retained cutoff
                 (upsert_report (indicateurs_marche (committed s))
                                (mk_indicateur d i pdf_url))
          /\ (forall r, In r (indicateurs_marche (committed s3)) <->
                In r (upsert_report (indicateurs_marche (committed s))
                                    (mk_indicateur d i pdf_url))
                /\ cutoff <= date_rapport r)
          /\ actions (committed s3) = actions (committed s)
          /\ historique_actions (committed s3) = historique_actions (committed s)
          /\ webhook_subscriptions (committed s3) = webhook_subscriptions (committed s)).
Proof.
  intros Htarget pdf_url filename filepath n0 copy n1 s1.
  rewrite (process_daily_pdf_target W target_date s d Htarget), process_daily_pdf_eq.
  cbv zeta. cbn [tick committed persistent pending posts].
  fold pdf_url filename filepath n0. fold copy. fold n1. fold s1.
  split; [ intros Hc Hn; rewrite Hc, Hn; reflexivity | ].
  split; [ intros e Hc Hn; rewrite Hc, Hn; reflexivity | ].
  split; [ intros i Hc He Ha; rewrite Hc, He, Ha; reflexivity | ].
  split.
  - intros i Hc He Ha. rewrite Hc, He, Ha, mbind_eq.
    destruct (pdf_save_to_database_outcome W i pdf_url d s1) as (b & s2 & H2 & _).
    destruct (cleanup_old_data_total W s2) as (n & s3 & H3 & _).
    exists b, s2, n, s3. split; [ exact H2 | ]. split; [ exact H3 | ].
    rewrite H2, mbind_eq, H3. reflexivity.
  - intros i cutoff Hc He Ha Hclean Hdb Hcut. rewrite Hc, He, Ha, mbind_eq.
    assert (Hclean1 : session_clean s1) by exact Hclean.
    rewrite (pdf_save_to_database_ok W i pdf_url d s1 (Hdb _) (Hdb _) Hclean1), mbind_eq.
    cbn [tick committed persistent pending posts s1].
    match goal with
    | |- context [cleanup_old_data W ?s2] =>
        rewrite (cleanup_old_data_ok W s2 cutoff)
    end.
    + eexists. split; [ reflexivity | ].
      cbn [committed persistent pending indicateurs_marche actions historique_actions
           webhook_subscriptions with_indicateurs].
      split; [ split; reflexivity | ]. split; [ reflexivity | ].
      split; [ intros r; apply retained_In | ]. auto.
    + split; reflexivity.
    + exact Hcut.
    + apply Hdb.
    + apply Hdb.
Qed.

(** The bulletin of Friday 2025-10-24, downloaded and processed on
    Monday evening with a window of 60 days: the report is added and the
    one of January goes. *)
Lemma process_daily_pdf_spec_witness :
  exists s3 : State,
    process_daily_pdf served_bulletin (Some (ymd2ord 2025 10 24)) two_reports
    = (Ok true, s3)
    /\ map date_rapport (indicateurs_marche (committed s3))
       = [ymd2ord 2025 10 23; ymd2ord 2025 10 24]
    /\ tick s3 = 7%nat.
Proof.
  destruct (process_daily_pdf_spec served_bulletin (Some (ymd2ord 2025 10 24))
              two_reports (ymd2ord 2025 10 24) eq_refl)
    as (_ & _ & _ & _ & H).
  destruct (H (per_only (S754_finite false 6946802425218990 (-49)))
              (ymd2ord 2025 8 28))
    as (s3 & Hrun & _ & Hrows & _).
  - vm_compute. reflexivity.
  - vm_compute. reflexivity.
  - reflexivity.
  - split; reflexivity.
  - intros k. reflexivity.
  - vm_compute. reflexivity.
  - exists s3. split; [ exact Hrun | ].
    split; [ rewrite Hrows; vm_compute; reflexivity | ].
    assert (E : snd (process_daily_pdf served_bulletin (Some (ymd2ord 2025 10 24))
                       two_reports) = s3) by (rewrite Hrun; reflexivity).
    rewrite <- E. vm_compute. reflexivity.
Defined.

(** C5. On a database that answers, entered with no transaction open and
    at most one report for the date, two runs of the extractor's
    [save_to_database] for the same date both return [True] and leave
    exactly one report for that date, the one of the second run; the
    second run adds no row, and the reports of other dates are as they
    were. *)
Theorem pdf_save_to_database_twice (W : World) (i1 i2 : Indicators) (u1 u2 : pystr)
  (d : date) (s : State) :
  (forall k, db_fails W k = false) ->
  session_clean s ->
  (count_date d (indicateurs_marche (committed s)) <= 1)%nat ->
  exists s1 s2 : State,
    pdf_save_to_database W i1 u1 d s = (Ok true, s1)
    /\ pdf_save_to_database W i2 u2 d s1 = (Ok true, s2)
    /\ count_date d (indicateurs_marche (committed s1)) = 1%nat
    /\ count_date d (indicateurs_marche (committed s2)) = 1%nat
    /\ In (mk_indicateur d i2 u2) (indicateurs_marche (committed s2))
    /\ List.length (indicateurs_marche (committed s2))
       = List.length (indicateurs_marche (committed s1))
    /\ filter (fun x => negb (date_rapport x =? d)) (indicateurs_marche (committed s2))
       = filter (fun x => negb (date_rapport x =? d)) (indicateurs_marche (committed s)).
Proof.
  intros Hdb Hclean Hcount.
  rewrite (pdf_save_to_database_ok W i1 u1 d s (Hdb _) (Hdb _) Hclean).
  eexists. eexists. split; [ reflexivity | ].
  match goal with
  | |- pdf_save_to_database W i2 u2 d ?s1 = _ /\ _ =>
      rewrite (pdf_save_to_database_ok W i2 u2 d s1 (Hdb _) (Hdb _) (conj eq_refl eq_refl))
  end.
  split; [ reflexivity | ].
  cbn [committed indicateurs_marche with_indicateurs].
  destruct (upsert_report_spec (indicateurs_marche (committed s)) (mk_indicateur d i1 u1))
    as (A1 & A2 & _ & _).
  cbn [date_rapport] in A1, A2.
  set (rows1 := upsert_report (indicateurs_marche (committed s)) (mk_indicateur d i1 u1)) in *.
  destruct (upsert_report_spec rows1 (mk_indicateur d i2 u2)) as (B1 & B2 & B3 & B4).
  cbn [date_rapport] in B1, B2, B4.
  assert (H1 : count_date d rows1 = 1%nat) by lia.
  split; [ exact H1 | ].
  split; [ lia | ].
  split; [ exact B3 | ].
  split; [ apply B4; lia | ].
  rewrite B2. exact A2.
Qed.

(** Two runs for Friday 2025-10-24 on an empty store leave one report,
    with the values and the source of the second run. *)
Lemma pdf_save_to_database_twice_witness :
  exists s1 s2 : State,
    pdf_save_to_database quiet_world no_indicators (py "first.pdf")
                         (ymd2ord 2025 10 24) empty_state = (Ok true, s1)
    /\ pdf_save_to_database quiet_world
                            (per_only (S754_finite false 6946802425218990 (-49)))
                            (py "second.pdf") (ymd2ord 2025 10 24) s1 = (Ok true, s2)
    /\ indicateurs_marche (committed s2)
       = [mk_indicateur (ymd2ord 2025 10 24)
                        (per_only (S754_finite false 6946802425218990 (-49)))
                        (py "second.pdf")].
Proof.
  destruct (pdf_save_to_database_twice quiet_world no_indicators
              (per_only (S754_finite false 6946802425218990 (-49)))
              (py "first.pdf") (py "second.pdf") (ymd2ord 2025 10 24) empty_state)
    as (s1 & s2 & H1 & H2 & _).
  - intros k. reflexivity.
  - split; reflexivity.
  - cbn. lia.
  - exists s1, s2. split; [ exact H1 | ]. split; [ exact H2 | ].
    assert (E1 : snd (pdf_save_to_database quiet_world no_indicators (py "first.pdf")
                        (ymd2ord 2025 10 24) empty_state) = s1)
      by (rewrite H1; reflexivity).
    assert (E2 : snd (pdf_save_to_database quiet_world
                        (per_only (S754_finite false 6946802425218990 (-49)))
                        (py "second.pdf") (ymd2ord 2025 10 24) s1) = s2)
      by (rewrite H2; reflexivity).
    rewrite <- E2, <- E1. vm_compute. reflexivity.
Defined.

(** ** The outcomes of failures *)

(** C8 as stated does not hold: when the database refuses the commit,
    [scrape_and_save] rolls back and raises the error to its caller. *)
Lemma scrape_and_save_raises :
  scrape_and_save commit_refused empty_state
  = (Raise SQLAlchemyError, mk_state no_rows no_rows no_rows 3 [])
  /\ ~ (forall (W : World) (s : State),
          exists stats s', scrape_and_save W s = (Ok stats, s')).
Proof.
  assert (H : scrape_and_save commit_refused empty_state
              = (Raise SQLAlchemyError, mk_state no_rows no_rows no_rows 3 []))
    by (vm_compute; reflexivity).
  split; [ exact H | ].
  intros Hall. destruct (Hall commit_refused empty_state) as (stats & s' & Hrun).
  rewrite H in Hrun. discriminate.
Qed.

Lemma scrape_and_save_outcome (W : World) (s : State) :
  (exists stats s', scrape_and_save W s = (Ok stats, s'))
  \/ (exists s', scrape_and_save W s = (Raise SQLAlchemyError, s')
                 /\ committed s' = committed s
                 /\ persistent s' = committed s
                 /\ pending s' = no_rows).
Proof.
  unfold scrape_and_save. rewrite mbind_eq, fetch_page_eq.
  destruct (page_text W (tick s)) as [html | ]; [ | left; eexists; eexists; reflexivity ].
  destruct (is_empty html); [ left; eexists; eexists; reflexivity | ].
  rewrite mbind_eq. unfold lift.
  destruct (parse_actions_returns (BeautifulSoup W) html) as (l & Hl). rewrite Hl.
  destruct (is_empty l); [ left; eexists; eexists; reflexivity | ].
  match goal with
  | |- context [scraper_save_to_database W l ?s1] =>
      destruct (scraper_save_to_database_outcome W l s1)
        as [(stats & s' & H & _) | (s' & H & Hc & Hp & Hq)]
  end.
  - left. exists stats, s'. exact H.
  - right. exists s'. split; [ exact H | ]. cbn in Hc, Hp. auto.
Qed.

(** [process_daily_pdf] for a given date returns a Boolean, unless the
    bulletin is not there yet and writing the downloaded file raises. *)
Lemma process_daily_pdf_outcome (W : World) (d : date) (s : State) :
  (exists (b : bool) (s' : State), process_daily_pdf W (Some d) s = (Ok b, s'))
  \/ (exists e : exn,
        already_local W (tick s) (snd (generate_pdf_url d)) = false
        /\ download_outcome W (S (tick s)) (fst (generate_pdf_url d))
                            (snd (generate_pdf_url d)) = Raise e
        /\ process_daily_pdf W (Some d) s
           = (Raise e,
              mk_state (committed s) (persistent s) (pending s) (S (S (tick s)))
                       (posts s))).
Proof.
  rewrite process_daily_pdf_eq. cbv zeta.
  set (pdf_url := fst (generate_pdf_url d)).
  set (filename := snd (generate_pdf_url d)).
  rewrite (download_succeeds_outcome W (S (tick s)) pdf_url filename).
  destruct (already_local W (tick s) filename) eqn:Hlocal; cbn [orb].
  - left.
    destruct (extract_indicators_total W (path_join (DOWNLOADS_DIR (settings W)) filename))
      as (i & Hi). rewrite Hi.
    destruct (all_none i); [ eexists; eexists; reflexivity | ].
    rewrite mbind_eq.
    match goal with
    | |- context [pdf_save_to_database W ?a ?b ?c ?s1] =>
        destruct (pdf_save_to_database_outcome W a b c s1) as (ok & s2 & H2 & _)
    end.
    rewrite H2, mbind_eq.
    destruct (cleanup_old_data_total W s2) as (n & s3 & H3 & _). rewrite H3.
    eexists. eexists. reflexivity.
  - destruct (download_error W (S (tick s)) pdf_url filename) as [e | ] eqn:Herr.
    + right. exists e. split; [ reflexivity | ]. split; [ reflexivity | ].
      unfold download_succeeds, download_error in *.
      destruct (download_outcome W (S (tick s)) pdf_url filename) as [[ | ] | e'];
        try discriminate.
      injection Herr as ->. reflexivity.
    + left. destruct (download_succeeds W (S (tick s)) pdf_url filename).
      * destruct (extract_indicators_total W
                    (path_join (DOWNLOADS_DIR (settings W)) filename)) as (i & Hi).
        rewrite Hi.
        destruct (all_none i); [ eexists; eexists; reflexivity | ].
        rewrite mbind_eq.
        match goal with
        | |- context [pdf_save_to_database W ?a ?b ?c ?s1] =>
            destruct (pdf_save_to_database_outcome W a b c s1) as (ok & s2 & H2 & _)
        end.
        rewrite H2, mbind_eq.
        destruct (cleanup_old_data_total W s2) as (n & s3 & H3 & _). rewrite H3.
        eexists. eexists. reflexivity.
      * eexists. eexists. reflexivity.
Qed.

(** On a database that answers, entered with no transaction open,
    [broadcast_to_webhooks] returns its counts. *)
Lemma broadcast_to_webhooks_returns (W : World) (payload : pystr) (s : State) :
  session_clean s ->
  (forall n, (tick s <= n)%nat -> db_fails W n = false) ->
  exists stats s', broadcast_to_webhooks W payload s = (Ok stats, s').
Proof.
  intros Hclean Hdb. unfold broadcast_to_webhooks.
  rewrite mbind_eq, (get_active_webhooks_eq W s (Hdb _ (Nat.le_refl _))).
  destruct Hclean as [Hp Hq].
  set (l := filter (fun iw => is_active (snd iw) =? 1)
                   (indexed (webhook_subscriptions (persistent s)))).
  set (s1 := mk_state (committed s) (persistent s) (pending s) (S (tick s)) (posts s)).
  destruct (is_empty l); [ eexists; eexists; reflexivity | ].
  destruct (notify_webhooks_spec W payload s l s1 false (mk_broadcast_stats 0 0))
    as (stats & s' & Hrun & _).
  - split; [ exact Hp | exact Hq ].
  - cbn. lia.
  - exact Hdb.
  - apply Forall2_same. intros a. apply row_rel_refl.
  - intros ref w Hin. unfold l in Hin. apply filter_In in Hin. destruct Hin as [Hin Ha].
    rewrite Hp in Hin. apply indexed_In in Hin. cbn in Ha. apply Z.eqb_eq in Ha.
    exists w. auto.
  - exists stats, s'. exact Hrun.
Qed.

(** C8, as the code has it. The fetch, the parser, the extraction, the
    extractor's [save_to_database] and [cleanup_old_data],
    [get_active_webhooks] and [send_webhook] always return their
    structured outcome: a failed persistence makes the extractor's
    [save_to_database] return [False] with the transaction rolled back.
    [scrape_and_save] returns counts, except that a refused commit is
    rolled back and raised again to its caller as a database error.
    [process_daily_pdf] returns a Boolean, except that an error raised
    while the downloaded file is written propagates, the store left as
    it was. [broadcast_to_webhooks] returns counts on a database that
    answers. *)
Theorem failure_outcomes (W : World) (s : State) :
  (exists html s', fetch_page W s = (Ok html, s'))
  /\ (forall html, exists l, parse_actions (BeautifulSoup W) html = Ok l)
  /\ ((exists stats s', scrape_and_save W s = (Ok stats, s'))
      \/ (exists s', scrape_and_save W s = (Raise SQLAlchemyError, s')
                     /\ committed s' = committed s
                     /\ persistent s' = committed s
                     /\ pending s' = no_rows))
  /\ (forall indicators pdf_url target_date,
        exists (b : bool) (s' : State),
          pdf_save_to_database W indicators pdf_url target_date s = (Ok b, s')
          /\ persistent s' = committed s'
          /\ pending s' = no_rows
          /\ (b = false -> committed s' = committed s))
  /\ (exists n s', cleanup_old_data W s = (Ok n, s'))
  /\ (forall pdf_path, exists i, extract_indicators W pdf_path = Ok i)
  /\ (forall d,
        (exists (b : bool) (s' : State), process_daily_pdf W (Some d) s = (Ok b, s'))
        \/ (exists e : exn,
              already_local W (tick s) (snd (generate_pdf_url d)) = false
              /\ download_outcome W (S (tick s)) (fst (generate_pdf_url d))
                                  (snd (generate_pdf_url d)) = Raise e
              /\ process_daily_pdf W (Some d) s
                 = (Raise e,
                    mk_state (committed s) (persistent s) (pending s) (S (S (tick s)))
                             (posts s))))
  /\ (forall target payload, exists (b : bool) (s' : State),
        send_webhook W target payload s = (Ok b, s'))
  /\ (exists l s', get_active_webhooks W s = (Ok l, s'))
  /\ (forall payload,
        session_clean s ->
        (forall n, (tick s <= n)%nat -> db_fails W n = false) ->
        exists stats s', broadcast_to_webhooks W payload s = (Ok stats, s')).
Proof.
  split; [ eexists; eexists; apply fetch_page_eq | ].
  split; [ intros html; apply parse_actions_returns | ].
  split; [ apply scrape_and_save_outcome | ].
  split; [ intros; apply pdf_save_to_database_outcome | ].
  split.
  { destruct (cleanup_old_data_total W s) as (n & s' & H & _). eauto. }
  split; [ intros; apply extract_indicators_total | ].
  split; [ intros; apply process_daily_pdf_outcome | ].
  split.
  { intros target payload.
    destruct (send_webhook_spec W target payload s) as (b & k & H & _). eauto. }
  split; [ apply get_active_webhooks_total | ].
  intros payload. apply broadcast_to_webhooks_returns.
Qed.

(* ===================================================================== *)
(** * Part III: further properties of the services                       *)
(* ===================================================================== *)

(** ** The report date, continued *)

(** The value the weekend loop returns on a valid date. *)
Lemma weekend_rollback_value (c : date) :
  valid_date c ->
  weekend_rollback c = Ok (c - Z.max 0 (weekday c - 4)).
Proof.
  intros Hv. pose proof (weekday_range c) as Hr.
  destruct (Z.eq_dec (weekday c) 5) as [E5 | N5].
  - rewrite (weekend_rollback_saturday c Hv E5), E5. reflexivity.
  - destruct (Z.eq_dec (weekday c) 6) as [E6 | N6].
    + rewrite (weekend_rollback_sunday c Hv E6), E6. reflexivity.
    + rewrite weekend_rollback_weekday by lia.
      f_equal. lia.
Qed.

(** The candidate date of a reference instant, when it exists. *)
Lemma get_pdf_date_candidate (r : datetime) (d : date) :
  valid_date (dt_date r) ->
  get_pdf_date r = Ok d ->
  let c := if time_lt (dt_time r) cutoff_time then dt_date r - 1 else dt_date r in
  valid_date c /\ d = c - Z.max 0 (weekday c - 4).
Proof.
  intros Hv Hrun c. unfold get_pdf_date in Hrun. subst c.
  destruct (time_lt (dt_time r) cutoff_time).
  - unfold date_sub_days in Hrun.
    destruct (valid_dateb (dt_date r - 1)) eqn:E; [ | discriminate ].
    cbn [bind] in Hrun.
    assert (Hc : valid_date (dt_date r - 1)).
    { unfold valid_dateb in E. apply andb_prop in E. destruct E as [E1 E2].
      apply Z.leb_le in E1. apply Z.leb_le in E2. split; assumption. }
    rewrite (weekend_rollback_value _ Hc) in Hrun. injection Hrun as <-. auto.
  - cbn [bind] in Hrun. rewrite (weekend_rollback_value _ Hv) in Hrun.
    injection Hrun as <-. auto.
Qed.

Lemma weekday_shift (c k : Z) :
  0 <= k <= weekday c -> weekday (c - k) = weekday c - k.
Proof.
  unfold weekday. intros H. Z.to_euclidean_division_equations. lia.
Qed.

Lemma rollback_is_weekday (c : date) :
  weekday (c - Z.max 0 (weekday c - 4)) <= 4.
Proof.
  pose proof (weekday_range c) as Hr. rewrite weekday_shift; lia.
Qed.

Lemma rollback_skips_weekend_only (c x : date) :
  c - Z.max 0 (weekday c - 4) < x <= c -> 5 <= weekday x.
Proof.
  intros Hx. pose proof (weekday_range c) as Hr.
  replace x with (c - (c - x)) by lia. rewrite weekday_shift; lia.
Qed.

(** The date returned is the latest Monday-to-Friday date that is not
    after the candidate: no weekday lies between the two. It is at most
    three days before the reference date and never after it. *)
Theorem get_pdf_date_latest_weekday (r : datetime) (d : date) :
  valid_date (dt_date r) ->
  get_pdf_date r = Ok d ->
  let c := if time_lt (dt_time r) cutoff_time then dt_date r - 1 else dt_date r in
  d <= c
  /\ weekday d <= 4
  /\ (forall x, d < x <= c -> 5 <= weekday x)
  /\ dt_date r - 3 <= d <= dt_date r.
Proof.
  intros Hv Hrun c.
  destruct (get_pdf_date_candidate r d Hv Hrun) as [Hc Hd]. fold c in Hc, Hd.
  pose proof (weekday_range c) as Hr.
  assert (Hcr : dt_date r - 1 <= c <= dt_date r).
  { unfold c. destruct (time_lt _ _); lia. }
  subst d.
  split; [ lia | ]. split; [ apply rollback_is_weekday | ]. split; [ | lia ].
  intros x Hx. apply (rollback_skips_weekend_only c x Hx).
Qed.

Lemma get_pdf_date_latest_weekday_witness :
  ymd2ord 2025 10 24 <= ymd2ord 2025 10 26
  /\ weekday (ymd2ord 2025 10 24) <= 4
  /\ (forall x, ymd2ord 2025 10 24 < x <= ymd2ord 2025 10 26 -> 5 <= weekday x)
  /\ ymd2ord 2025 10 27 - 3 <= ymd2ord 2025 10 24 <= ymd2ord 2025 10 27.
Proof.
  apply (get_pdf_date_latest_weekday
           (mk_datetime (ymd2ord 2025 10 27) (mk_time 12 0 0 0)) (ymd2ord 2025 10 24)).
  - unfold valid_date. vm_compute. split; discriminate.
  - reflexivity.
Defined.

Lemma time_lt_cutoff_later (t1 t2 : time) :
  time_lt t1 cutoff_time = false -> time_lt t2 t1 = false ->
  time_lt t2 cutoff_time = false.
Proof.
  unfold time_lt, cutoff_time. cbn [hour minute second microsecond].
  rewrite !orb_false_iff, !andb_false_iff, !orb_false_iff, !andb_false_iff,
    !orb_false_iff, !andb_false_iff, !Z.ltb_ge, !Z.eqb_neq.
  lia.
Qed.

(** A later reference instant never resolves to an earlier bulletin. *)
Theorem get_pdf_date_monotone (r1 r2 : datetime) (d1 d2 : date) :
  valid_date (dt_date r1) -> valid_date (dt_date r2) ->
  dt_date r1 < dt_date r2
  \/ (dt_date r1 = dt_date r2 /\ time_lt (dt_time r2) (dt_time r1) = false) ->
  get_pdf_date r1 = Ok d1 -> get_pdf_date r2 = Ok d2 ->
  d1 <= d2.
Proof.
  intros Hv1 Hv2 Hle H1 H2.
  destruct (get_pdf_date_candidate r1 d1 Hv1 H1) as [_ E1].
  destruct (get_pdf_date_candidate r2 d2 Hv2 H2) as [_ E2].
  cbv zeta in *.
  set (c1 := if time_lt (dt_time r1) cutoff_time then dt_date r1 - 1 else dt_date r1) in *.
  set (c2 := if time_lt (dt_time r2) cutoff_time then dt_date r2 - 1 else dt_date r2) in *.
  assert (Hc : c1 <= c2).
  { unfold c1, c2. destruct Hle as [Hlt | [Heq Ht]].
    - destruct (time_lt (dt_time r1) cutoff_time), (time_lt (dt_time r2) cutoff_time); lia.
    - destruct (time_lt (dt_time r1) cutoff_time) eqn:T1.
      + destruct (time_lt (dt_time r2) cutoff_time); lia.
      + rewrite (time_lt_cutoff_later _ _ T1 Ht). lia. }
  destruct (Z_le_gt_dec d1 d2) as [Hok | Hgt]; [ exact Hok | ].
  pose proof (rollback_is_weekday c1) as W1. rewrite <- E1 in W1.
  assert (W2 : 5 <= weekday d1).
  { apply (rollback_skips_weekend_only c2). rewrite <- E2. lia. }
  lia.
Qed.

Lemma get_pdf_date_monotone_witness :
  ymd2ord 2025 10 24 <= ymd2ord 2025 10 27.
Proof.
  apply (get_pdf_date_monotone
           (mk_datetime (ymd2ord 2025 10 27) (mk_time 12 0 0 0))
           (mk_datetime (ymd2ord 2025 10 27) (mk_time 18 0 0 0))).
  - unfold valid_date. vm_compute. split; discriminate.
  - unfold valid_date. vm_compute. split; discriminate.
  - right. split; reflexivity.
  - reflexivity.
  - reflexivity.
Defined.

(** On the first day of the calendar, before the cutoff, the day before
    does not exist and [get_pdf_date] raises [OverflowError]. *)
Theorem get_pdf_date_overflow (t : time) :
  time_lt t cutoff_time = true ->
  get_pdf_date (mk_datetime MINORDINAL t) = Raise OverflowError.
Proof.
  intros H. unfold get_pdf_date. cbn [dt_date dt_time]. rewrite H. reflexivity.
Qed.

Lemma get_pdf_date_overflow_witness :
  get_pdf_date (mk_datetime MINORDINAL (mk_time 0 0 0 0)) = Raise OverflowError.
Proof.
  apply (get_pdf_date_overflow (mk_time 0 0 0 0)). reflexivity.
Defined.

(** ** The retry loop of [send_webhook] *)

Lemma range_cons (a b : Z) : a < b -> range a b = a :: range (a + 1) b.
Proof.
  intros H. unfold range.
  replace (Z.to_nat (b - a)) with (S (Z.to_nat (b - (a + 1)))) by lia.
  cbn [seq map]. f_equal; [ lia | ].
  rewrite <- seq_shift, map_map. apply map_ext. intros i. lia.
Qed.

Lemma send_attempts_all_fail (W : World) (max_retries : Z) (target payload : pystr)
  (n : nat) :
  forall (a : Z) (s : State),
    Z.of_nat n = max_retries + 1 - a ->
    (forall i, (i < n)%nat ->
       delivered (http_post W (tick s + i) target payload) = false) ->
    send_attempts W max_retries target payload (range a (max_retries + 1)) s
    = (Ok false, after_posts n target payload s).
Proof.
  induction n as [ | n IH]; intros a s Hn Hfail.
  - rewrite range_nil by lia. reflexivity.
  - rewrite range_cons by lia. cbn [send_attempts]. rewrite mbind_eq, attempt_eq.
    pose proof (Hfail 0%nat ltac:(lia)) as H0. rewrite Nat.add_0_r in H0. rewrite H0.
    destruct (a =? max_retries) eqn:E.
    + apply Z.eqb_eq in E. destruct n; [ reflexivity | lia ].
    + apply Z.eqb_neq in E. cbn [after_posts]. apply IH; [ lia | ].
      intros i Hi. cbn [after_post tick].
      replace (S (tick s) + i)%nat with (tick s + S i)%nat by lia.
      apply Hfail. lia.
Qed.

Lemma send_attempts_first_success (W : World) (max_retries : Z) (target payload : pystr)
  (j : nat) :
  forall (a : Z) (s : State),
    a + Z.of_nat j <= max_retries ->
    (forall i, (i < j)%nat ->
       delivered (http_post W (tick s + i) target payload) = false) ->
    delivered (http_post W (tick s + j) target payload) = true ->
    send_attempts W max_retries target payload (range a (max_retries + 1)) s
    = (Ok true, after_posts (S j) target payload s).
Proof.
  induction j as [ | j IH]; intros a s Ha Hfail Hok.
  - rewrite range_cons by lia. cbn [send_attempts]. rewrite mbind_eq, attempt_eq.
    rewrite Nat.add_0_r in Hok. rewrite Hok. reflexivity.
  - rewrite range_cons by lia. cbn [send_attempts]. rewrite mbind_eq, attempt_eq.
    pose proof (Hfail 0%nat ltac:(lia)) as H0. rewrite Nat.add_0_r in H0. rewrite H0.
    assert (E : (a =? max_retries) = false) by (apply Z.eqb_neq; lia). rewrite E.
    cbn [after_posts]. apply IH.
    + lia.
    + intros i Hi. cbn [after_post tick].
      replace (S (tick s) + i)%nat with (tick s + S i)%nat by lia.
      apply Hfail. lia.
    + cbn [after_post tick].
      replace (S (tick s) + j)%nat with (tick s + S j)%nat by lia. exact Hok.
Qed.

(** [send_webhook] stops at the first request that goes through: when
    the request number [j + 1] is the first one answered without error
    and is within the maximum, exactly [j + 1] requests are sent and the
    result is [True]. *)
Theorem send_webhook_stops_at_first_success (W : World) (target payload : pystr)
  (s : State) (j : nat) :
  Z.of_nat j < WEBHOOK_MAX_RETRIES (settings W) ->
  (forall i, (i < j)%nat ->
     delivered (http_post W (tick s + i) target payload) = false) ->
  delivered (http_post W (tick s + j) target payload) = true ->
  send_webhook W target payload s = (Ok true, after_posts (S j) target payload s)
  /\ posts (snd (send_webhook W target payload s))
     = repeat (target, payload) (S j) ++ posts s.
Proof.
  intros Hj Hfail Hok. unfold send_webhook.
  rewrite (send_attempts_first_success W (WEBHOOK_MAX_RETRIES (settings W)) target payload
             j 1 s ltac:(lia) Hfail Hok).
  split; [ reflexivity | ].
  cbn [snd]. apply after_posts_fields.
Qed.

(** When every request fails, [send_webhook] sends exactly
    [max_retries] requests and answers [False]. *)
Theorem send_webhook_exhausts_retries (W : World) (target payload : pystr) (s : State) :
  0 <= WEBHOOK_MAX_RETRIES (settings W) ->
  (forall i, (i < Z.to_nat (WEBHOOK_MAX_RETRIES (settings W)))%nat ->
     delivered (http_post W (tick s + i) target payload) = false) ->
  send_webhook W target payload s
  = (Ok false,
     after_posts (Z.to_nat (WEBHOOK_MAX_RETRIES (settings W))) target payload s)
  /\ posts (snd (send_webhook W target payload s))
     = repeat (target, payload) (Z.to_nat (WEBHOOK_MAX_RETRIES (settings W))) ++ posts s.
Proof.
  intros Hmax Hfail. unfold send_webhook.
  rewrite (send_attempts_all_fail W (WEBHOOK_MAX_RETRIES (settings W)) target payload
             (Z.to_nat (WEBHOOK_MAX_RETRIES (settings W))) 1 s ltac:(lia) Hfail).
  split; [ reflexivity | ].
  cbn [snd]. apply after_posts_fields.
Qed.

Lemma send_webhook_stops_at_first_success_witness :
  send_webhook flaky_world hook_a (py "{}") empty_state
  = (Ok true, after_posts 2 hook_a (py "{}") empty_state).
Proof.
  apply (send_webhook_stops_at_first_success flaky_world hook_a (py "{}") empty_state 1).
  - cbn. lia.
  - intros i Hi. destruct i; [ reflexivity | lia ].
  - reflexivity.
Defined.

Lemma send_webhook_exhausts_retries_witness :
  send_webhook b_is_down hook_b (py "{}") empty_state
  = (Ok false, after_posts 3 hook_b (py "{}") empty_state).
Proof.
  apply (send_webhook_exhausts_retries b_is_down hook_b (py "{}") empty_state).
  - cbn. lia.
  - intros i Hi. reflexivity.
Defined.

(** ** The extraction of the indicators *)

Lemma match_indicator_eq (W : World) (text : pystr) (i : Indicators) (key : indicator_key) :
  match_indicator W text i key
  = Ok match get_indicator key i with
       | Some _ => i
       | None => match indicator_from W text key with
                 | Some v => set_indicator key v i
                 | None => i
                 end
       end.
Proof.
  unfold match_indicator, indicator_from.
  destruct (get_indicator key i); [ reflexivity | ].
  destruct (re_search W key text) as [g | ]; [ | reflexivity ].
  destruct (py_float (replace COMMA (py ".") g)) as [v | e] eqn:E; [ reflexivity | ].
  apply py_float_raises in E. subst e. reflexivity.
Qed.

(** [extract_indicators] never raises. Each indicator is present exactly
    when its own pattern matches and the number matched is read, whatever
    the other patterns do; a file that cannot be read and a bulletin
    without text give the four indicators absent. *)
Theorem extract_indicators_independent (W : World) (pdf_path : pystr) :
  extract_indicators W pdf_path
  = Ok match pdf_pages W pdf_path with
       | Raise _ => no_indicators
       | Ok pages =>
           if is_empty (strip (bulletin_text pages)) then no_indicators
           else
             let text := collapse_whitespace false (bulletin_text pages) in
             mk_indicators (indicator_from W text key_taux_rendement_moyen)
                           (indicator_from W text key_per_moyen)
                           (indicator_from W text key_taux_rentabilite_moyen)
                           (indicator_from W text key_prime_risque_marche)
       end.
Proof.
  unfold extract_indicators. fold bulletin_text.
  destruct (pdf_pages W pdf_path) as [pages | e]; [ | reflexivity ].
  cbn [bind]. change (fold_left _ pages []) with (bulletin_text pages).
  destruct (is_empty (strip (bulletin_text pages))); [ reflexivity | ].
  cbv zeta. set (text := collapse_whitespace false (bulletin_text pages)).
  unfold pattern_keys. cbn [match_indicators].
  rewrite match_indicator_eq. cbn [bind get_indicator no_indicators per_moyen].
  destruct (indicator_from W text key_per_moyen) as [v1 | ];
    rewrite match_indicator_eq;
    cbn [bind get_indicator set_indicator no_indicators taux_rendement_moyen
         per_moyen taux_rentabilite_moyen prime_risque_marche];
    destruct (indicator_from W text key_taux_rendement_moyen) as [v2 | ];
    rewrite match_indicator_eq;
    cbn [bind get_indicator set_indicator no_indicators taux_rendement_moyen
         per_moyen taux_rentabilite_moyen prime_risque_marche];
    destruct (indicator_from W text key_taux_rentabilite_moyen) as [v3 | ];
    rewrite match_indicator_eq;
    cbn [bind get_indicator set_indicator no_indicators taux_rendement_moyen
         per_moyen taux_rentabilite_moyen prime_risque_marche];
    destruct (indicator_from W text key_prime_risque_marche) as [v4 | ];
    reflexivity.
Qed.

(** ** The retention *)

(** Entered with no transaction open, [cleanup_old_data] never raises.
    Either it deletes exactly the reports dated before the cutoff and
    returns their number, or (the cutoff falls outside the calendar, or
    the database fails) it returns 0 and leaves the store as it was. *)
Theorem cleanup_old_data_outcome (W : World) (s : State) :
  session_clean s ->
  exists (n : Z) (s' : State),
    cleanup_old_data W s = (Ok n, s')
    /\ session_clean s'
    /\ ((n = 0 /\ committed s' = committed s)
        \/ exists cutoff,
             date_sub_days (dt_date (clock W (tick s))) (DATA_RETENTION_DAYS (settings W))
             = Ok cutoff
             /\ committed s'
                = with_indicateurs (committed s)
                    (retained cutoff (indicateurs_marche (committed s)))
             /\ n = Z.of_nat (List.length (indicateurs_marche (committed s))
                              - List.length (retained cutoff
                                               (indicateurs_marche (committed s)))))
    /\ (forall e,
          date_sub_days (dt_date (clock W (tick s))) (DATA_RETENTION_DAYS (settings W))
          = Raise e ->
          n = 0 /\ committed s' = committed s).
Proof.
  intros [Hp Hq]. destruct s as [C P Q t po]. cbn in Hp, Hq. subst P Q.
  cbn [committed tick].
  unfold cleanup_old_data, retained. run.
  destruct (date_sub_days (dt_date (clock W t)) (DATA_RETENTION_DAYS (settings W)))
    as [cutoff | e]; cbn.
  - destruct (db_fails W (S t)); cbn.
    + eexists. eexists. split; [ reflexivity | ]. cbn.
      split; [ split; reflexivity | ]. split; [ left; auto | intros; discriminate ].
    + destruct (db_fails W (S (S t))); cbn.
      * eexists. eexists. split; [ reflexivity | ]. cbn.
        split; [ split; reflexivity | ]. split; [ left; auto | intros; discriminate ].
      * rewrite merge_no_rows. eexists. eexists. split; [ reflexivity | ]. cbn.
        split; [ split; reflexivity | ]. split; [ | intros; discriminate ].
        right. exists cutoff. auto.
  - eexists. eexists. split; [ reflexivity | ]. cbn.
    split; [ split; reflexivity | ]. split; [ left; auto | auto ].
Qed.

Lemma cleanup_old_data_outcome_witness :
  exists (n : Z) (s' : State),
    cleanup_old_data bulletin_world two_reports = (Ok n, s')
    /\ session_clean s'.
Proof.
  destruct (cleanup_old_data_outcome bulletin_world two_reports)
    as (n & s' & H & Hc & _).
  - split; reflexivity.
  - exists n, s'. split; assumption.
Defined.

Lemma retained_idempotent (cutoff : date) (rows : list IndicateurMarche) :
  retained cutoff (retained cutoff rows) = retained cutoff rows.
Proof.
  unfold retained. induction rows as [ | r rest IH]; [ reflexivity | ].
  cbn. destruct (negb (date_rapport r <? cutoff)) eqn:E; [ | exact IH ].
  cbn. rewrite E, IH. reflexivity.
Qed.

(** Running the retention again with the same cutoff deletes nothing. *)
Theorem cleanup_old_data_idempotent (W : World) (s : State) (cutoff : date) :
  session_clean s ->
  (forall k, db_fails W k = false) ->
  date_sub_days (dt_date (clock W (tick s))) (DATA_RETENTION_DAYS (settings W))
  = Ok cutoff ->
  date_sub_days (dt_date (clock W (tick s + 3))) (DATA_RETENTION_DAYS (settings W))
  = Ok cutoff ->
  exists (n : Z) (s1 s2 : State),
    cleanup_old_data W s = (Ok n, s1)
    /\ cleanup_old_data W s1 = (Ok 0, s2)
    /\ committed s2 = committed s1.
Proof.
  intros Hclean Hdb H1 H2.
  rewrite (cleanup_old_data_ok W s cutoff Hclean H1 (Hdb _) (Hdb _)).
  eexists. eexists. eexists. split; [ reflexivity | ].
  match goal with
  | |- cleanup_old_data W ?s1 = _ /\ _ =>
      rewrite (cleanup_old_data_ok W s1 cutoff (conj eq_refl eq_refl))
  end.
  - cbn [committed indicateurs_marche with_indicateurs].
    rewrite retained_idempotent, Nat.sub_diag. split; [ reflexivity | ].
    cbn [committed]. destruct (committed s). reflexivity.
  - cbn [tick]. replace (S (S (S (tick s)))) with (tick s + 3)%nat by lia. exact H2.
  - apply Hdb.
  - apply Hdb.
Qed.

Lemma cleanup_old_data_idempotent_witness :
  exists (n : Z) (s1 s2 : State),
    cleanup_old_data bulletin_world two_reports = (Ok n, s1)
    /\ cleanup_old_data bulletin_world s1 = (Ok 0, s2)
    /\ committed s2 = committed s1.
Proof.
  apply (cleanup_old_data_idempotent bulletin_world two_reports (ymd2ord 2025 8 28)).
  - split; reflexivity.
  - intros k. reflexivity.
  - vm_compute. reflexivity.
  - vm_compute. reflexivity.
Defined.

(** ** The daily cycle and the retention window *)

Lemma process_daily_pdf_ok (W : World) (target_date : option date) (s : State)
  (d : date) (i : Indicators) (cutoff : date) :
  target_of W target_date s = Ok d ->
  let pdf_url := fst (generate_pdf_url d) in
  let filename := snd (generate_pdf_url d) in
  let filepath := path_join (DOWNLOADS_DIR (settings W)) filename in
  let n0 := (tick s + target_ticks target_date)%nat in
  let n1 := if already_local W n0 filename then S n0 else S (S n0) in
  already_local W n0 filename || download_succeeds W (S n0) pdf_url filename = true ->
  extract_indicators W filepath = Ok i ->
  all_none i = false ->
  session_clean s ->
  (forall k, db_fails W k = false) ->
  date_sub_days (dt_date (clock W (S (S n1)))) (DATA_RETENTION_DAYS (settings W))
  = Ok cutoff ->
  exists s3 : State,
    process_daily_pdf W target_date s = (Ok true, s3)
    /\ indicateurs_marche (committed s3)
       = retained cutoff
           (upsert_report (indicateurs_marche (committed s)) (mk_indicateur d i pdf_url)).
Proof.
  intros Htarget pdf_url filename filepath n0 n1 Hc He Ha Hclean Hdb Hcut.
  rewrite (process_daily_pdf_target W target_date s d Htarget), process_daily_pdf_eq.
  cbv zeta. cbn [tick committed persistent pending posts].
  fold pdf_url filename filepath n0. fold n1.
  rewrite Hc, He, Ha, mbind_eq.
  set (s1 := mk_state (committed s) (persistent s) (pending s) n1 (posts s)).
  assert (Hclean1 : session_clean s1) by exact Hclean.
  rewrite (pdf_save_to_database_ok W i pdf_url d s1 (Hdb _) (Hdb _) Hclean1), mbind_eq.
  cbn [tick committed persistent pending posts s1].
  match goal with
  | |- context [cleanup_old_data W ?s2] =>
      rewrite (cleanup_old_data_ok W s2 cutoff (conj eq_refl eq_refl) Hcut (Hdb _) (Hdb _))
  end.
  eexists. split; reflexivity.
Qed.

Lemma retained_other_date (cutoff d : date) (rows : list IndicateurMarche) :
  d < cutoff -> count_date d (retained cutoff rows) = 0%nat.
Proof.
  intros H. unfold count_date, retained.
  induction rows as [ | r rest IH]; [ reflexivity | ].
  cbn. destruct (date_rapport r <? cutoff) eqn:E; cbn; [ exact IH | ].
  apply Z.ltb_ge in E.
  destruct (date_rapport r =? d) eqn:Ed; [ apply Z.eqb_eq in Ed; lia | exact IH ].
Qed.

(** A bulletin older than the retention window does not stay: on a
    database that answers, [process_daily_pdf] returns [True], yet the
    report it has just saved is in the store afterwards only if its date
    is not before the cutoff; for an older date no report of that date is
    left. *)
Theorem process_daily_pdf_old_bulletin (W : World) (target_date : option date)
  (s : State) (d : date) (i : Indicators) (cutoff : date) :
  target_of W target_date s = Ok d ->
  let pdf_url := fst (generate_pdf_url d) in
  let filename := snd (generate_pdf_url d) in
  let filepath := path_join (DOWNLOADS_DIR (settings W)) filename in
  let n0 := (tick s + target_ticks target_date)%nat in
  let n1 := if already_local W n0 filename then S n0 else S (S n0) in
  already_local W n0 filename || download_succeeds W (S n0) pdf_url filename = true ->
  extract_indicators W filepath = Ok i ->
  all_none i = false ->
  session_clean s ->
  (forall k, db_fails W k = false) ->
  date_sub_days (dt_date (clock W (S (S n1)))) (DATA_RETENTION_DAYS (settings W))
  = Ok cutoff ->
  exists s3 : State,
    process_daily_pdf W target_date s = (Ok true, s3)
    /\ (In (mk_indicateur d i pdf_url) (indicateurs_marche (committed s3))
        <-> cutoff <= d)
    /\ (d < cutoff -> count_date d (indicateurs_marche (committed s3)) = 0%nat).
Proof.
  intros Htarget pdf_url filename filepath n0 n1 Hc He Ha Hclean Hdb Hcut.
  destruct (process_daily_pdf_ok W target_date s d i cutoff Htarget Hc He Ha Hclean Hdb Hcut)
    as (s3 & Hrun & Hrows).
  exists s3. split; [ exact Hrun | ]. fold pdf_url in Hrows. rewrite Hrows. split.
  - rewrite retained_In. cbn [date_rapport]. split; [ intros [_ H]; exact H | ].
    intros H. split; [ | exact H ].
    apply (upsert_report_spec (indicateurs_marche (committed s)) (mk_indicateur d i pdf_url)).
  - apply retained_other_date.
Qed.

(** The bulletin of 2025-01-03, processed on 2025-10-27 with a window of
    60 days: [True] is returned and no report of that date is kept. *)
Lemma process_daily_pdf_old_bulletin_witness :
  exists s3 : State,
    process_daily_pdf bulletin_world (Some (ymd2ord 2025 1 3)) two_reports = (Ok true, s3)
    /\ count_date (ymd2ord 2025 1 3) (indicateurs_marche (committed s3)) = 0%nat.
Proof.
  destruct (process_daily_pdf_old_bulletin bulletin_world (Some (ymd2ord 2025 1 3))
              two_reports (ymd2ord 2025 1 3)
              (per_only (S754_finite false 6946802425218990 (-49)))
              (ymd2ord 2025 8 28) eq_refl)
    as (s3 & Hrun & _ & Hgone).
  - reflexivity.
  - vm_compute. reflexivity.
  - reflexivity.
  - split; reflexivity.
  - intros k. reflexivity.
  - vm_compute. reflexivity.
  - exists s3. split; [ exact Hrun | ]. apply Hgone. vm_compute. reflexivity.
Defined.

(** ** The scraper's accounting *)

(** What one turn of the loop of [save_to_database] keeps, for any
    behaviour of the database. *)
Lemma save_action_invariant (W : World) (stats : ScrapeStats) (a : action_dict) (s : State) :
  exists stats' s',
    save_action W stats a s = (Ok stats', s')
    /\ committed s' = committed s
    /\ posts s' = posts s
    /\ map symbole (actions (persistent s')) = map symbole (actions (persistent s))
    /\ historique_actions (persistent s') = historique_actions (persistent s)
    /\ indicateurs_marche (persistent s') = indicateurs_marche (persistent s)
    /\ webhook_subscriptions (persistent s') = webhook_subscriptions (persistent s)
    /\ indicateurs_marche (pending s') = indicateurs_marche (pending s)
    /\ webhook_subscriptions (pending s') = webhook_subscriptions (pending s)
    /\ (exists ins upd err : nat,
          (ins + upd + err = 1)%nat
          /\ inserted stats' = inserted stats + Z.of_nat ins
          /\ updated stats' = updated stats + Z.of_nat upd
          /\ errors stats' = errors stats + Z.of_nat err
          /\ List.length (actions (pending s'))
             = (List.length (actions (pending s)) + ins)%nat
          /\ List.length (historique_actions (pending s'))
             = (List.length (historique_actions (pending s)) + ins + upd)%nat).
Proof.
  unfold save_action, query_action, add_snapshot. run.
  destruct (db_fails W (tick s)); cbn.
  - eexists. eexists. split; [ reflexivity | ]. cbn.
    repeat (split; [ reflexivity | ]).
    exists 0%nat, 0%nat, 1%nat. cbn. repeat split; lia.
  - change (fun a0 : action_dict => pystr_eqb (symbole a0) (symbole a)) with (same_symbol a).
    destruct (find_index (same_symbol a) (actions (persistent s))) as [i | ] eqn:E; cbn.
    + eexists. eexists. split; [ reflexivity | ]. cbn.
      split; [ reflexivity | ]. split; [ reflexivity | ].
      split; [ apply update_nth_symbols; exact E | ].
      repeat (split; [ reflexivity | ]).
      exists 0%nat, 1%nat, 0%nat. cbn. rewrite length_app. cbn. repeat split; lia.
    + eexists. eexists. split; [ reflexivity | ]. cbn.
      repeat (split; [ reflexivity | ]).
      exists 1%nat, 0%nat, 0%nat. cbn. rewrite !length_app. cbn. repeat split; lia.
Qed.

Lemma save_actions_invariant (W : World) (l : list action_dict) :
  forall (stats : ScrapeStats) (s : State),
  exists stats' s',
    save_actions W stats l s = (Ok stats', s')
    /\ committed s' = committed s
    /\ posts s' = posts s
    /\ map symbole (actions (persistent s')) = map symbole (actions (persistent s))
    /\ historique_actions (persistent s') = historique_actions (persistent s)
    /\ indicateurs_marche (persistent s') = indicateurs_marche (persistent s)
    /\ webhook_subscriptions (persistent s') = webhook_subscriptions (persistent s)
    /\ indicateurs_marche (pending s') = indicateurs_marche (pending s)
    /\ webhook_subscriptions (pending s') = webhook_subscriptions (pending s)
    /\ (exists ins upd err : nat,
          (ins + upd + err = List.length l)%nat
          /\ inserted stats' = inserted stats + Z.of_nat ins
          /\ updated stats' = updated stats + Z.of_nat upd
          /\ errors stats' = errors stats + Z.of_nat err
          /\ List.length (actions (pending s'))
             = (List.length (actions (pending s)) + ins)%nat
          /\ List.length (historique_actions (pending s'))
             = (List.length (historique_actions (pending s)) + ins + upd)%nat).
Proof.
  induction l as [ | a rest IH]; intros stats s.
  - exists stats, s. split; [ reflexivity | ]. repeat (split; [ reflexivity | ]).
    exists 0%nat, 0%nat, 0%nat. cbn. repeat split; lia.
  - cbn [save_actions]. rewrite mbind_eq.
    destruct (save_action_invariant W stats a s)
      as (st1 & s1 & H1 & A1 & A2 & A3 & A4 & A5 & A6 & A7 & A8
          & i1 & u1 & e1 & B1 & B2 & B3 & B4 & B5 & B6).
    rewrite H1.
    destruct (IH st1 s1)
      as (st2 & s2 & H2 & C1 & C2 & C3 & C4 & C5 & C6 & C7 & C8
          & i2 & u2 & e2 & D1 & D2 & D3 & D4 & D5 & D6).
    exists st2, s2. split; [ exact H2 | ].
    repeat (split; [ congruence | ]).
    exists (i1 + i2)%nat, (u1 + u2)%nat, (e1 + e2)%nat. cbn [List.length].
    repeat split; lia.
Qed.

(** Whenever [BRVMScraper.save_to_database] returns, whatever the
    database did on the way, every quote is counted once as inserted,
    updated or in error; the store gains one quote per insertion and one
    history snapshot per insertion or update. *)
Theorem scraper_save_accounting (W : World) (l : list action_dict)
  (s s' : State) (stats : ScrapeStats) :
  session_clean s ->
  scraper_save_to_database W l s = (Ok stats, s') ->
  inserted stats + updated stats + errors stats = Z.of_nat (List.length l)
  /\ 0 <= inserted stats /\ 0 <= updated stats /\ 0 <= errors stats
  /\ Z.of_nat (List.length (actions (committed s')))
     = Z.of_nat (List.length (actions (committed s))) + inserted stats
  /\ Z.of_nat (List.length (historique_actions (committed s')))
     = Z.of_nat (List.length (historique_actions (committed s)))
       + inserted stats + updated stats.
Proof.
  intros [Hp Hq] Hrun.
  unfold scraper_save_to_database, mtry in Hrun. rewrite mbind_eq in Hrun.
  destruct (save_actions_invariant W l (mk_scrape_stats 0 0 0) s)
    as (st1 & s1 & H1 & A1 & A2 & A3 & A4 & A5 & A6 & A7 & A8
        & ins & upd & err & B1 & B2 & B3 & B4 & B5 & B6).
  rewrite H1, mbind_eq in Hrun.
  unfold commit, mbind, ret, raise, get_state, next_tick, rollback, catch_Exception in Hrun.
  cbn in Hrun.
  destruct (db_fails W (tick s1) || negb (flush_accepted (persistent s1) (pending s1)));
    cbn in Hrun; [ discriminate | ].
  injection Hrun as <- <-. cbn [committed merge_tables actions historique_actions].
  cbn [inserted updated errors] in *.
  rewrite !length_app, B5, B6, A4, Hq.
  assert (Hlen : List.length (actions (persistent s1)) = List.length (actions (persistent s))).
  { rewrite <- (length_map symbole), A3, length_map. reflexivity. }
  rewrite Hlen, Hp. cbn [no_rows actions historique_actions List.length].
  repeat split; lia.
Qed.

Lemma scraper_save_accounting_witness :
  exists (stats : ScrapeStats) (s' : State),
    scraper_save_to_database quiet_world [sample_quote] empty_state = (Ok stats, s')
    /\ inserted stats + updated stats + errors stats = 1.
Proof.
  assert (H : exists stats s',
            scraper_save_to_database quiet_world [sample_quote] empty_state = (Ok stats, s'))
    by (eexists; eexists; vm_compute; reflexivity).
  destruct H as (stats & s' & Hrun). exists stats, s'. split; [ exact Hrun | ].
  apply (scraper_save_accounting quiet_world [sample_quote] empty_state s' stats).
  - split; reflexivity.
  - exact Hrun.
Defined.

Lemma fresh_keys_inv (new existing : list pystr) :
  fresh_keys pystr_eqb existing new = true ->
  NoDup new /\ forall k, In k new -> ~ In k existing.
Proof.
  revert existing. induction new as [ | k r IH]; intros existing H.
  - split; [ constructor | intros k [] ].
  - cbn in H. apply andb_prop in H. destruct H as [Hk Hr].
    destruct (IH _ Hr) as [Hnd Hdis].
    assert (Hke : ~ In k existing).
    { intros Hin. apply negb_true_iff in Hk.
      assert (Ht : existsb (pystr_eqb k) existing = true).
      { apply existsb_exists. exists k. split; [ exact Hin | apply pystr_eqb_eq; reflexivity ]. }
      congruence. }
    split.
    + constructor; [ | exact Hnd ]. intros Hin. apply (Hdis k Hin). left. reflexivity.
    + intros x [<- | Hx]; [ exact Hke | ].
      intros Hin. apply (Hdis x Hx). right. exact Hin.
Qed.

(** A page that lists a symbol not yet stored twice makes the unit of
    work fail: the second quote is added as a second new row (queries do
    not see the first, which is not flushed), the commit violates the
    unique key, and [save_to_database] rolls back and raises. *)
Theorem scraper_save_repeated_new_symbol (W : World) (l : list action_dict) (s : State) :
  (forall n, db_fails W n = false) ->
  session_clean s ->
  ~ NoDup (map symbole (filter (fun a => negb (known_symbol (actions (committed s)) a)) l)) ->
  scraper_save_to_database W l s
  = (Raise SQLAlchemyError,
     mk_state (committed s) (committed s) no_rows (S (tick s + List.length l)) (posts s)).
Proof.
  intros Hdb [Hp Hq] Hdup.
  destruct s as [C P Q t po]. cbn in Hp, Hq. subst P Q. cbn [committed tick posts] in *.
  unfold scraper_save_to_database, mtry. rewrite mbind_eq, (save_actions_spec W Hdb).
  cbn [committed persistent pending tick posts inserted updated errors
       actions historique_actions no_rows app].
  unfold commit. run. rewrite Hdb. cbn [orb].
  destruct (flush_accepted _ _) eqn:Hflush; [ | reflexivity ].
  exfalso. apply Hdup.
  unfold flush_accepted in Hflush.
  cbn [actions with_actions with_historique] in Hflush.
  apply andb_prop in Hflush. destruct Hflush as [Hflush _].
  apply andb_prop in Hflush. destruct Hflush as [Hflush _].
  apply fresh_keys_inv in Hflush. exact (proj1 Hflush).
Qed.

Lemma scraper_save_repeated_new_symbol_witness :
  scraper_save_to_database quiet_world [sample_quote; sample_quote] empty_state
  = (Raise SQLAlchemyError, mk_state no_rows no_rows no_rows 3 []).
Proof.
  apply (scraper_save_repeated_new_symbol quiet_world [sample_quote; sample_quote]
                                          empty_state).
  - intros n. reflexivity.
  - split; reflexivity.
  - intros H. vm_compute in H. inversion H as [ | x r Hx Hr]. apply Hx. left. reflexivity.
Defined.

Lemma prefix_of_refl {A : Type} (l : list A) : prefix_of l l.
Proof. exists []. rewrite app_nil_r. reflexivity. Qed.

(** [scrape_and_save] only adds to the store: whenever it returns, the
    quotes that were stored are still there, in place and under the same
    symbols, the history holds what it held followed by the new
    snapshots, and the reports and subscribers are untouched. *)
Theorem scrape_and_save_append_only (W : World) (s s' : State) (stats : ScrapeStats) :
  session_clean s ->
  scrape_and_save W s = (Ok stats, s') ->
  prefix_of (map symbole (actions (committed s))) (map symbole (actions (committed s')))
  /\ prefix_of (historique_actions (committed s)) (historique_actions (committed s'))
  /\ indicateurs_marche (committed s') = indicateurs_marche (committed s)
  /\ webhook_subscriptions (committed s') = webhook_subscriptions (committed s).
Proof.
  intros [Hp Hq] Hrun.
  assert (Hsame : forall st, (Ok (mk_scrape_stats 0 0 1),
                              mk_state (committed s) (persistent s) (pending s)
                                       (S (tick s)) (posts s)) = (Ok stats, st) ->
                  prefix_of (map symbole (actions (committed s)))
                            (map symbole (actions (committed st)))
                  /\ prefix_of (historique_actions (committed s))
                               (historique_actions (committed st))
                  /\ indicateurs_marche (committed st) = indicateurs_marche (committed s)
                  /\ webhook_subscriptions (committed st) = webhook_subscriptions (committed s)).
  { intros st H. injection H as _ <-. cbn.
    split; [ apply prefix_of_refl | ]. split; [ apply prefix_of_refl | auto ]. }
  unfold scrape_and_save in Hrun. rewrite mbind_eq, fetch_page_eq in Hrun.
  destruct (page_text W (tick s)) as [html | ]; [ | apply Hsame; exact Hrun ].
  destruct (is_empty html); [ apply Hsame; exact Hrun | ].
  rewrite mbind_eq in Hrun. unfold lift in Hrun.
  destruct (parse_actions_returns (BeautifulSoup W) html) as (l & Hl). rewrite Hl in Hrun.
  destruct (is_empty l); [ apply Hsame; exact Hrun | ].
  clear Hsame.
  unfold scraper_save_to_database, mtry in Hrun. rewrite mbind_eq in Hrun.
  match type of Hrun with
  | context [save_actions W ?st0 l ?s0] =>
      destruct (save_actions_invariant W l st0 s0)
        as (st1 & s1 & H1 & A1 & A2 & A3 & A4 & A5 & A6 & A7 & A8 & _)
  end.
  rewrite H1, mbind_eq in Hrun.
  unfold commit, mbind, ret, raise, get_state, next_tick, rollback, catch_Exception in Hrun.
  cbn in Hrun.
  destruct (db_fails W (tick s1) || negb (flush_accepted (persistent s1) (pending s1)));
    cbn in Hrun; [ discriminate | ].
  injection Hrun as _ <-.
  cbn [committed persistent pending merge_tables actions historique_actions
       indicateurs_marche webhook_subscriptions] in *.
  rewrite Hp in A3, A4, A5, A6. rewrite Hq in A7, A8. cbn [no_rows indicateurs_marche
    webhook_subscriptions] in A7, A8.
  split; [ rewrite map_app, A3; eexists; reflexivity | ].
  split; [ rewrite A4; eexists; reflexivity | ].
  rewrite A5, A6, A7, A8, !app_nil_r. auto.
Qed.

(** A second page saved on a store that holds two quotes and a
    snapshot: the two quotes keep their places and symbols, the
    snapshot stays first in the history and two are added after it. *)
Lemma scrape_and_save_append_only_witness :
  exists (stats : ScrapeStats) (s' : State),
    scrape_and_save (with_page quiet_world second_page) stocked = (Ok stats, s')
    /\ prefix_of [py "ABCD"; py "WXYZ"] (map symbole (actions (committed s')))
    /\ prefix_of [mk_snapshot (py "ABCD")
                    (mk_action (py "ABCD") (py "Ancienne") 1 None None None None)]
                 (historique_actions (committed s'))
    /\ map symbole (actions (committed s')) = [py "ABCD"; py "WXYZ"; py "EFGH"]
    /\ List.length (historique_actions (committed s')) = 3%nat.
Proof.
  assert (H : exists stats s',
            scrape_and_save (with_page quiet_world second_page) stocked = (Ok stats, s')
            /\ map symbole (actions (committed s')) = [py "ABCD"; py "WXYZ"; py "EFGH"]
            /\ List.length (historique_actions (committed s')) = 3%nat)
    by (eexists; eexists; vm_compute; repeat split).
  destruct H as (stats & s' & Hrun & Hsym & Hlen). exists stats, s'.
  destruct (scrape_and_save_append_only (with_page quiet_world second_page)
              stocked s' stats) as (Ha & Hh & _).
  - split; reflexivity.
  - exact Hrun.
  - split; [ exact Hrun | ]. split; [ exact Ha | ]. split; [ exact Hh | ].
    split; [ exact Hsym | exact Hlen ].
Defined.

(** ** The parser, continued *)

Lemma node_nested_ind (P : node -> Prop) :
  (forall s, P (NavigableString s)) ->
  (forall s, P (Comment s)) ->
  (forall name attrs contents, Forall P contents -> P (Tag name attrs contents)) ->
  forall n, P n.
Proof.
  intros Hs Hc Ht. fix IH 1. intros [s | s | name attrs contents].
  - apply Hs.
  - apply Hc.
  - apply Ht. induction contents as [ | c r IHr]; constructor; [ apply IH | exact IHr ].
Qed.

Lemma descendants_tag (name : pystr) (attrs : list (pystr * attr_value))
  (contents : list node) (x : node) :
  In x (descendants (Tag name attrs contents))
  <-> exists c, In c contents /\ (x = c \/ In x (descendants c)).
Proof.
  cbn [descendants].
  induction contents as [ | c r IH].
  - split; [ intros [] | intros (c & [] & _) ].
  - cbn. rewrite in_app_iff, IH. split.
    + intros [H | [H | (c' & Hc' & H)]].
      * exists c. split; [ left; reflexivity | left; symmetry; exact H ].
      * exists c. split; [ left; reflexivity | right; exact H ].
      * exists c'. split; [ right; exact Hc' | exact H ].
    + intros (c' & [<- | Hc'] & [H | H]).
      * left. symmetry. exact H.
      * right. left. exact H.
      * right. right. exists c'. auto.
      * right. right. exists c'. auto.
Qed.

Lemma descendants_trans (z : node) :
  forall x y, In y (descendants z) -> In x (descendants y) -> In x (descendants z).
Proof.
  induction z as [s | s | name attrs contents IH] using node_nested_ind;
    intros x y Hy Hx; try contradiction.
  apply descendants_tag in Hy. destruct Hy as (c & Hc & [-> | Hy]).
  - apply descendants_tag. exists c. auto.
  - apply descendants_tag. exists c. split; [ exact Hc | right ].
    rewrite Forall_forall in IH. apply (IH c Hc x y Hy Hx).
Qed.

Lemma find_all_descendant (n : node) (name : pystr) (criteria : list (pystr * list pystr))
  (x : node) :
  In x (find_all n name criteria) ->
  In x (descendants n) /\ tag_matches name criteria x = true.
Proof. unfold find_all. apply filter_In. Qed.

Lemma find_descendant (n : node) (name : pystr) (criteria : list (pystr * list pystr))
  (x : node) :
  find n name criteria = Some x ->
  In x (descendants n) /\ tag_matches name criteria x = true.
Proof.
  unfold find. intros H. apply find_all_descendant.
  destruct (find_all n name criteria) as [ | y r]; [ discriminate | ].
  injection H as ->. left. reflexivity.
Qed.

(** The rows [parse_actions] reads are [tr] elements of one table of the
    main section when the page has one: a table elsewhere on the page is
    never read then. Without a [tbody], rows holding a header cell are
    left out. *)
Theorem locate_rows_in_main_section (soup section : node) (rows : list node) :
  find soup (py "section") [(py "id", [py "block-system-main"])] = Some section ->
  locate_rows soup = Some rows ->
  exists table,
    In table (descendants section)
    /\ tag_matches (py "table") [] table = true
    /\ (forall row, In row rows ->
          In row (descendants table)
          /\ In row (descendants section)
          /\ tag_matches (py "tr") [] row = true
          /\ (find table (py "tbody") [] = None -> find row (py "th") [] = None)).
Proof.
  intros Hsec Hrows. unfold locate_rows in Hrows. rewrite Hsec in Hrows.
  assert (Htable : exists table,
            (match find section (py "table") [(py "class", [py "table-striped"])] with
             | Some t => Some t
             | None => find section (py "table") []
             end) = Some table
            /\ In table (descendants section)
            /\ tag_matches (py "table") [] table = true).
  { destruct (find section (py "table") [(py "class", [py "table-striped"])]) as [t | ] eqn:E1.
    - exists t. split; [ reflexivity | ].
      destruct (find_descendant _ _ _ _ E1) as [Hin Hm]. split; [ exact Hin | ].
      destruct t; try discriminate. cbn in *.
      apply andb_prop in Hm. destruct Hm as [Hm _]. rewrite Hm. reflexivity.
    - destruct (find section (py "table") []) as [t | ] eqn:E2; [ | discriminate ].
      exists t. split; [ reflexivity | ]. apply (find_descendant _ _ _ _ E2). }
  destruct Htable as (table & Ht & Hin & Hm). rewrite Ht in Hrows.
  exists table. split; [ exact Hin | ]. split; [ exact Hm | ].
  intros row Hrow.
  destruct (find table (py "tbody") []) as [tbody | ] eqn:Eb.
  - injection Hrows as <-.
    destruct (find_all_descendant _ _ _ _ Hrow) as [Hd Hr].
    destruct (find_descendant _ _ _ _ Eb) as [Hb _].
    pose proof (descendants_trans table row tbody Hb Hd) as Hrt.
    split; [ exact Hrt | ]. split; [ exact (descendants_trans section row table Hin Hrt) | ].
    split; [ exact Hr | discriminate ].
  - injection Hrows as <-. apply filter_In in Hrow. destruct Hrow as [Hrow Hth].
    destruct (find_all_descendant _ _ _ _ Hrow) as [Hd Hr].
    split; [ exact Hd | ]. split; [ exact (descendants_trans section row table Hin Hd) | ].
    split; [ exact Hr | ]. intros _.
    destruct (find row (py "th") []); [ discriminate | reflexivity ].
Qed.

(** On the page with a decoy table, only the row of the main section is
    read: the result has the quote "ABCD" and not "TOP1". *)
Lemma locate_rows_in_main_section_witness :
  exists section rows table,
    locate_rows decoy_page = Some rows
    /\ In table (descendants section)
    /\ map row_symbol rows = [py "ABCD"].
Proof.
  assert (Hs : exists section,
            find decoy_page (py "section") [(py "id", [py "block-system-main"])]
            = Some section)
    by (eexists; vm_compute; reflexivity).
  destruct Hs as (section & Hs).
  assert (Hr : exists rows, locate_rows decoy_page = Some rows
                            /\ map row_symbol rows = [py "ABCD"])
    by (eexists; split; vm_compute; reflexivity).
  destruct Hr as (rows & Hr & Hsym).
  destruct (locate_rows_in_main_section decoy_page section rows Hs Hr)
    as (table & Hin & _).
  exists section, rows, table. auto.
Defined.

(** No quote has an empty symbol, and there is at most one quote per
    row read. *)
Theorem parse_actions_one_quote_per_row (BS : pystr -> result node) (html_content : pystr) :
  exists actions_data : list action_dict,
    parse_actions BS html_content = Ok actions_data
    /\ (forall a, In a actions_data -> symbole a <> [])
    /\ (forall soup rows, BS html_content = Ok soup -> locate_rows soup = Some rows ->
        (List.length actions_data <= List.length rows)%nat).
Proof.
  eexists. split; [ apply parse_actions_eq | ]. split.
  - intros a Ha.
    destruct (BS html_content) as [soup | e]; [ | contradiction ].
    destruct (locate_rows soup) as [rows | ]; [ | contradiction ].
    apply in_flat_map in Ha. destruct Ha as (row & _ & Hin).
    destruct (quotes_of_row_cases row) as [Hq | (a' & Hq & Hs & Hn & _)];
      rewrite Hq in Hin; [ contradiction | ].
    destruct Hin as [<- | []]. exact Hn.
  - intros soup rows H1 H2. rewrite H1, H2. clear H1 H2.
    induction rows as [ | row rest IH]; [ cbn; lia | ].
    cbn [flat_map]. rewrite length_app. cbn [List.length].
    destruct (quotes_of_row_cases row) as [Hq | (a' & Hq & _)]; rewrite Hq;
      cbn [List.length]; lia.
Qed.

(** [parse_variation] never raises. It gives absence for an empty text
    and for a bare dash and otherwise the number [float] reads after
    cleaning, or absence when [float] rejects it; unlike the price
    cells, a variation cell holding "0" is read as the number zero. *)
Theorem parse_variation_eq (td_element : node) :
  parse_variation td_element
  = Ok (if is_empty (variation_text td_element)
           || pystr_eqb (variation_text td_element) (py "-")
        then None
        else match py_float (clean_decimal (variation_text td_element)) with
             | Ok f => Some f
             | Raise _ => None
             end)
  /\ parse_variation (text_cell "0") = Ok (Some (S754_zero false))
  /\ parse_float (get_text_strip (text_cell "0")) = Ok None.
Proof.
  split; [ | split; vm_compute; reflexivity ].
  unfold parse_variation. fold (variation_text td_element).
  destruct (is_empty (variation_text td_element)
            || pystr_eqb (variation_text td_element) (py "-")); [ reflexivity | ].
  cbv zeta.
  destruct (is_empty (clean_decimal (variation_text td_element))) eqn:Ec.
  - apply is_empty_nil in Ec. rewrite Ec. reflexivity.
  - destruct (py_float (clean_decimal (variation_text td_element))) as [f | e] eqn:Ef;
      [ reflexivity | ].
    apply py_float_raises in Ef. subst e. reflexivity.
Qed.

(** ** The dispatcher, continued *)

Lemma send_webhook_bound (W : World) (target payload : pystr) (s : State) :
  exists (b : bool) (k : nat),
    send_webhook W target payload s = (Ok b, after_posts k target payload s)
    /\ (k <= Z.to_nat (WEBHOOK_MAX_RETRIES (settings W)))%nat.
Proof.
  unfold send_webhook.
  destruct (send_attempts_spec W (WEBHOOK_MAX_RETRIES (settings W)) target payload
              (range 1 (WEBHOOK_MAX_RETRIES (settings W) + 1)) s)
    as (b & k & Hrun & Hk & _).
  exists b, k. split; [ exact Hrun | ].
  unfold range in Hk. rewrite length_map, length_seq in Hk. lia.
Qed.

Lemma record_delivery_posts (W : World) (ref : nat) (s : State) :
  posts (snd (mtry (t <~ now W ;; _ <~ set_last_triggered ref t ;; commit W)
                   (catch_Exception (fun _ => raise PendingRollbackError)) s))
  = posts s.
Proof.
  destruct s as [c p q t l]. unfold set_last_triggered. run.
  destruct (nth_error (webhook_subscriptions p) ref) as [w | ]; run;
    match goal with
    | |- context [if ?b then _ else _] => destruct b
    end; reflexivity.
Qed.

Lemma reload_posts (W : World) (expired : bool) (s : State) :
  posts (snd (reload W expired s)) = posts s.
Proof.
  unfold reload. destruct expired; [ | reflexivity ].
  unfold round_trip. run. destruct (db_fails W (tick s)); reflexivity.
Qed.

(** The requests of the loop, whether it returns or raises. *)
Lemma notify_webhooks_posts (W : World) (payload : pystr)
  (l : list (nat * WebhookSubscription)) :
  forall (expired : bool) (stats : BroadcastStats) (s : State),
  exists new : list (pystr * pystr),
    posts (snd (notify_webhooks W payload l expired stats s)) = new ++ posts s
    /\ (forall x, In x new -> exists ref w, In (ref, w) l /\ x = (url w, payload))
    /\ (List.length new
        <= List.length l * Z.to_nat (WEBHOOK_MAX_RETRIES (settings W)))%nat.
Proof.
  induction l as [ | [ref w] rest IH]; intros expired stats s.
  - exists []. cbn.
    split; [ reflexivity | ]. split; [ intros x [] | lia ].
  - cbn [notify_webhooks]. rewrite mbind_eq.
    pose proof (reload_posts W expired s) as Hr.
    destruct (reload W expired s) as [[[] | e] sr]; cbn [snd] in Hr.
    2:{ exists []. cbn [snd app]. split; [ exact Hr | ].
        split; [ intros x [] | cbn; lia ]. }
    rewrite mbind_eq.
    destruct (send_webhook_bound W (url w) payload sr) as (b & k & Hrun & Hk).
    rewrite Hrun.
    destruct (after_posts_fields k (url w) payload sr) as (_ & _ & _ & _ & Hposts).
    rewrite Hr in Hposts.
    assert (Hhere : forall x, In x (repeat (url w, payload) k) ->
              exists ref' w', In (ref', w') ((ref, w) :: rest) /\ x = (url w', payload)).
    { intros x Hx. apply repeat_spec in Hx. subst x.
      exists ref, w. split; [ left; reflexivity | reflexivity ]. }
    assert (Hrest : forall (e1 : bool) (stats1 : BroadcastStats) (s1 : State),
              posts s1 = repeat (url w, payload) k ++ posts s ->
              exists new,
                posts (snd (notify_webhooks W payload rest e1 stats1 s1)) = new ++ posts s
                /\ (forall x, In x new ->
                      exists ref' w', In (ref', w') ((ref, w) :: rest)
                                      /\ x = (url w', payload))
                /\ (List.length new
                    <= List.length ((ref, w) :: rest)
                       * Z.to_nat (WEBHOOK_MAX_RETRIES (settings W)))%nat).
    { intros e1 stats1 s1 H1.
      destruct (IH e1 stats1 s1) as (new & Hp & Hin & Hlen).
      exists (new ++ repeat (url w, payload) k).
      split; [ rewrite Hp, H1, app_assoc; reflexivity | ].
      split.
      - intros x Hxin. apply in_app_or in Hxin. destruct Hxin as [Hxin | Hxin].
        + destruct (Hin x Hxin) as (ref' & w' & Hw' & ->).
          exists ref', w'. split; [ right; exact Hw' | reflexivity ].
        + apply Hhere. exact Hxin.
      - rewrite length_app, repeat_length. cbn [List.length]. lia. }
    destruct b.
    + rewrite mbind_eq.
      pose proof (record_delivery_posts W ref (after_posts k (url w) payload sr)) as Hp2.
      destruct (mtry _ _ (after_posts k (url w) payload sr)) as [[[] | e] s2];
        cbn [snd] in Hp2.
      * apply Hrest. rewrite Hp2. exact Hposts.
      * exists (repeat (url w, payload) k). cbn [snd].
        split; [ rewrite Hp2; exact Hposts | ].
        split; [ exact Hhere | ].
        rewrite repeat_length. cbn [List.length]. lia.
    + apply Hrest. exact Hposts.
Qed.

(** When the query listing the subscribers fails, [broadcast_to_webhooks]
    reports no success and no failure and sends no request: the error
    is swallowed and nobody is notified. *)
Theorem broadcast_to_webhooks_listing_fails (W : World) (payload : pystr) (s : State) :
  db_fails W (tick s) = true ->
  broadcast_to_webhooks W payload s
  = (Ok (mk_broadcast_stats 0 0),
     mk_state (committed s) (persistent s) (pending s) (S (tick s)) (posts s)).
Proof.
  intros H. unfold broadcast_to_webhooks, get_active_webhooks. run.
  rewrite H. reflexivity.
Qed.

Lemma broadcast_to_webhooks_listing_fails_witness :
  broadcast_to_webhooks (with_db_fails quiet_world (fun _ => true)) (py "{}")
                        three_subscribers
  = (Ok (mk_broadcast_stats 0 0),
     mk_state (committed three_subscribers) (persistent three_subscribers)
              (pending three_subscribers) (S (tick three_subscribers))
              (posts three_subscribers)).
Proof.
  apply (broadcast_to_webhooks_listing_fails
           (with_db_fails quiet_world (fun _ => true)) (py "{}") three_subscribers).
  reflexivity.
Defined.

(** The requests of a broadcast, whether it returns or raises. *)
Lemma broadcast_to_webhooks_posts (W : World) (payload : pystr) (s : State) :
  exists new : list (pystr * pystr),
    posts (snd (broadcast_to_webhooks W payload s)) = new ++ posts s
    /\ (forall x, In x new ->
          exists w, In w (webhook_subscriptions (persistent s))
                    /\ is_active w = 1 /\ x = (url w, payload))
    /\ (List.length new
        <= List.length (filter (fun w => (is_active w =? 1)%Z)
                               (webhook_subscriptions (persistent s)))
           * Z.to_nat (WEBHOOK_MAX_RETRIES (settings W)))%nat.
Proof.
  destruct (db_fails W (tick s)) eqn:Hdb.
  - exists [].
    split.
    + unfold broadcast_to_webhooks, get_active_webhooks. run. rewrite Hdb. reflexivity.
    + cbn. split; [ intros x [] | lia ].
  - unfold broadcast_to_webhooks. rewrite mbind_eq, (get_active_webhooks_eq W s Hdb).
    set (active := filter (fun iw : nat * WebhookSubscription => is_active (snd iw) =? 1)
                          (indexed (webhook_subscriptions (persistent s)))).
    set (s1 := mk_state (committed s) (persistent s) (pending s) (S (tick s)) (posts s)).
    assert (Hlen : List.length active
                   = List.length (filter (fun w => is_active w =? 1)
                                         (webhook_subscriptions (persistent s)))).
    { unfold active. rewrite <- (length_map snd).
      pose proof (filter_indexed (fun w : WebhookSubscription => is_active w =? 1)
                    (webhook_subscriptions (persistent s))) as Hf.
      cbv beta in Hf. rewrite Hf. reflexivity. }
    destruct (is_empty active) eqn:He.
    + exists []. cbn.
      split; [ reflexivity | ]. split; [ intros x [] | lia ].
    + destruct (notify_webhooks_posts W payload active false (mk_broadcast_stats 0 0) s1)
        as (new & Hp & Hin & Hbound).
      exists new. split; [ exact Hp | ].
      split; [ | rewrite <- Hlen; exact Hbound ].
      intros x Hpin. destruct (Hin x Hpin) as (ref & w & Hw & ->).
      unfold active in Hw. apply filter_In in Hw. destruct Hw as [Hw Hact].
      exists w. split; [ | split; [ apply Z.eqb_eq; exact Hact | reflexivity ] ].
      unfold indexed in Hw. apply in_combine_r in Hw. exact Hw.
Qed.

(** ** Requests are sent by the dispatcher only *)

Lemma keeps_ret {A : Type} (a : A) : keeps_posts (ret a).
Proof. intros s. reflexivity. Qed.

Lemma keeps_raise {A : Type} (e : exn) : keeps_posts (@raise A e).
Proof. intros s. reflexivity. Qed.

Lemma keeps_lift {A : Type} (r : result A) : keeps_posts (lift r).
Proof. intros s. reflexivity. Qed.

Lemma keeps_bind {A B : Type} (m : M A) (k : A -> M B) :
  keeps_posts m -> (forall a, keeps_posts (k a)) -> keeps_posts (mbind m k).
Proof.
  intros Hm Hk s. unfold mbind. specialize (Hm s).
  destruct (m s) as [[a | e] s1]; cbn in *; [ | exact Hm ].
  rewrite (Hk a s1). exact Hm.
Qed.

Lemma keeps_mtry {A : Type} (m : M A) (h : exn -> option (M A)) :
  keeps_posts m -> (forall e k, h e = Some k -> keeps_posts k) -> keeps_posts (mtry m h).
Proof.
  intros Hm Hh s. unfold mtry. specialize (Hm s).
  destruct (m s) as [[a | e] s1]; cbn in *; [ exact Hm | ].
  destruct (h e) as [k | ] eqn:E; [ | exact Hm ].
  rewrite (Hh e k E s1). exact Hm.
Qed.

Lemma keeps_catch_Exception {A : Type} (m : M A) (k : exn -> M A) :
  keeps_posts m -> (forall e, keeps_posts (k e)) ->
  keeps_posts (mtry m (catch_Exception k)).
Proof.
  intros Hm Hk. apply keeps_mtry; [ exact Hm | ].
  intros e k' E. injection E as <-. apply Hk.
Qed.

Lemma keeps_catch_RequestException {A : Type} (m k : M A) :
  keeps_posts m -> keeps_posts k -> keeps_posts (mtry m (catch_RequestException k)).
Proof.
  intros Hm Hk. apply keeps_mtry; [ exact Hm | ].
  intros e k' E. destruct e; try discriminate; injection E as <-; exact Hk.
Qed.

Lemma keeps_finally {A : Type} (m : M A) (f : M unit) :
  keeps_posts m -> keeps_posts f -> keeps_posts (mfinally m f).
Proof.
  intros Hm Hf s. unfold mfinally. specialize (Hm s).
  destruct (m s) as [r s1]. specialize (Hf s1).
  destruct (f s1) as [[[] | e] s2]; cbn in *; congruence.
Qed.

Lemma keeps_next_tick : keeps_posts next_tick.
Proof. intros s. reflexivity. Qed.

Lemma keeps_get_state : keeps_posts get_state.
Proof. intros s. reflexivity. Qed.

Lemma keeps_set_persistent (t : Tables) : keeps_posts (set_persistent t).
Proof. intros s. reflexivity. Qed.

Lemma keeps_set_pending (t : Tables) : keeps_posts (set_pending t).
Proof. intros s. reflexivity. Qed.

Lemma keeps_rollback : keeps_posts rollback.
Proof. intros s. reflexivity. Qed.

Lemma keeps_SessionLocal : keeps_posts SessionLocal.
Proof. intros s. reflexivity. Qed.

Lemma keeps_close : keeps_posts close.
Proof. intros s. reflexivity. Qed.

Lemma keeps_raise_for_status (status : Z) : keeps_posts (raise_for_status status).
Proof.
  unfold raise_for_status.
  destruct ((400 <=? status) && (status <? 600)); [ apply keeps_raise | apply keeps_ret ].
Qed.

Lemma keeps_now (W : World) : keeps_posts (now W).
Proof. intros s. reflexivity. Qed.

Lemma keeps_round_trip (W : World) : keeps_posts (round_trip W).
Proof.
  unfold round_trip. apply keeps_bind; [ apply keeps_next_tick | ].
  intros n. destruct (db_fails W n); [ apply keeps_raise | apply keeps_ret ].
Qed.

Lemma keeps_commit (W : World) : keeps_posts (commit W).
Proof.
  intros s. unfold commit. run.
  destruct (db_fails W (tick s) || negb (flush_accepted (persistent s) (pending s)));
    reflexivity.
Qed.

Create HintDb keeps.

#[local] Hint Resolve keeps_ret keeps_raise keeps_lift keeps_next_tick keeps_get_state
  keeps_set_persistent keeps_set_pending keeps_rollback keeps_SessionLocal keeps_close
  keeps_raise_for_status keeps_now keeps_round_trip keeps_commit : keeps.

Ltac keeps_step :=
  match goal with
  | |- keeps_posts (mbind _ _) => apply keeps_bind; [ | intros ? ]
  | |- keeps_posts (mtry _ (catch_Exception _)) =>
      apply keeps_catch_Exception; [ | intros ? ]
  | |- keeps_posts (mtry _ (catch_RequestException _)) =>
      apply keeps_catch_RequestException
  | |- keeps_posts (mfinally _ _) => apply keeps_finally
  | |- keeps_posts (match ?x with _ => _ end) => destruct x
  | |- keeps_posts _ => solve [ auto with keeps ]
  end.

Ltac keeps := repeat keeps_step.

Lemma keeps_fetch_page (W : World) : keeps_posts (fetch_page W).
Proof. unfold fetch_page. keeps. Qed.

Lemma keeps_save_action (W : World) (stats : ScrapeStats) (a : action_dict) :
  keeps_posts (save_action W stats a).
Proof. unfold save_action, query_action, add_snapshot. keeps. Qed.

Lemma keeps_save_actions (W : World) (l : list action_dict) :
  forall stats, keeps_posts (save_actions W stats l).
Proof.
  induction l as [ | a r IH]; intros stats; cbn [save_actions].
  - apply keeps_ret.
  - apply keeps_bind; [ apply keeps_save_action | intros stats'; apply IH ].
Qed.

Lemma keeps_scrape_and_save (W : World) : keeps_posts (scrape_and_save W).
Proof.
  pose proof (keeps_fetch_page W). pose proof (keeps_save_actions W).
  unfold scrape_and_save, scraper_save_to_database. keeps.
Qed.

Lemma keeps_pdf_save_to_database (W : World) (i : Indicators) (u : pystr) (d : date) :
  keeps_posts (pdf_save_to_database W i u d).
Proof. unfold pdf_save_to_database. keeps. Qed.

Lemma keeps_cleanup_old_data (W : World) : keeps_posts (cleanup_old_data W).
Proof. unfold cleanup_old_data. keeps. Qed.

Lemma keeps_download_pdf (W : World) (u f : pystr) : keeps_posts (download_pdf W u f).
Proof. unfold download_pdf. keeps. Qed.

Lemma keeps_process_daily_pdf (W : World) (target_date : option date) :
  keeps_posts (process_daily_pdf W target_date).
Proof.
  pose proof (keeps_pdf_save_to_database W). pose proof (keeps_cleanup_old_data W).
  pose proof (keeps_download_pdf W).
  unfold process_daily_pdf, file_exists. keeps.
Qed.

(** Every request [broadcast_to_webhooks] sends carries the payload to
    the URL of a subscriber that is active, and it sends at most
    [WEBHOOK_MAX_RETRIES] requests for each of them: an inactive
    subscriber is never contacted. *)
Theorem broadcast_to_webhooks_posts_bounded (W : World) (payload : pystr) (s : State) :
  exists new : list (pystr * pystr),
    posts (snd (broadcast_to_webhooks W payload s)) = new ++ posts s
    /\ (forall x, In x new ->
          exists w, In w (webhook_subscriptions (persistent s))
                    /\ is_active w = 1 /\ x = (url w, payload))
    /\ (List.length new
        <= List.length (filter (fun w => (is_active w =? 1)%Z)
                               (webhook_subscriptions (persistent s)))
           * Z.to_nat (WEBHOOK_MAX_RETRIES (settings W)))%nat.
Proof.
  apply broadcast_to_webhooks_posts.
Qed.

(** ** The scheduled tasks *)

Lemma task_wrapper (W : World) (body : M unit) (s : State) :
  exists s',
    mtry (get_db_context W body) (catch_Exception (fun _ => ret tt)) s = (Ok tt, s')
    /\ posts s' = posts (snd (body (fresh s))).
Proof.
  unfold get_db_context, mfinally, SessionLocal, close, fresh.
  unfold mtry at 1. unfold mbind at 1.
  unfold mtry, mbind at 1.
  destruct (body _) as [[[] | e] s1]; cbn.
  - unfold commit. run.
    destruct (db_fails W (tick s1) || negb (flush_accepted (persistent s1) (pending s1)));
      cbn; eexists; split; reflexivity.
  - eexists; split; reflexivity.
Qed.

(** [scrape_brvm_task] never raises, whatever [scrape_and_save] does;
    it sends requests only when [scrape_and_save], run in a new session,
    returned counts with an insertion or an update, and then only to
    active subscribers, with the payload made from the sum of the two
    counts. When the page could not be read or the commit failed, nobody
    is notified. *)
Theorem scrape_brvm_task_notifies_after_change (W : World) (P : Payloads) (s : State) :
  exists s',
    scrape_brvm_task W P s = (Ok tt, s')
    /\ exists new,
         posts s' = new ++ posts s
         /\ (new <> [] ->
             exists stats s1,
               scrape_and_save W (fresh s) = (Ok stats, s1)
               /\ (0 < inserted stats \/ 0 < updated stats)
               /\ forall x, In x new ->
                    exists w, In w (webhook_subscriptions (persistent s1))
                              /\ is_active w = 1
                              /\ x = (url w,
                                      actions_payload P (inserted stats + updated stats)
                                        (clock W (tick s1)) (clock W (S (tick s1))))).
Proof.
  unfold scrape_brvm_task.
  match goal with
  | |- context [get_db_context W ?b] => destruct (task_wrapper W b s) as (s' & Hrun & Hposts)
  end.
  exists s'. split; [ exact Hrun | ]. clear Hrun.
  rewrite mbind_eq in Hposts.
  pose proof (keeps_scrape_and_save W (fresh s)) as Hkeep.
  destruct (scrape_and_save W (fresh s)) as [[stats | e] s1]; cbn [snd] in Hkeep, Hposts.
  - destruct ((inserted stats >? 0) || (updated stats >? 0)) eqn:Hc.
    + unfold notify_actions_update in Hposts.
      rewrite !mbind_eq in Hposts. unfold now in Hposts.
      unfold mbind at 1 2, next_tick, ret in Hposts. cbn in Hposts.
      match type of Hposts with
      | context [broadcast_to_webhooks W ?p ?s2] =>
          destruct (broadcast_to_webhooks_posts W p s2) as (new & Hp & Hin & _);
          destruct (broadcast_to_webhooks W p s2) as [[st | e] s3]
      end;
        cbn in Hposts, Hp, Hin;
        (exists new; split; [ rewrite Hposts, Hp, Hkeep; reflexivity | ]);
        (intros _; exists stats, s1; split; [ reflexivity | ];
         split; [ | exact Hin ];
         apply orb_prop in Hc; destruct Hc as [Hc | Hc]; apply Z.gtb_lt in Hc; lia).
    + exists []. cbn in Hposts. split; [ rewrite Hposts; exact Hkeep | ].
      intros H. contradiction H. reflexivity.
  - exists []. cbn in Hposts. split; [ rewrite Hposts; exact Hkeep | ].
    intros H. contradiction H. reflexivity.
Qed.

(** [extract_pdf_task] never raises; it sends requests only when
    [process_daily_pdf], run in a new session on the date it chooses
    itself, returned [True], and then only to active subscribers, with
    the payload made from the report of the latest date. *)
Theorem extract_pdf_task_notifies_after_success (W : World) (P : Payloads) (s : State) :
  exists s',
    extract_pdf_task W P s = (Ok tt, s')
    /\ exists new,
         posts s' = new ++ posts s
         /\ (new <> [] ->
             exists s1 latest,
               process_daily_pdf W None (fresh s) = (Ok true, s1)
               /\ latest_report (indicateurs_marche (persistent s1)) = Some latest
               /\ forall x, In x new ->
                    exists w, In w (webhook_subscriptions (persistent s1))
                              /\ is_active w = 1
                              /\ x = (url w,
                                      indicators_payload P (date_rapport latest)
                                        (valeurs latest) (clock W (S (tick s1))))).
Proof.
  unfold extract_pdf_task.
  match goal with
  | |- context [get_db_context W ?b] => destruct (task_wrapper W b s) as (s' & Hrun & Hposts)
  end.
  exists s'. split; [ exact Hrun | ]. clear Hrun.
  rewrite mbind_eq in Hposts.
  pose proof (keeps_process_daily_pdf W None (fresh s)) as Hkeep.
  destruct (process_daily_pdf W None (fresh s)) as [[[ | ] | e] s1];
    cbn [snd] in Hkeep, Hposts.
  - unfold round_trip in Hposts. rewrite !mbind_eq in Hposts.
    unfold next_tick in Hposts at 1. cbn in Hposts.
    destruct (db_fails W (tick s1)); cbn in Hposts.
    + exists []. split; [ rewrite Hposts; exact Hkeep | ].
      intros H. contradiction H. reflexivity.
    + destruct (latest_report (indicateurs_marche (persistent s1))) as [latest | ] eqn:El.
      * unfold notify_indicators_update, now in Hposts.
        rewrite !mbind_eq in Hposts. unfold next_tick, ret in Hposts. cbn in Hposts.
        match type of Hposts with
        | context [broadcast_to_webhooks W ?p ?s2] =>
            destruct (broadcast_to_webhooks_posts W p s2) as (new & Hp & Hin & _);
            destruct (broadcast_to_webhooks W p s2) as [[st | e] s3]
        end;
          cbn in Hposts, Hp, Hin;
          (exists new; split; [ rewrite Hposts, Hp, Hkeep; reflexivity | ]);
          (intros _; exists s1, latest; split; [ reflexivity | ];
           split; [ exact El | exact Hin ]).
      * exists []. cbn in Hposts. split; [ rewrite Hposts; exact Hkeep | ].
        intros H. contradiction H. reflexivity.
  - exists []. cbn in Hposts. split; [ rewrite Hposts; exact Hkeep | ].
    intros H. contradiction H. reflexivity.
  - exists []. cbn in Hposts. split; [ rewrite Hposts; exact Hkeep | ].
    intros H. contradiction H. reflexivity.
Qed.

(** A run of [scrape_brvm_task]: one new quote is stored and each of the
    three subscribers receives one request. *)
Example scrape_brvm_task_example :
  let W := with_http_post (with_page quiet_world scenario_page)
                          (fun _ _ _ => Response 200 tt) in
  let s' := snd (scrape_brvm_task W sample_payloads three_subscribers) in
  fst (scrape_brvm_task W sample_payloads three_subscribers) = Ok tt
  /\ map symbole (actions (committed s')) = [py "ABCD"]
  /\ map fst (posts s') = [hook_c; hook_b; hook_a]
  /\ map snd (posts s') = [py "actions"; py "actions"; py "actions"].
Proof. vm_compute. repeat split. Qed.

(** ** A refused commit during a broadcast *)


